(** * AI-Arkitekt: analysis strategies, rankers and the analyzer chain

    A shallow embedding of the recommendation engine of the repository:
    the five analyzers wired into the fallback chain of [server.js]
    (CodeReplacementAnalyzer, DeepCodeAnalyzer, IntelligentCodeAnalyzer,
    EnhancedAnalyzer in its "simple" variant, CodeAnalyzer), the two
    analyzers that are present but not wired in (AdvancedCodeAnalyzer,
    the full EnhancedAnalyzer), their directory walk, and the chain itself.

    Conventions.
    - JavaScript numbers that stay integral in the source are [Z]: they
      are far below 2^53, where the arithmetic of the source is exact.
      The fractional ones (confidence, scores) are rationals [Q].  A
      confidence is the decimal as written.  The keys by which the
      rankers sort and the score by which the replacement analyzer
      selects providers are computed as the source computes them, every
      operation rounded to the nearest double ([Js.double], [Js.add],
      [Js.mul], ...), so that two keys are equal exactly when the doubles
      of the source are.  The pattern density
      [count / totalLines * 1000], whose divisor is zero for a project
      without code, is a [jsnum]: finite, infinite or NaN.
    - [Array.prototype.sort] is stable (ECMAScript 2019); with a
      comparator [(a, b) => key b - key a] its result is the unique stable
      arrangement in non-increasing key order, which [Js.sortDesc]
      computes.
    - A call that can throw returns a [Js.result]; [try { } catch { }] is
      a match on it.
    - Text-only payload fields of findings (descriptions, bullet lists,
      code examples) take no part in any control flow and are left out of
      the records. *)

From Stdlib Require Import List String Ascii ZArith QArith Qround Qminmax Lia Bool.
From Stdlib Require Import Permutation Sorted Arith Lqa.
Import ListNotations.
Open Scope string_scope.
Open Scope list_scope.
Open Scope Z_scope.

(* ===================================================================== *)
(** ** JavaScript primitives used by the analyzers *)
(* ===================================================================== *)

Module Js.

(** Outcome of a call that may throw. *)
Inductive result (E A : Type) : Type :=
| Ok (a : A)
| Throw (e : E).
Arguments Ok {E A} a.
Arguments Throw {E A} e.

Definition bind {E A B} (r : result E A) (k : A -> result E B) : result E B :=
  match r with
  | Ok a => k a
  | Throw e => Throw e
  end.

(** [s.includes(sub)] *)
Fixpoint includes (s sub : string) : bool :=
  if prefix sub s then true
  else match s with
       | EmptyString => false
       | String _ s' => includes s' sub
       end.

(** [s.startsWith(p)] *)
Definition startsWith (s p : string) : bool := prefix p s.

(** [arr.includes(x)] on arrays of strings. *)
Definition arr_includes (l : list string) (x : string) : bool :=
  existsb (String.eqb x) l.

(** [arr.slice(0, n)] *)
Definition slice0 {A} (n : nat) (l : list A) : list A := firstn n l.

(** [Math.round(x)] on a finite number: round half up. *)
Definition round (x : Q) : Z := Qfloor (x + (1 # 2)).

(** [Math.floor(n / d)] for non-negative integers. *)
Definition floor_div (n d : Z) : Z := n / d.

(** *** Rounding to a double

    [q / 2^s] as a fraction of two integers. *)
Definition scaled (a b s : Z) : Z * Z :=
  if 0 <=? s then (a, b * 2 ^ s) else (a * 2 ^ (- s), b).

(** The integer nearest to [n / d]; of two equally near, the even one. *)
Definition nearestEven (n d : Z) : Z :=
  let m := n / d in
  let r := n mod d in
  if 2 * r <? d then m
  else if d <? 2 * r then m + 1
  else if Z.even m then m else m + 1.

(** The double nearest to [a / b] for positive [a] and [b]: a significand
    of 53 bits, ties to the even significand.  [e] is the exponent of the
    leading bit and [2^s] the unit in the last place. *)
Definition doublePos (a b : Z) : Q :=
  let e0 := Z.log2 a - Z.log2 b in
  let '(n0, d0) := scaled a b e0 in
  let e := if n0 <? d0 then e0 - 1 else e0 in
  let s := e - 52 in
  let '(n, d) := scaled a b s in
  let m := nearestEven n d in
  if 0 <=? s then inject_Z (m * 2 ^ s) else Qred (m # Z.to_pos (2 ^ (- s))).

(** The double nearest to a rational: the value of a decimal literal, or
    of an exact result.  The exponent range of the doubles is left out
    (no overflow to [Infinity], no subnormal numbers): the scores and
    keys of the analyzers are far inside it, and the one quotient that
    can be huge is cut to 5 by [Math.min] right after. *)
Definition double (q : Q) : Q :=
  match Qnum q with
  | Z0 => 0%Q
  | Zpos a => doublePos (Zpos a) (Zpos (Qden q))
  | Zneg a => (- doublePos (Zpos a) (Zpos (Qden q)))%Q
  end.

(** [x + y], [x - y], [x * y] and [x / y] on doubles: the exact result,
    rounded.  [div] is for a divisor other than zero. *)
Definition add (x y : Q) : Q := double (x + y).
Definition sub (x y : Q) : Q := double (x - y).
Definition mul (x y : Q) : Q := double (x * y).
Definition div (x y : Q) : Q := double (x / y).

(** A number that may have left the finite range: the result of a
    division whose divisor can be zero. *)
Inductive jsnum : Type :=
| Fin (q : Q)
| PosInf
| NaN.

(** [n / d] for non-negative integers [n], [d]. *)
Definition div_nat (n d : nat) : jsnum :=
  match d, n with
  | O, O => NaN
  | O, _ => PosInf
  | _, _ => Fin (inject_Z (Z.of_nat n) / inject_Z (Z.of_nat d))
  end.

Definition mul_q (x : jsnum) (k : Q) : jsnum :=
  match x with
  | Fin q => Fin (q * k)
  | PosInf => if Qle_bool k 0 then NaN else PosInf
  | NaN => NaN
  end.

(** [x > k]: false on NaN. *)
Definition gt (x : jsnum) (k : Q) : bool :=
  match x with
  | Fin q => negb (Qle_bool q k)
  | PosInf => true
  | NaN => false
  end.

(** [x < k]: false on NaN. *)
Definition lt (x : jsnum) (k : Q) : bool :=
  match x with
  | Fin q => negb (Qle_bool k q)
  | PosInf => false
  | NaN => false
  end.

(** *** Stable sort in non-increasing key order

    [l.sort((a, b) => key b - key a)].  The head of the input is inserted
    in front of the first element whose key does not exceed its own, so
    elements with equal keys keep their input order. *)
Section Sort.
Context {A : Type} (key : A -> Q).

Fixpoint insertDesc (x : A) (l : list A) : list A :=
  match l with
  | [] => [x]
  | y :: r => if Qle_bool (key y) (key x) then x :: y :: r
              else y :: insertDesc x r
  end.

Fixpoint sortDesc (l : list A) : list A :=
  match l with
  | [] => []
  | x :: r => insertDesc x (sortDesc r)
  end.

Definition keyGe (a b : A) : Prop := (key b <= key a)%Q.

Definition hasKey (k : Q) (a : A) : bool := Qeq_bool (key a) k.

(** [sorted] is [l] put in non-increasing [key] order with equal keys left
    in the order they have in [l]: the one list a stable sort of [l] can
    return. *)
Definition stablySorted (l sorted : list A) : Prop :=
  Permutation sorted l /\
  StronglySorted keyGe sorted /\
  forall k, filter (hasKey k) sorted = filter (hasKey k) l.

End Sort.

End Js.

(* ===================================================================== *)
(** ** Regular expressions of the pattern tables

    Every regular expression that the modelled code applies to file
    content is a case-insensitive alternation whose alternatives are
    literals joined by [.*] (groups such as [app\.(get|post)] are written
    out as their alternatives, in order).  [.] matches any character but a
    line terminator, so [a.*b] asks for [b] after [a] on the same line.
    Content is the UTF-8 text of the file; the literals are ASCII, for
    which the [i] flag is plain ASCII case folding. *)
(* ===================================================================== *)

Module Regex.

(** One alternative: the literals joined by [.*]. *)
Definition alt : Type := list string.

Record t : Type := { alts : list alt }.

(** [/a|b.*c/i] is [re [["a"]; ["b"; "c"]]]. *)
Definition re (l : list alt) : t := {| alts := l |}.

Definition lower (c : ascii) : ascii :=
  let n := nat_of_ascii c in
  if andb (Nat.leb 65 n) (Nat.leb n 90) then ascii_of_nat (n + 32) else c.

Fixpoint prefix_ci (p s : string) : bool :=
  match p, s with
  | EmptyString, _ => true
  | String a p', String b s' => andb (Ascii.eqb (lower a) (lower b)) (prefix_ci p' s')
  | String _ _, EmptyString => false
  end.

Fixpoint drop (n : nat) (s : string) : string :=
  match n, s with
  | O, _ => s
  | S n', String _ s' => drop n' s'
  | S _, EmptyString => EmptyString
  end.

(** LF, CR, U+2028 and U+2029 end a line. *)
Definition at_line_end (s : string) : bool :=
  match s with
  | EmptyString => true
  | String c _ =>
      orb (orb (Ascii.eqb c "010"%char) (Ascii.eqb c "013"%char))
          (orb (prefix (String "226" (String "128" (String "168" EmptyString))) s)
               (prefix (String "226" (String "128" (String "169" EmptyString))) s))
  end.

(** First occurrence of [lit] on the rest of the current line: the text
    that follows it. *)
Fixpoint find_on_line (lit s : string) : option string :=
  if prefix_ci lit s then Some (drop (String.length lit) s)
  else match s with
       | EmptyString => None
       | String _ s' => if at_line_end s then None else find_on_line lit s'
       end.

(** End (as what is left of [s]) of the last occurrence of [lit] on the
    rest of the current line. *)
Fixpoint last_on_line (lit s : string) : option string :=
  let here := if prefix_ci lit s then Some (drop (String.length lit) s) else None in
  match s with
  | EmptyString => here
  | String _ s' =>
      if at_line_end s then here
      else match last_on_line lit s' with
           | Some r => Some r
           | None => here
           end
  end.

(** The literals after the first one can be found in order on the line. *)
Fixpoint chain_on_line (lits : list string) (s : string) : bool :=
  match lits with
  | [] => true
  | l :: rest =>
      match find_on_line l s with
      | Some s' => chain_on_line rest s'
      | None => false
      end
  end.

(** Match of one alternative at the start of [s]: what is left of [s]
    after the match.  Greedy [.*] ends the match at the last occurrence
    of the final literal on the line. *)
Definition match_alt_here (a : alt) (s : string) : option string :=
  match a with
  | [] => Some s
  | l :: rest =>
      if prefix_ci l s then
        let s1 := drop (String.length l) s in
        match rest with
        | [] => Some s1
        | _ => if chain_on_line rest s1
               then last_on_line (List.last rest EmptyString) s1
               else None
        end
      else None
  end.

(** Alternatives are tried in order. *)
Fixpoint match_here (al : list alt) (s : string) : option string :=
  match al with
  | [] => None
  | a :: rest =>
      match match_alt_here a s with
      | Some r => Some r
      | None => match_here rest s
      end
  end.

(** [r.test(s)], also the truth value of [s.match(r)]. *)
Fixpoint test_from (al : list alt) (s : string) : bool :=
  match match_here al s with
  | Some _ => true
  | None => match s with
            | EmptyString => false
            | String _ s' => test_from al s'
            end
  end.

Definition test (r : t) (s : string) : bool := test_from (alts r) s.

(** [(s.match(r) || []).length] for a regular expression with the [g]
    flag: the matches are taken left to right without overlap. *)
Fixpoint count_from (fuel : nat) (al : list alt) (s : string) : nat :=
  match fuel with
  | O => O
  | S fuel' =>
      match match_here al s with
      | Some r =>
          let r' := if Nat.ltb (String.length r) (String.length s) then r
                    else drop 1 s in
          match s with
          | EmptyString => 1%nat
          | String _ _ => S (count_from fuel' al r')
          end
      | None =>
          match s with
          | EmptyString => O
          | String _ s' => count_from fuel' al s'
          end
      end
  end.

Definition matchCount (r : t) (s : string) : nat :=
  count_from (S (String.length s)) (alts r) s.

End Regex.

(* ===================================================================== *)
(** ** Provider catalog and file access *)
(* ===================================================================== *)

(** One entry of [data/comprehensive-api-database.json]. *)
Record Provider : Type := {
  name : string;
  company : string;
  url : string;
  pricing : string;
  business_impact : string;
  implementation_time : string;
  complexity : string;
  roi : string;
  use_cases : list string;
  provider_category : string
}.

(** The catalog file is not part of the sources; its sections are the
    arrays the analyzers index it with. *)
Record ApiDatabase : Type := {
  payments : list Provider;
  authentication : list Provider;
  analytics : list Provider;
  communication : list Provider;
  search : list Provider;
  media_storage : list Provider;
  monitoring : list Provider;
  ai_ml : list Provider
}.

(** The provider object attached to a finding
    ([{ name, company, url, pricing, ..., roi }]). *)
Record ProviderRef : Type := {
  ref_name : string;
  ref_company : option string;
  ref_pricing : string;
  ref_businessImpact : string;
  ref_implementationTime : string;
  ref_complexity : string;
  ref_roi : string
}.

Definition providerRef (p : Provider) : ProviderRef :=
  {| ref_name := name p;
     ref_company := Some (company p);
     ref_pricing := pricing p;
     ref_businessImpact := business_impact p;
     ref_implementationTime := implementation_time p;
     ref_complexity := complexity p;
     ref_roi := roi p |}.

Module Fs.

(** A record pushed by the directory walk: [{ path, ext }]. *)
Record FileRecord : Type := { path : string; ext : string }.

(** The message of a thrown [Error]. *)
Definition Error : Type := string.

(** [fs.readFileSync(path.join(projectPath, p), 'utf8')] for the project
    under analysis. *)
Definition Reader : Type := string -> Js.result Error string.

(** [content.split('\n').length] *)
Fixpoint lineCount (s : string) : nat :=
  match s with
  | EmptyString => 1%nat
  | String c s' => if Ascii.eqb c "010"%char then S (lineCount s') else lineCount s'
  end.

(** [content.split('\n')] *)
Fixpoint lines_acc (cur : string) (s : string) : list string :=
  match s with
  | EmptyString => [cur]
  | String c s' =>
      if Ascii.eqb c "010"%char then cur :: lines_acc EmptyString s'
      else lines_acc (cur ++ String c EmptyString)%string s'
  end.

Definition lines (s : string) : list string := lines_acc EmptyString s.

(** The read of the file succeeds. *)
Definition readable (read : Reader) (f : FileRecord) : bool :=
  match read (path f) with
  | Js.Ok _ => true
  | Js.Throw _ => false
  end.

End Fs.

(* ===================================================================== *)
(** ** Findings *)
(* ===================================================================== *)

(** A finding of the enhanced, intelligent and deep analyzers. *)
Record Finding : Type := {
  id : string;
  title : string;
  category : string;
  impact : Z;
  effort : Z;
  confidence : Q;
  providers : list ProviderRef
}.

(** [package.json] as the analyzers read it. *)
Record PackageJson : Type := {
  dependencies : list string;     (* Object.keys(pkg.dependencies || {}) *)
  keywords : list string;         (* pkg.keywords || [] *)
  description : string            (* (pkg.description || '').toLowerCase() *)
}.

Inductive PkgFile : Type :=
| NoPkg                          (* fs.existsSync is false *)
| BadPkg                         (* JSON.parse throws *)
| Pkg (p : PackageJson).

(* ===================================================================== *)
(** ** CodeAnalyzer: the baseline strategy ([analyzer.js]) *)
(* ===================================================================== *)

Module CodeAnalyzer.

Record Patterns : Type := {
  hasAuth : bool; hasAPI : bool; hasDatabase : bool; hasPayment : bool;
  hasFileUpload : bool; hasEmail : bool; hasChat : bool; hasSearch : bool
}.

Definition initialPatterns : Patterns :=
  {| hasAuth := false; hasAPI := false; hasDatabase := false; hasPayment := false;
     hasFileUpload := false; hasEmail := false; hasChat := false; hasSearch := false |}.

Definition isScript (e : string) : bool := orb (String.eqb e ".js") (String.eqb e ".ts").

Definition any_includes (content : string) (l : list string) : bool :=
  existsb (Js.includes content) l.

(** Body of the [forEach] of [detectPatterns] for one file content. *)
Definition notePatterns (content : string) (p : Patterns) : Patterns :=
  {| hasAuth := orb (any_includes content ["passport"; "jwt"; "auth"]) (hasAuth p);
     hasAPI := orb (any_includes content ["express"; "app.get"; "app.post"]) (hasAPI p);
     hasDatabase := orb (any_includes content ["mongoose"; "sequelize"; "prisma"]) (hasDatabase p);
     hasPayment := orb (any_includes content ["stripe"; "paypal"; "payment"]) (hasPayment p);
     hasFileUpload := orb (any_includes content ["multer"; "upload"]) (hasFileUpload p);
     hasEmail := orb (any_includes content ["nodemailer"; "sendgrid"]) (hasEmail p);
     hasChat := orb (any_includes content ["socket.io"; "websocket"]) (hasChat p);
     hasSearch := orb (any_includes content ["elasticsearch"; "search"]) (hasSearch p) |}.

(** [detectPatterns]: [readFileSync] is called outside any [try]. *)
Fixpoint detectPatterns_from (read : Fs.Reader) (files : list Fs.FileRecord)
    (p : Patterns) : Js.result Fs.Error Patterns :=
  match files with
  | [] => Js.Ok p
  | f :: rest =>
      if isScript (Fs.ext f) then
        Js.bind (read (Fs.path f)) (fun content =>
          detectPatterns_from read rest (notePatterns content p))
      else detectPatterns_from read rest p
  end.

Definition detectPatterns (read : Fs.Reader) (files : list Fs.FileRecord)
  : Js.result Fs.Error Patterns :=
  detectPatterns_from read files initialPatterns.

Record Dependencies : Type := { packages : list string; security : list string }.

Definition riskyPackages : list string := ["lodash"; "moment"; "request"].

(** [analyzeDependencies]: [JSON.parse] is called outside any [try]. *)
Definition analyzeDependencies (pkg : PkgFile) : Js.result Fs.Error Dependencies :=
  match pkg with
  | NoPkg => Js.Ok {| packages := []; security := [] |}
  | BadPkg => Js.Throw "Unexpected token in JSON"
  | Pkg p =>
      Js.Ok {| packages := dependencies p;
               security := filter (Js.arr_includes riskyPackages) (dependencies p) |}
  end.

Record GdprRisk : Type := { risk_file : string; risk_type : string; severity : string }.

Definition personalDataPatterns : list Regex.t :=
  [ Regex.re [["email"]]; Regex.re [["phone"]]; Regex.re [["address"]];
    Regex.re [["name"]]; Regex.re [["birthday"]]; Regex.re [["ssn"]];
    Regex.re [["passport"]]; Regex.re [["ip"; "address"]] ].

Definition thirdPartyServices : list string :=
  ["google-analytics"; "facebook"; "mixpanel"; "hotjar"].

Definition fileRisks (file content : string) : list GdprRisk :=
  map (fun _ => {| risk_file := file; risk_type := "personal_data"; severity := "medium" |})
      (filter (fun r => Regex.test r content) personalDataPatterns)
  ++ (if any_includes content ["cookie"; "localStorage"; "sessionStorage"]
      then [{| risk_file := file; risk_type := "data_storage"; severity := "low" |}]
      else [])
  ++ map (fun _ => {| risk_file := file; risk_type := "third_party"; severity := "high" |})
         (filter (Js.includes content) thirdPartyServices).

(** [checkGDPRRisks]: again an unguarded [readFileSync]. *)
Fixpoint checkGDPRRisks (read : Fs.Reader) (files : list Fs.FileRecord)
  : Js.result Fs.Error (list GdprRisk) :=
  match files with
  | [] => Js.Ok []
  | f :: rest =>
      if isScript (Fs.ext f) then
        Js.bind (read (Fs.path f)) (fun content =>
          Js.bind (checkGDPRRisks read rest) (fun risks =>
            Js.Ok (fileRisks (Fs.path f) content ++ risks)))
      else checkGDPRRisks read rest
  end.

Record Suggestion : Type := {
  category : string;
  title : string;
  impact : Z;
  effort : Z;
  apis : list string;
  estimatedHours : Z
}.

Definition chatbot : Suggestion :=
  {| category := "UX"; title := "Lägg till AI-chatbot för kundsupport";
     impact := 8; effort := 3;
     apis := ["OpenAI GPT-4"; "Anthropic Claude"; "Dialogflow"]; estimatedHours := 8 |}.

Definition betterSearch : Suggestion :=
  {| category := "UX"; title := "Förbättra sökfunktionalitet";
     impact := 7; effort := 4;
     apis := ["Elasticsearch"; "Algolia"; "Azure Cognitive Search"]; estimatedHours := 16 |}.

Definition recommendations : Suggestion :=
  {| category := "Business"; title := "Personaliserade produktrekommendationer";
     impact := 9; effort := 6;
     apis := ["AWS Personalize"; "Google Recommendations AI"; "Azure Personalizer"];
     estimatedHours := 32 |}.

Definition monitoringSuggestion : Suggestion :=
  {| category := "DevOps"; title := "Implementera avancerad monitorering";
     impact := 8; effort := 4;
     apis := ["DataDog"; "New Relic"; "Grafana Cloud"]; estimatedHours := 12 |}.

Definition contentGeneration : Suggestion :=
  {| category := "Content"; title := "Automatisk innehållsgenerering";
     impact := 6; effort := 3;
     apis := ["OpenAI GPT-4"; "Jasper AI"; "Copy.ai"]; estimatedHours := 10 |}.

Definition dependencyRisks : Suggestion :=
  {| category := "Security"; title := "Uppdatera säkerhetsrisker i dependencies";
     impact := 9; effort := 2;
     apis := ["Snyk"; "WhiteSource"; "GitHub Security"]; estimatedHours := 4 |}.

Definition generateSuggestions (p : Patterns) (d : Dependencies) : list Suggestion :=
  (if negb (hasChat p) then [chatbot] else [])
  ++ (if negb (hasSearch p) then [betterSearch] else [])
  ++ [recommendations; monitoringSuggestion; contentGeneration]
  ++ (if Nat.ltb 0 (List.length (security d)) then [dependencyRisks] else []).

(** [{ ...s, score }] *)
Record Ranked : Type := { suggestion : Suggestion; score : Q }.

(** [(s.impact * 2 - s.effort) / s.estimatedHours * 10]: the whole
    numbers are exact, the quotient and the product are rounded.  The
    hours are a positive literal in every suggestion of the generator;
    a division by zero is not modelled. *)
Definition scoreOf (s : Suggestion) : Q :=
  Js.mul (Js.div (inject_Z (impact s * 2 - effort s)) (inject_Z (estimatedHours s))) 10.

Definition rankSuggestions (l : list Suggestion) : list Ranked :=
  Js.slice0 10
    (Js.sortDesc score
       (map (fun s => {| suggestion := s; score := scoreOf s |}) l)).

Definition generateCodeSnippets (top : list Ranked) : list string :=
  flat_map (fun r =>
    let s := suggestion r in
    (if andb (String.eqb (category s) "UX") (Js.includes (title s) "chatbot")
     then ["Express Chatbot Route"] else [])
    ++ (if andb (String.eqb (category s) "Business") (Js.includes (title s) "rekommendationer")
        then ["Enkel Rekommendationsmotor"] else [])) top.

Record Output : Type := {
  out_patterns : Patterns;
  out_dependencies : Dependencies;
  suggestions : list Ranked;
  codeSnippets : list string;
  gdprFlags : list GdprRisk
}.

(** [analyzeProject], given the records of [getFileStructure]. *)
Definition analyzeProject (read : Fs.Reader) (files : list Fs.FileRecord)
    (pkg : PkgFile) : Js.result Fs.Error Output :=
  Js.bind (analyzeDependencies pkg) (fun deps =>
  Js.bind (detectPatterns read files) (fun pats =>
  Js.bind (checkGDPRRisks read files) (fun risks =>
    let ranked := rankSuggestions (generateSuggestions pats deps) in
    Js.Ok {| out_patterns := pats;
             out_dependencies := deps;
             suggestions := ranked;
             codeSnippets := generateCodeSnippets (Js.slice0 3 ranked);
             gdprFlags := risks |}))).

End CodeAnalyzer.

(* ===================================================================== *)
(** ** EnhancedAnalyzer, the variant wired into the chain
       ([enhanced-analyzer-simple.js]) *)
(* ===================================================================== *)

Module EnhancedAnalyzerSimple.

Record Patterns : Type := {
  hasProductCatalog : bool; hasShoppingCart : bool; hasCheckout : bool;
  hasDatabase : bool; hasDataManagement : bool; hasReporting : bool;
  hasUserManagement : bool; hasFileManagement : bool; hasWorkflow : bool;
  hasAPI : bool; hasAuth : bool; hasLogging : bool; hasValidation : bool;
  hasCaching : bool; hasBackup : bool;
  hasPublicWebsite : bool; hasCustomerFacing : bool; hasChatbot : bool;
  hasAnalytics : bool; hasSearch : bool; hasRecommendations : bool
}.

Definition initialPatterns : Patterns :=
  {| hasProductCatalog := false; hasShoppingCart := false; hasCheckout := false;
     hasDatabase := false; hasDataManagement := false; hasReporting := false;
     hasUserManagement := false; hasFileManagement := false; hasWorkflow := false;
     hasAPI := false; hasAuth := false; hasLogging := false; hasValidation := false;
     hasCaching := false; hasBackup := false;
     hasPublicWebsite := false; hasCustomerFacing := false; hasChatbot := false;
     hasAnalytics := false; hasSearch := false; hasRecommendations := false |}.

Definition reDatabase := Regex.re [["database"]; ["db."]; ["sql"]; ["mysql"]; ["postgres"]; ["mongodb"]; ["sqlite"]].
Definition reDataManagement := Regex.re [["crud"]; ["create"]; ["update"]; ["delete"]; ["insert"]; ["select"]; ["query"]].
Definition reReporting := Regex.re [["employee"]; ["staff"]; ["internal"]; ["admin"]; ["management"]; ["inventory"]; ["report"]].
Definition reFileManagement := Regex.re [["upload"]; ["download"]; ["file"]; ["document"]; ["storage"]].
Definition reUserManagement := Regex.re [["user"]; ["login"]; ["auth"]; ["permission"]; ["role"]].
Definition reAPI := Regex.re [["app.get"]; ["app.post"]; ["app.put"]; ["app.delete"]; ["router."]; ["api"]; ["endpoint"]].
Definition rePublic := Regex.re [["customer"]; ["client"]; ["public"]; ["website"]; ["landing"]; ["home"]].
Definition reEcommerce := Regex.re [["product"]; ["cart"]; ["checkout"]; ["payment"]; ["order"]].
Definition reLogging := Regex.re [["log"]; ["console."]; ["winston"]; ["bunyan"]].
Definition reValidation := Regex.re [["validate"]; ["joi"]; ["yup"]; ["schema"]].
Definition reCaching := Regex.re [["cache"]; ["redis"]; ["memcached"]].
Definition rePublicKeywords := Regex.re [["customer"]; ["client"]; ["public"]; ["website"]; ["shop"]; ["buy"]; ["sell"]].
Definition reInternalKeywords := Regex.re [["employee"]; ["staff"]; ["internal"]; ["admin"]; ["management"]; ["inventory"]].

Definition isScanned (e : string) : bool :=
  Js.arr_includes [".js"; ".ts"; ".py"; ".java"] e.

(** Body of the inner [try] of [detectAdvancedPatterns] for one content. *)
Definition notePatterns (content : string) (p : Patterns) : Patterns :=
  let eco := Regex.test reEcommerce content in
  {| hasProductCatalog := orb eco (hasProductCatalog p);
     hasShoppingCart := hasShoppingCart p;
     hasCheckout := hasCheckout p;
     hasDatabase := orb (Regex.test reDatabase content) (hasDatabase p);
     hasDataManagement := orb (Regex.test reDataManagement content) (hasDataManagement p);
     hasReporting := orb (Regex.test reReporting content) (hasReporting p);
     hasUserManagement := orb (Regex.test reUserManagement content) (hasUserManagement p);
     hasFileManagement := orb (Regex.test reFileManagement content) (hasFileManagement p);
     hasWorkflow := hasWorkflow p;
     hasAPI := orb (Regex.test reAPI content) (hasAPI p);
     hasAuth := hasAuth p;
     hasLogging := orb (Regex.test reLogging content) (hasLogging p);
     hasValidation := orb (Regex.test reValidation content) (hasValidation p);
     hasCaching := orb (Regex.test reCaching content) (hasCaching p);
     hasBackup := hasBackup p;
     hasPublicWebsite := orb (Regex.test rePublic content) (hasPublicWebsite p);
     hasCustomerFacing := orb eco (hasCustomerFacing p);
     hasChatbot := hasChatbot p;
     hasAnalytics := hasAnalytics p;
     hasSearch := hasSearch p;
     hasRecommendations := hasRecommendations p |}.

(** The [forEach] over the files; a file whose read throws is skipped.
    The second component is [codeContent]. *)
Fixpoint scanFiles (read : Fs.Reader) (files : list Fs.FileRecord)
    (acc : Patterns * string) : Patterns * string :=
  match files with
  | [] => acc
  | f :: rest =>
      if isScanned (Fs.ext f) then
        match read (Fs.path f) with
        | Js.Ok content =>
            scanFiles read rest
              (notePatterns content (fst acc), (snd acc ++ content ++ " ")%string)
        | Js.Throw _ => scanFiles read rest acc
        end
      else scanFiles read rest acc
  end.

Definition setCustomerFacing (b : bool) (p : Patterns) : Patterns :=
  {| hasProductCatalog := hasProductCatalog p; hasShoppingCart := hasShoppingCart p;
     hasCheckout := hasCheckout p; hasDatabase := hasDatabase p;
     hasDataManagement := hasDataManagement p; hasReporting := hasReporting p;
     hasUserManagement := hasUserManagement p; hasFileManagement := hasFileManagement p;
     hasWorkflow := hasWorkflow p; hasAPI := hasAPI p; hasAuth := hasAuth p;
     hasLogging := hasLogging p; hasValidation := hasValidation p;
     hasCaching := hasCaching p; hasBackup := hasBackup p;
     hasPublicWebsite := hasPublicWebsite p; hasCustomerFacing := b;
     hasChatbot := hasChatbot p; hasAnalytics := hasAnalytics p;
     hasSearch := hasSearch p; hasRecommendations := hasRecommendations p |}.

Definition detectAdvancedPatterns (read : Fs.Reader) (files : list Fs.FileRecord)
  : Patterns :=
  let '(p, codeContent) := scanFiles read files (initialPatterns, EmptyString) in
  let publicKeywords := Regex.matchCount rePublicKeywords codeContent in
  let internalKeywords := Regex.matchCount reInternalKeywords codeContent in
  setCustomerFacing (Nat.ltb internalKeywords publicKeywords) p.

Record BusinessContext : Type := {
  type : string; audience : string; purpose : string; scale : string; industry : string
}.

Definition defaultContext : BusinessContext :=
  {| type := "internal_tool"; audience := "internal"; purpose := "data_management";
     scale := "small"; industry := "general" |}.

Definition isContentFile (e : string) : bool :=
  Js.arr_includes [".js"; ".ts"; ".py"] e.

Fixpoint collectContent (read : Fs.Reader) (files : list Fs.FileRecord)
    (acc : string) : string :=
  match files with
  | [] => acc
  | f :: rest =>
      if isContentFile (Fs.ext f) then
        match read (Fs.path f) with
        | Js.Ok content => collectContent read rest (acc ++ content ++ " ")%string
        | Js.Throw _ => collectContent read rest acc
        end
      else collectContent read rest acc
  end.

Definition reShop := Regex.re [["shop"]; ["cart"]; ["product"]; ["payment"]; ["order"]; ["customer"]; ["buy"]; ["sell"]].
Definition reInternal := Regex.re [["employee"]; ["staff"]; ["admin"]; ["internal"]; ["management"]; ["inventory"]; ["report"]; ["database"]].
Definition reVisitor := Regex.re [["public"]; ["website"]; ["landing"]; ["home"]; ["visitor"]; ["guest"]].
Definition reData := Regex.re [["database"]; ["crud"]; ["query"]; ["table"]; ["record"]; ["data"]; ["storage"]].

Definition depHas (deps : list string) (subs : list string) : bool :=
  existsb (fun d => existsb (Js.includes d) subs) deps.

(** [inferBusinessContext]: nothing is inferred without a readable
    [package.json]; the outer [try] turns a parse error into the initial
    context. *)
Definition inferBusinessContext (read : Fs.Reader) (files : list Fs.FileRecord)
    (pkg : PkgFile) : BusinessContext :=
  match pkg with
  | NoPkg => defaultContext
  | BadPkg => defaultContext
  | Pkg p =>
      let deps := dependencies p in
      let allContent := collectContent read files EmptyString in
      let ecommerceKeywords := Regex.matchCount reShop allContent in
      let internalKeywords := Regex.matchCount reInternal allContent in
      let publicKeywords := Regex.matchCount reVisitor allContent in
      let dataKeywords := Regex.matchCount reData allContent in
      let '(t, a, pu) :=
        if andb (Nat.ltb 5 ecommerceKeywords) (depHas deps ["stripe"])
        then ("ecommerce", "customer", "sales")
        else if andb (Nat.ltb internalKeywords publicKeywords) (Nat.ltb 3 publicKeywords)
        then ("public_website", "public", "marketing")
        else if orb (Nat.ltb 10 dataKeywords) (depHas deps ["sequelize"; "mongoose"; "prisma"])
        then ("internal_tool", "internal", "data_management")
        else if orb (Js.includes (description p) "api")
                    (orb (Js.includes allContent "express") (Js.includes allContent "fastify"))
        then ("api_service", "developers", "integration")
        else (type defaultContext, audience defaultContext, purpose defaultContext) in
      let sc :=
        if orb (Nat.ltb 50 (List.length deps))
               (100000 <? Z.of_nat (String.length allContent))
        then "large"
        else if orb (Nat.ltb 20 (List.length deps))
                    (50000 <? Z.of_nat (String.length allContent))
        then "medium"
        else scale defaultContext in
      {| type := t; audience := a; purpose := pu; scale := sc;
         industry := industry defaultContext |}
  end.

Definition literalRef (n : string) (c : option string) (pr bi it cx r : string) : ProviderRef :=
  {| ref_name := n; ref_company := c; ref_pricing := pr; ref_businessImpact := bi;
     ref_implementationTime := it; ref_complexity := cx; ref_roi := r |}.

Definition redis : ProviderRef :=
  literalRef "Redis" (Some "Redis Ltd.") "Gratis (self-hosted) eller från $7/månad"
    "10x snabbare dataåtkomst" "1-2 veckor" "medium" "400-600%".

Definition awsPersonalize : ProviderRef :=
  literalRef "AWS Personalize" None "Från $0.05/TIU"
    "35% ökning konvertering" "8-12 veckor" "high" "400-600%".

Definition chartJs : ProviderRef :=
  literalRef "Chart.js + Custom Dashboard" (Some "Open Source") "Gratis (utvecklingskostnad)"
    "Skräddarsydda rapporter" "4-6 veckor" "medium" "300-500%".

Definition grafana : ProviderRef :=
  literalRef "Grafana" (Some "Grafana Labs") "Gratis (self-hosted)"
    "Enterprise-kvalitet visualisering" "2-3 veckor" "low" "250-400%".

Definition generateEnhancedSuggestions (db : ApiDatabase) (patterns : Patterns)
    (businessContext : BusinessContext) : list Finding :=
  (if andb (negb (hasChatbot patterns)) (String.eqb (audience businessContext) "customer")
   then [{| id := "ai-chatbot";
            title := "Uppgradera från manuell kundtjänst till AI-chatbot";
            category := "ai-ux"; impact := 9; effort := 4; confidence := 95 # 100;
            providers :=
              map providerRef
                (Js.slice0 3
                   (filter (fun p => Js.arr_includes (use_cases p) "chatbot") (ai_ml db))) |}]
   else [])
  ++ (if andb (String.eqb (type businessContext) "internal_tool")
              (andb (hasDatabase patterns) (negb (hasCaching patterns)))
      then [{| id := "database-optimization";
               title := "Optimera databasprestanda med caching och indexering";
               category := "performance"; impact := 8; effort := 4; confidence := 9 # 10;
               providers := [redis] |}]
      else [])
  ++ (if andb (String.eqb (type businessContext) "internal_tool")
              (andb (hasUserManagement patterns) (negb (hasAuth patterns)))
      then [{| id := "auth-improvement";
               title := "Förbättra säkerhet med robust autentisering och rollhantering";
               category := "security"; impact := 9; effort := 5; confidence := 95 # 100;
               providers := map providerRef (Js.slice0 2 (authentication db)) |}]
      else [])
  ++ (if andb (negb (hasRecommendations patterns))
              (String.eqb (type businessContext) "ecommerce")
      then [{| id := "personalization";
               title := "Uppgradera från statiska produktlistor till AI-personalisering";
               category := "ai-business"; impact := 10; effort := 7; confidence := 9 # 10;
               providers :=
                 awsPersonalize ::
                 map providerRef
                   (Js.slice0 2
                      (filter (fun p => String.eqb (provider_category p) "enterprise_ai")
                         (ai_ml db))) |}]
      else [])
  ++ (if andb (String.eqb (type businessContext) "internal_tool")
              (andb (hasDataManagement patterns) (negb (hasReporting patterns)))
      then [{| id := "reporting-system";
               title := "Lägg till automatisk rapportering och dataanalys";
               category := "business_intelligence"; impact := 8; effort := 6;
               confidence := 85 # 100;
               providers := [chartJs; grafana] |}]
      else [])
  ++ (if andb (negb (hasSearch patterns)) (String.eqb (audience businessContext) "customer")
      then [{| id := "advanced-search";
               title := "Uppgradera från grundläggande sökning till AI-driven sökning";
               category := "ai-ux"; impact := 8; effort := 5; confidence := 85 # 100;
               providers := map providerRef (search db) |}]
      else [])
  ++ (if andb (String.eqb (type businessContext) "ecommerce") (negb (hasCheckout patterns))
      then [{| id := "payment-optimization";
               title := "Uppgradera från grundläggande betalningar till optimerad checkout";
               category := "business"; impact := 9; effort := 3; confidence := 95 # 100;
               providers := map providerRef (Js.slice0 3 (payments db)) |}]
      else []).

(** [{ ...s, score, priority }] *)
Record Ranked : Type := { finding : Finding; score : Q; priority : string }.

(** [(s.impact * 2 - s.effort) * s.confidence] *)
Definition scoreOf (s : Finding) : Q :=
  Js.mul (inject_Z (impact s * 2 - effort s)) (Js.double (confidence s)).

Definition priorityOf (s : Finding) : string :=
  if 8 <=? impact s then "high" else if 6 <=? impact s then "medium" else "low".

Definition rankSuggestions (l : list Finding) : list Ranked :=
  Js.sortDesc score
    (map (fun s => {| finding := s; score := scoreOf s; priority := priorityOf s |}) l).

Record Risk : Type := { risk_file : string; risk_type : string }.

Definition reEmail := Regex.re [["email"; "="]; ["email"; ":"]].
Definition reCookie := Regex.re [["cookie"]; ["localStorage"]].

Fixpoint performGDPRScan (read : Fs.Reader) (files : list Fs.FileRecord) : list Risk :=
  match files with
  | [] => []
  | f :: rest =>
      (if CodeAnalyzer.isScript (Fs.ext f) then
         match read (Fs.path f) with
         | Js.Ok content =>
             (if Regex.test reEmail content
              then [{| risk_file := Fs.path f; risk_type := "email_collection" |}] else [])
             ++ (if Regex.test reCookie content
                 then [{| risk_file := Fs.path f; risk_type := "data_storage" |}] else [])
         | Js.Throw _ => []
         end
       else [])
      ++ performGDPRScan read rest
  end.

Definition getSimpleMarketplace (db : ApiDatabase) (patterns : Patterns)
    (businessContext : BusinessContext) : list (string * list ProviderRef) :=
  (if orb (negb (hasChatbot patterns)) (negb (hasRecommendations patterns))
   then [("AI & Machine Learning", map providerRef (Js.slice0 4 (ai_ml db)))] else [])
  ++ (if orb (String.eqb (type businessContext) "ecommerce") (hasProductCatalog patterns)
      then [("Betalningar & E-handel", map providerRef (Js.slice0 3 (payments db)))] else [])
  ++ (if negb (hasAnalytics patterns)
      then [("Analytics & Insikter", map providerRef (Js.slice0 3 (analytics db)))] else [])
  ++ (if negb (hasSearch patterns)
      then [("Sökning & Discovery", map providerRef (search db))] else [])
  ++ [("Kommunikation & Marknadsföring", map providerRef (Js.slice0 3 (communication db)));
      ("Monitorering & Prestanda", map providerRef (monitoring db))].

(** [analyzeDependencies]: the [try] around the read leaves both lists
    empty when [package.json] is missing or does not parse. *)
Definition analyzeDependencies (pkg : PkgFile) : CodeAnalyzer.Dependencies :=
  match pkg with
  | Pkg p =>
      {| CodeAnalyzer.packages := dependencies p;
         CodeAnalyzer.security :=
           filter (Js.arr_includes CodeAnalyzer.riskyPackages) (dependencies p) |}
  | NoPkg | BadPkg => {| CodeAnalyzer.packages := []; CodeAnalyzer.security := [] |}
  end.

(** The returned object: [analysis.files], [analysis.dependencies],
    [analysis.patterns], [analysis.businessContext], [analysis.gdprRisks],
    [suggestions] and [marketplace].  [gdprCompliance] counts the risks
    and [businessImpact] tells whether there is a suggestion; the echo of
    [scanResult] is the caller's own argument. *)
Record Output : Type := {
  out_files : list Fs.FileRecord;
  out_dependencies : CodeAnalyzer.Dependencies;
  out_patterns : Patterns;
  businessContext : BusinessContext;
  gdprRisks : list Risk;
  suggestions : list Ranked;
  marketplace : list (string * list ProviderRef)
}.

(** [analyzeProjectAdvanced], given the records of [getFileStructure]. *)
Definition analyzeProjectAdvanced (db : ApiDatabase) (read : Fs.Reader)
    (files : list Fs.FileRecord) (pkg : PkgFile) : Js.result Fs.Error Output :=
  let pats := detectAdvancedPatterns read files in
  let ctx := inferBusinessContext read files pkg in
  Js.Ok {| out_files := files;
           out_dependencies := analyzeDependencies pkg;
           out_patterns := pats;
           businessContext := ctx;
           gdprRisks := performGDPRScan read files;
           suggestions := rankSuggestions (generateEnhancedSuggestions db pats ctx);
           marketplace := getSimpleMarketplace db pats ctx |}.

End EnhancedAnalyzerSimple.

(* ===================================================================== *)
(** ** EnhancedAnalyzer, the full variant ([enhanced-analyzer.js]) *)
(* ===================================================================== *)

Module EnhancedAnalyzer.

(** The flags of [patterns] that the scan writes or the generator reads;
    the remaining flags are initialised to [false] and never touched.
    [hasSearch] is not among the keys of the object at all. *)
Record Patterns : Type := {
  hasProductCatalog : bool; hasShoppingCart : bool; hasCheckout : bool;
  hasBlog : bool; hasCMS : bool; hasUserProfiles : bool; hasSocialLogin : bool;
  hasAnalytics : bool; hasRecommendations : bool; hasChatbot : bool;
  hasPersonalization : bool
}.

Definition initialPatterns : Patterns :=
  {| hasProductCatalog := false; hasShoppingCart := false; hasCheckout := false;
     hasBlog := false; hasCMS := false; hasUserProfiles := false; hasSocialLogin := false;
     hasAnalytics := false; hasRecommendations := false; hasChatbot := false;
     hasPersonalization := false |}.

Definition isScanned (e : string) : bool :=
  Js.arr_includes [".js"; ".ts"; ".jsx"; ".tsx"] e.

Definition reShop := Regex.re [["product"]; ["cart"]; ["checkout"]; ["order"]; ["payment"]].
Definition reContent := Regex.re [["blog"]; ["post"]; ["article"]; ["cms"]].
Definition reUser := Regex.re [["user"]; ["profile"]; ["auth"]; ["login"]].
Definition reSocial := Regex.re [["google"]; ["facebook"]; ["github"]; ["oauth"]].
Definition reAnalytics := Regex.re [["analytics"]; ["tracking"]; ["gtag"]; ["mixpanel"]].
Definition reAi := Regex.re [["recommend"]; ["suggest"]; ["ml"]; ["ai"]; ["openai"]; ["anthropic"]].
Definition reChat := Regex.re [["chat"]; ["bot"]; ["gpt"]].

(** Body of the [forEach]: each group of flags is overwritten by the last
    file that matches the group's guard. *)
Definition notePatterns (content : string) (p : Patterns) : Patterns :=
  let shop := Regex.test reShop content in
  let cont := Regex.test reContent content in
  let user := Regex.test reUser content in
  let ai := Regex.test reAi content in
  {| hasProductCatalog := if shop then Js.includes content "product" else hasProductCatalog p;
     hasShoppingCart := if shop then Js.includes content "cart" else hasShoppingCart p;
     hasCheckout := if shop then Js.includes content "checkout" else hasCheckout p;
     hasBlog := orb cont (hasBlog p);
     hasCMS := if cont then Js.includes content "cms" else hasCMS p;
     hasUserProfiles := orb user (hasUserProfiles p);
     hasSocialLogin := if user then Regex.test reSocial content else hasSocialLogin p;
     hasAnalytics := orb (Regex.test reAnalytics content) (hasAnalytics p);
     hasRecommendations := if ai then Js.includes content "recommend" else hasRecommendations p;
     hasChatbot := if ai then Regex.test reChat content else hasChatbot p;
     hasPersonalization := hasPersonalization p |}.

(** [detectAdvancedPatterns]: [readFileSync] is called outside any [try]. *)
Fixpoint detectAdvancedPatterns_from (read : Fs.Reader) (files : list Fs.FileRecord)
    (p : Patterns) : Js.result Fs.Error Patterns :=
  match files with
  | [] => Js.Ok p
  | f :: rest =>
      if isScanned (Fs.ext f) then
        Js.bind (read (Fs.path f)) (fun content =>
          detectAdvancedPatterns_from read rest (notePatterns content p))
      else detectAdvancedPatterns_from read rest p
  end.

Definition detectAdvancedPatterns (read : Fs.Reader) (files : list Fs.FileRecord)
  : Js.result Fs.Error Patterns :=
  detectAdvancedPatterns_from read files initialPatterns.

Record BusinessContext : Type := {
  type : string; industry : string; scale : string; monetization : string
}.

(** [inferBusinessContext]: the three type tests are consecutive [if]s,
    so a later one overrides an earlier one. *)
Definition inferBusinessContext (pkg : PkgFile) : Js.result Fs.Error BusinessContext :=
  match pkg with
  | NoPkg => Js.Ok {| type := "unknown"; industry := "general"; scale := "small";
                      monetization := "unknown" |}
  | BadPkg => Js.Throw "Unexpected token in JSON"
  | Pkg p =>
      let deps := dependencies p in
      let kw := keywords p in
      let d := description p in
      let eco := orb (existsb (fun x => Js.includes x "stripe") deps)
                     (orb (Js.arr_includes kw "ecommerce") (Js.includes d "shop")) in
      let saas := orb (existsb (fun x => Js.includes x "subscription") deps)
                      (orb (Js.arr_includes kw "saas") (Js.includes d "service")) in
      let cont := orb (Js.arr_includes kw "blog")
                      (orb (Js.arr_includes kw "media") (Js.includes d "content")) in
      let '(t, m) :=
        if cont then ("content", "advertising")
        else if saas then ("saas", "subscription")
        else if eco then ("ecommerce", "sales")
        else ("unknown", "unknown") in
      let sc :=
        if orb (Js.arr_includes deps "redis")
               (orb (Js.arr_includes deps "kubernetes") (Js.arr_includes deps "docker"))
        then "large"
        else if andb (Js.arr_includes deps "express") (Nat.ltb 20 (List.length deps))
        then "medium" else "small" in
      Js.Ok {| type := t; industry := "general"; scale := sc; monetization := m |}
  end.

Definition namedRef (n pr : string) : ProviderRef :=
  {| ref_name := n; ref_company := None; ref_pricing := pr; ref_businessImpact := "";
     ref_implementationTime := ""; ref_complexity := ""; ref_roi := "" |}.

Definition chatbotAdvanced : Finding :=
  {| id := "ai-chatbot-advanced";
     title := "Implementera AI-driven kundtjänstchatbot";
     category := "ai-ux"; impact := 9; effort := 4; confidence := 95 # 100;
     providers := [ namedRef "OpenAI GPT-4" "Från $0.03/1K tokens";
                    namedRef "Anthropic Claude" "Från $0.008/1K tokens";
                    namedRef "Microsoft Bot Framework" "Gratis upp till 10K meddelanden/månad" ] |}.

Definition aiPersonalization : Finding :=
  {| id := "ai-personalization";
     title := "AI-driven personalisering och produktrekommendationer";
     category := "ai-business"; impact := 10; effort := 7; confidence := 9 # 10;
     providers := [ namedRef "AWS Personalize" "Från $0.05/TIU + datakostnader";
                    namedRef "Google Recommendations AI" "Från $0.30/1K predictions";
                    namedRef "Dynamic Yield" "Kontakta för prissättning (Enterprise)" ] |}.

Definition aiSearchEngine : Finding :=
  {| id := "ai-search-engine";
     title := "Intelligent sökning med AI och NLP";
     category := "ai-ux"; impact := 8; effort := 5; confidence := 85 # 100;
     providers := [ namedRef "Algolia" "Från $500/månad för 100K sökningar";
                    namedRef "Elasticsearch + OpenSearch" "Gratis (self-hosted) eller från $95/månad (cloud)";
                    namedRef "Azure Cognitive Search" "Från $250/månad för Basic tier" ] |}.

(** [patterns.hasSearch] reads a key the object does not have. *)
Definition hasSearch_undefined : bool := false.

Definition generateEnhancedSuggestions (patterns : Patterns)
    (businessContext : BusinessContext) (packages : list string) : list Finding :=
  (if negb (hasChatbot patterns) then [chatbotAdvanced] else [])
  ++ (if andb (negb (hasPersonalization patterns))
              (String.eqb (type businessContext) "ecommerce")
      then [aiPersonalization] else [])
  ++ (if orb (negb hasSearch_undefined) (Js.arr_includes packages "basic-search")
      then [aiSearchEngine] else []).

Definition getBusinessContextBonus (suggestion : Finding)
    (businessContext : BusinessContext) : Z :=
  (if String.eqb (type businessContext) "ecommerce"
   then if orb (Js.includes (category suggestion) "business")
               (Js.includes (id suggestion) "personalization")
        then 5 else 0
   else 0)
  + (if String.eqb (type businessContext) "saas"
     then if orb (Js.includes (category suggestion) "ai")
                 (Js.includes (id suggestion) "analytics")
          then 3 else 0
     else 0).

(** [{ ...s, score, priority }] *)
Record Ranked : Type := { finding : Finding; score : Q; priority : string }.

(** The unrounded [score] of the callback, summed from left to right. *)
Definition rawScore (s : Finding) (businessContext : BusinessContext) : Q :=
  let impactScore := inject_Z (impact s * 2) in
  let effortPenalty := Js.mul (inject_Z (effort s)) (1 # 2) in
  let confidenceBonus := Js.mul (Js.double (confidence s)) 10 in
  let businessContextBonus := inject_Z (getBusinessContextBonus s businessContext) in
  Js.add (Js.add (Js.sub impactScore effortPenalty) confidenceBonus) businessContextBonus.

(** [Math.round(score * 10) / 10] *)
Definition round1 (x : Q) : Q := Js.div (inject_Z (Js.round (Js.mul x 10))) 10.

Definition rankWithMLScoring (l : list Finding) (businessContext : BusinessContext)
  : list Ranked :=
  Js.sortDesc score
    (map (fun s =>
            let sc := rawScore s businessContext in
            {| finding := s;
               score := round1 sc;
               priority := if negb (Qle_bool sc 15) then "high"
                           else if negb (Qle_bool sc 10) then "medium" else "low" |}) l).

End EnhancedAnalyzer.

(* ===================================================================== *)
(** ** CodeReplacementAnalyzer: the first strategy of the chain *)
(* ===================================================================== *)

Module CodeReplacementAnalyzer.

Record Pattern : Type := { code : Regex.t; current : string; weakness : string }.

Definition pat (c : list Regex.alt) (cur weak : string) : Pattern :=
  {| code := Regex.re c; current := cur; weakness := weak |}.

Record CategoryConfig : Type := {
  patterns : list Pattern;
  recommendations : list Provider
}.

(** The generic monitoring pattern [/function|const|let|var|=>/i]. *)
Definition anyCode : list Regex.alt := [["function"]; ["const"]; ["let"]; ["var"]; ["=>"]].

(** [buildCodePatterns]: the entries in the key order of the object
    literal. *)
Definition buildCodePatterns (db : ApiDatabase) : list (string * CategoryConfig) :=
  [ ("payments",
     {| patterns :=
          [ pat [["paypal"]; ["braintree"]] "PayPal/Braintree" "Begränsade funktioner";
            pat [["square"]] "Square" "Främst för fysiska butiker";
            pat [["manual"; "payment"]; ["bank"; "transfer"]] "Manuella betalningar" "Ingen automation" ];
        recommendations := payments db |});
    ("auth",
     {| patterns :=
          [ pat [["passport"]; ["session"]; ["cookie"; "auth"]] "Egen auth-implementation" "Säkerhetsrisker, underhållskrävande";
            pat [["jwt"; "sign"]; ["jsonwebtoken"]] "Egen JWT-hantering" "Komplex säkerhetshantering";
            pat [["bcrypt"]; ["password"; "hash"]] "Egen lösenordshantering" "Säkerhetsrisker" ];
        recommendations := authentication db |});
    ("analytics",
     {| patterns :=
          [ pat [["console.log"]] "Console.log för debugging" "Ingen strukturerad analys eller insikter";
            pat [["google"; "analytics"; "gtag"]] "Grundläggande GA" "Begränsad produktanalys";
            pat [["manual"; "analytics"]] "Manuell dataanalys" "Tidskrävande, felbenäget";
            pat [["error"]; ["catch"]; ["throw"]] "Grundläggande felhantering" "Ingen centraliserad felspårning" ];
        recommendations := analytics db |});
    ("communication",
     {| patterns :=
          [ pat [["nodemailer"]; ["smtp"]] "Egen e-postserver" "Leveransproblem, spam-risk";
            pat [["manual"; "email"]; ["alert"; "email"]] "Manuella e-postnotiser" "Ingen automation";
            pat [["console"; "log"; "notification"]] "Ingen riktig kommunikation" "Användare får ingen feedback" ];
        recommendations := communication db |});
    ("search",
     {| patterns :=
          [ pat [["indexOf"]; ["includes"; "search"]; ["filter"; "search"]] "Grundläggande JavaScript-sökning" "Långsam, ingen relevans-ranking";
            pat [["sql"; "like"]; ["database"; "search"]] "Databassökning med LIKE" "Långsam, ingen fuzzy matching";
            pat [["manual"; "search"]] "Ingen sökfunktion" "Dålig användarupplevelse" ];
        recommendations := search db |});
    ("media",
     {| patterns :=
          [ pat [["multer"]; ["file"; "upload"; "local"]] "Lokal fillagring" "Skalbarhetsproblem, ingen CDN";
            pat [["fs.writeFile"]; ["local"; "storage"]] "Filsystem-lagring" "Ingen backup, långsam leverans";
            pat [["base64"; "image"]] "Base64-bilder i databas" "Stor databasbelastning" ];
        recommendations := media_storage db |});
    ("monitoring",
     {| patterns :=
          [ pat [["console.log"; "error"]; ["try"; "catch"; "console"]] "Console.log för felhantering" "Ingen strukturerad felspårning";
            pat [["manual"; "monitoring"]] "Manuell övervakning" "Reaktiv istället för proaktiv";
            pat [["no"; "monitoring"]] "Ingen övervakning" "Vet inte när system går ner";
            pat anyCode "Grundläggande kod utan övervakning" "Ingen felspårning eller prestandaövervakning" ];
        recommendations := monitoring db |}) ].

Definition isCodeFile (e : string) : bool :=
  Js.arr_includes [".js"; ".ts"; ".jsx"; ".tsx"; ".py"; ".java"; ".php"] e.

Record MatchData : Type := {
  file : string;
  m_current : string;
  m_weakness : string;
  lineNumber : nat
}.

(** [lines.findIndex(line => pattern.test(line)) + 1], or 0. *)
Fixpoint findLine (r : Regex.t) (ls : list string) (i : nat) : nat :=
  match ls with
  | [] => O
  | l :: rest => if Regex.test r l then S i else findLine r rest (S i)
  end.

Definition extractCodeSnippet (content : string) (r : Regex.t) : nat :=
  findLine r (Fs.lines content) O.

(** [codebase.patterns]: a [Map] from category to its matches, in
    insertion order. *)
Definition PatternMap : Type := list (string * list MatchData).

(** [if (!m.has(c)) m.set(c, []); m.get(c).push(d)] *)
Fixpoint addMatch (c : string) (d : MatchData) (m : PatternMap) : PatternMap :=
  match m with
  | [] => [(c, [d])]
  | (k, ds) :: rest =>
      if String.eqb k c then (k, ds ++ [d]) :: rest
      else (k, ds) :: addMatch c d rest
  end.

Definition scanPatterns (path content : string) (c : string) (ps : list Pattern)
    (m : PatternMap) : PatternMap :=
  fold_left
    (fun acc p =>
       if Regex.test (code p) content
       then addMatch c {| file := path; m_current := current p; m_weakness := weakness p;
                          lineNumber := extractCodeSnippet content (code p) |} acc
       else acc)
    ps m.

(** The two nested [forEach] over categories and patterns for one file. *)
Definition scanContent (cfg : list (string * CategoryConfig)) (path content : string)
    (m : PatternMap) : PatternMap :=
  fold_left (fun acc e => scanPatterns path content (fst e) (patterns (snd e)) acc) cfg m.

(** The [for] loop of [scanCodebase]; the body of a code file runs inside
    [try], so a file whose read throws leaves the map as it was. *)
Fixpoint scanFiles (cfg : list (string * CategoryConfig)) (read : Fs.Reader)
    (files : list Fs.FileRecord) (m : PatternMap) : PatternMap :=
  match files with
  | [] => m
  | f :: rest =>
      if isCodeFile (Fs.ext f) then
        match read (Fs.path f) with
        | Js.Ok content => scanFiles cfg read rest (scanContent cfg (Fs.path f) content m)
        | Js.Throw _ => scanFiles cfg read rest m
        end
      else scanFiles cfg read rest m
  end.

Record Codebase : Type := { files : list Fs.FileRecord; cb_patterns : PatternMap }.

Definition scanCodebase (db : ApiDatabase) (read : Fs.Reader)
    (fs : list Fs.FileRecord) : Codebase :=
  {| files := fs; cb_patterns := scanFiles (buildCodePatterns db) read fs [] |}.

Definition isDigit (c : ascii) : bool :=
  let n := nat_of_ascii c in andb (Nat.leb 48 n) (Nat.leb n 57).

Fixpoint readDigits (s : string) (acc : Z) : Z :=
  match s with
  | String c s' =>
      if isDigit c then readDigits s' (acc * 10 + Z.of_nat (nat_of_ascii c - 48)) else acc
  | EmptyString => acc
  end.

(** [parseInt(s.match(/(\d+)/)[1])], when there is a match. *)
Fixpoint firstNumber (s : string) : option Z :=
  match s with
  | EmptyString => None
  | String c s' => if isDigit c then Some (readDigits s 0) else firstNumber s'
  end.

(** The whole-number part of [scoreRecommendation]: what the business
    impact and the complexity add. *)
Definition scoreBase (rec : Provider) : Z :=
  let bi := business_impact rec in
    (if Js.includes bi "50%" then 5 else 0)
  + (if Js.includes bi "30%" then 3 else 0)
  + (if Js.includes bi "25%" then 2 else 0)
  + (if orb (String.eqb (complexity rec) "low") (String.eqb (complexity rec) "very_low")
     then 3 else 0)
  + (if String.eqb (complexity rec) "medium" then 1 else 0).

(** [scoreRecommendation(rec, matches)]; [matches] is not read.  The
    quotient [parseInt(...) / 100] and the last sum are rounded to
    doubles; a number too large for [parseInt] to read exactly is far
    above 500 either way, and [Math.min] gives 5. *)
Definition scoreRecommendation (rec : Provider) : Q :=
  match firstNumber (roi rec) with
  | Some n => Js.add (inject_Z (scoreBase rec)) (Qmin (Js.div (inject_Z n) 100) 5)
  | None => inject_Z (scoreBase rec)
  end.

(** The provider object of a recommendation, with [whyBetter]. *)
Record Recommendation : Type := { rec_ref : ProviderRef; whyBetter : string }.

(** [generateWhyBetter(recommendation, currentMatch)] *)
Definition generateWhyBetter (currentMatch : MatchData) : string :=
  ("Löser: " ++ m_weakness currentMatch)%string.

(** The chain [map], [sort], [slice(0, 3)], [map] of
    [selectBestRecommendations], with [currentMatch] for [matches[0]]. *)
Definition bestRecommendations (recs : list Provider) (currentMatch : MatchData)
  : list Recommendation :=
  map (fun p =>
         {| rec_ref := providerRef (fst p);
            whyBetter := generateWhyBetter currentMatch |})
      (Js.slice0 3
         (Js.sortDesc snd (map (fun r => (r, scoreRecommendation r)) recs))).

(** [selectBestRecommendations(recommendations, matches)].  Without a
    match, [matches[0]] is [undefined] and [generateWhyBetter] throws at
    the first recommendation kept; an empty section keeps none. *)
Definition selectBestRecommendations (recs : list Provider) (matches : list MatchData)
  : Js.result Fs.Error (list Recommendation) :=
  match matches with
  | currentMatch :: _ => Js.Ok (bestRecommendations recs currentMatch)
  | [] =>
      match recs with
      | [] => Js.Ok []
      | _ :: _ => Js.Throw "Cannot read properties of undefined (reading 'weakness')"
      end
  end.

(** [baseImpact[category] || 3], for a category of the pattern table:
    the analyzer passes the keys of [codebase.patterns], which are keys of
    [this.codePatterns].  The name of a member of [Object.prototype]
    ([constructor], [toString], ...) would find that member instead of
    the fallback; no such name is a category. *)
Definition baseImpact (c : string) : Z :=
  if String.eqb c "payments" then 9
  else if String.eqb c "auth" then 8
  else if String.eqb c "monitoring" then 7
  else if String.eqb c "communication" then 6
  else if String.eqb c "analytics" then 5
  else if String.eqb c "search" then 4
  else 3.

Definition calculateCategoryImpact (c : string) (fileCount : nat) : Z :=
  Z.min 10 (baseImpact c + Js.floor_div (Z.of_nat fileCount) 2).

(** [baseEffort[category] || 3], for a category of the pattern table. *)
Definition baseEffort (c : string) : Z :=
  if String.eqb c "payments" then 6
  else if String.eqb c "auth" then 5
  else if String.eqb c "monitoring" then 3
  else if String.eqb c "communication" then 2
  else if String.eqb c "analytics" then 2
  else if String.eqb c "search" then 4
  else 3.

Definition estimateReplacementEffort (c : string) (fileCount : nat) : Z :=
  Z.min 10 (baseEffort c + Js.floor_div (Z.of_nat fileCount) 3).

Record Opportunity : Type := {
  category : string;
  currentSolution : string;
  opp_weakness : string;
  affectedFiles : list (string * nat);
  opp_recommendations : list Recommendation;
  impact : Z;
  effort : Z
}.

Definition configOf (cfg : list (string * CategoryConfig)) (c : string) : list Provider :=
  match find (fun e => String.eqb (fst e) c) cfg with
  | Some e => recommendations (snd e)
  | None => []
  end.

(** The body of the [forEach] of [findReplacementOpportunities] for one
    entry of [codebase.patterns].  Under [matches.length > 0] the call of
    [selectBestRecommendations] cannot throw: it returns
    [bestRecommendations] at [matches[0]]. *)
Definition opportunityOf (cfg : list (string * CategoryConfig))
    (e : string * list MatchData) : list Opportunity :=
  let '(c, matches) := e in
  match matches with
  | [] => []
  | m0 :: _ =>
      [{| category := c;
          currentSolution := m_current m0;
          opp_weakness := m_weakness m0;
          affectedFiles := map (fun m => (file m, lineNumber m)) matches;
          opp_recommendations := bestRecommendations (configOf cfg c) m0;
          impact := calculateCategoryImpact c (List.length matches);
          effort := estimateReplacementEffort c (List.length matches) |}]
  end.

Definition findReplacementOpportunities (db : ApiDatabase) (cb : Codebase)
  : list Opportunity :=
  flat_map (opportunityOf (buildCodePatterns db)) (cb_patterns cb).

(** The sort key of [prioritizeRecommendations]. *)
Definition priorityKey (o : Opportunity) : Q := inject_Z (impact o * 10 - effort o).

Record Suggestion : Type := {
  s_id : string;
  s_category : string;
  s_priority : nat;
  s_impact : Z;
  s_effort : Z;
  s_affectedFiles : list (string * nat);
  s_providers : list Recommendation;
  estimatedTimeline : string
}.

(** The [map] callback reads [opp.recommendations[0].name]: a [TypeError]
    when the category has no recommendation. *)
Fixpoint toSuggestions (index : nat) (l : list Opportunity)
  : Js.result Fs.Error (list Suggestion) :=
  match l with
  | [] => Js.Ok []
  | o :: rest =>
      match opp_recommendations o with
      | [] => Js.Throw "Cannot read properties of undefined (reading 'name')"
      | top :: _ =>
          Js.bind (toSuggestions (S index) rest) (fun ss =>
            Js.Ok ({| s_id := ("replacement_" ++ category o)%string;
                      s_category := category o;
                      s_priority := S index;
                      s_impact := impact o;
                      s_effort := effort o;
                      s_affectedFiles := affectedFiles o;
                      s_providers := opp_recommendations o;
                      estimatedTimeline := ref_implementationTime (rec_ref top) |} :: ss))
      end
  end.

Definition prioritizeRecommendations (l : list Opportunity)
  : Js.result Fs.Error (list Suggestion) :=
  toSuggestions O (Js.sortDesc priorityKey l).

Definition calculateBusinessImpact (l : list Suggestion) : Z :=
  fold_left
    (fun sum s =>
       sum + match s_providers s with
             | r :: _ => match firstNumber (ref_roi (rec_ref r)) with
                         | Some n => n
                         | None => 0
                         end
             | [] => 0
             end)
    l 0.

Record Output : Type := {
  out_files : list Fs.FileRecord;
  currentImplementations : list (string * (string * nat * string));
  replacementOpportunities : nat;
  suggestions : list Suggestion;
  totalROI : Z
}.

Definition summarizeCurrentCode (cb : Codebase) : list (string * (string * nat * string)) :=
  map (fun e =>
         (fst e,
          (match snd e with m :: _ => m_current m | [] => "Ingen implementation" end,
           List.length (snd e),
           match snd e with m :: _ => m_weakness m | [] => "Saknas helt" end)))
      (cb_patterns cb).

(** [analyzeCodeForReplacements], given the records of [getAllFiles]. *)
Definition analyzeCodeForReplacements (db : ApiDatabase) (read : Fs.Reader)
    (fs : list Fs.FileRecord) : Js.result Fs.Error Output :=
  let codebase := scanCodebase db read fs in
  let replacements := findReplacementOpportunities db codebase in
  Js.bind (prioritizeRecommendations replacements) (fun prioritized =>
    Js.Ok {| out_files := files codebase;
             currentImplementations := summarizeCurrentCode codebase;
             replacementOpportunities := List.length replacements;
             suggestions := prioritized;
             totalROI := calculateBusinessImpact prioritized |}).

(** What a suggestion keeps of its opportunity for ordering purposes. *)
Definition View : Type := (string * Z * Z)%type.

Definition view (o : Opportunity) : View := (category o, impact o, effort o).

Definition sview (s : Suggestion) : View := (s_category s, s_impact s, s_effort s).

Definition viewKey (v : View) : Q := inject_Z (snd (fst v) * 10 - snd v).

Definition keys (m : PatternMap) : list string := map fst m.

(** Keys are distinct, belong to the pattern table, and no key maps to an
    empty array. *)
Definition wf (cfg : list (string * CategoryConfig)) (m : PatternMap) : Prop :=
  NoDup (keys m) /\ incl (keys m) (map fst cfg) /\ Forall (fun e => snd e <> []) m.

End CodeReplacementAnalyzer.

(* ===================================================================== *)
(** ** DeepCodeAnalyzer: the second strategy of the chain *)
(* ===================================================================== *)

Module DeepCodeAnalyzer.

Definition isAnalyzableFile (e : string) : bool :=
  Js.arr_includes
    [".js"; ".ts"; ".jsx"; ".tsx"; ".py"; ".java"; ".php"; ".rb"; ".go"; ".cs"; ".json"] e.

Record Codebase : Type := {
  totalLines : nat;
  fileContents : list (string * string)     (* path, content; insertion order *)
}.

(** The loop of [readEntireCodebase]; a file whose read throws is
    skipped. *)
Fixpoint readFiles (read : Fs.Reader) (files : list Fs.FileRecord) (cb : Codebase)
  : Codebase :=
  match files with
  | [] => cb
  | f :: rest =>
      if isAnalyzableFile (Fs.ext f) then
        match read (Fs.path f) with
        | Js.Ok content =>
            readFiles read rest
              {| totalLines := totalLines cb + Fs.lineCount content;
                 fileContents := fileContents cb ++ [(Fs.path f, content)] |}
        | Js.Throw _ => readFiles read rest cb
        end
      else readFiles read rest cb
  end.

Definition readEntireCodebase (read : Fs.Reader) (files : list Fs.FileRecord) : Codebase :=
  readFiles read files {| totalLines := O; fileContents := [] |}.

Inductive IssueType : Type := unvalidated_input | sql_injection.

Record Issue : Type := { issue_type : IssueType; issue_file : string; issue_line : nat }.

(** The two tests of [analyzeSecurityInCode] on one line. *)
Definition lineIssues (filePath content line : string) (index : nat) : list Issue :=
  (if andb (Js.includes line "req.body")
           (andb (negb (Js.includes content "validate"))
                 (andb (negb (Js.includes content "joi"))
                       (negb (Js.includes content "yup"))))
   then [{| issue_type := unvalidated_input; issue_file := filePath; issue_line := S index |}]
   else [])
  ++ (if andb (Js.includes line "query")
              (andb (Js.includes line "+")
                    (orb (Js.includes line "req.") (Js.includes line "${")))
      then [{| issue_type := sql_injection; issue_file := filePath; issue_line := S index |}]
      else []).

Fixpoint linesIssues (filePath content : string) (ls : list string) (index : nat)
  : list Issue :=
  match ls with
  | [] => []
  | l :: rest => lineIssues filePath content l index ++ linesIssues filePath content rest (S index)
  end.

(** [findings.specificIssues] of [analyzeSecurityInCode]. *)
Definition analyzeSecurityInCode (cb : Codebase) : list Issue :=
  flat_map (fun e => linesIssues (fst e) (snd e) (Fs.lines (snd e)) O) (fileContents cb).

Record SecurityProblem : Type := { problem_title : string; problem_severity : string }.

(** Both issue types have a case in the [switch]. *)
Definition identifySpecificSecurityIssues (issues : list Issue) : list SecurityProblem :=
  map (fun i =>
         match issue_type i with
         | unvalidated_input =>
             {| problem_title := "Ovaliderad användarinput"; problem_severity := "critical" |}
         | sql_injection =>
             {| problem_title := "SQL Injection sårbarhet"; problem_severity := "critical" |}
         end) issues.

(** [getSecurityProviders]: [monitoring[0]] is pushed as it is, also when
    the section is empty and the element is [undefined]. *)
Definition getSecurityProviders (db : ApiDatabase) : list (option Provider) :=
  map Some (Js.slice0 2 (authentication db)) ++ [nth_error (monitoring db) 0].

Record Recommendation : Type := {
  id : string;
  category : string;
  impact : Z;
  effort : Z;
  confidence : Q;
  providers : list (option Provider)
}.

Definition createSecurityRecommendation (db : ApiDatabase) (cb : Codebase) : Recommendation :=
  let actualFindings := analyzeSecurityInCode cb in
  let specificProblems := identifySpecificSecurityIssues actualFindings in
  let n := Z.of_nat (List.length specificProblems) in
  {| id := "security_upgrade";
     category := "security";
     impact := Z.min 10 (6 + n);
     effort := Z.max 3 n;
     confidence := 95 # 100;
     providers := getSecurityProviders db |}.

Definition reCache := Regex.re [["cache"]; ["redis"]; ["memcached"]].
Definition reObserve := Regex.re [["log"]; ["monitor"]; ["track"]; ["analytics"]].

(** [Object.values(codebase.fileContents).join(' ')] *)
Definition allCode (cb : Codebase) : string :=
  String.concat " " (map snd (fileContents cb)).

(** The types of the problems of [identifyProblems].  The stubs fix
    [architecture.authentication] to 'basic', [architecture.database] to
    'SQL Database' and [hasTestFiles] to [false]. *)
Definition identifyProblems (cb : Codebase) : list string :=
  ["security"]
  ++ (if negb (Regex.test reCache (allCode cb)) then ["performance"] else [])
  ++ (if negb (Regex.test reObserve (allCode cb)) then ["monitoring"] else [])
  ++ ["quality"].

(** [createRecommendationForProblem]: the creators for performance,
    monitoring and quality are stubs that return [null]. *)
Definition createRecommendationForProblem (db : ApiDatabase) (cb : Codebase)
    (problemType : string) : option Recommendation :=
  if String.eqb problemType "security" then Some (createSecurityRecommendation db cb)
  else None.

(** [generateIntelligentRecommendations]; [identifyOpportunities] is a
    stub that returns no opportunity. *)
Definition generateIntelligentRecommendations (db : ApiDatabase) (cb : Codebase)
  : list Recommendation :=
  Js.sortDesc (fun r => inject_Z (impact r))
    (flat_map (fun t => match createRecommendationForProblem db cb t with
                        | Some r => [r]
                        | None => []
                        end) (identifyProblems cb)).

(** The [suggestions] of [performDeepAnalysis]. *)
Definition suggestions (db : ApiDatabase) (read : Fs.Reader) (files : list Fs.FileRecord)
  : list Recommendation :=
  generateIntelligentRecommendations db (readEntireCodebase read files).

End DeepCodeAnalyzer.

(* ===================================================================== *)
(** ** AdvancedCodeAnalyzer ([advanced-code-analyzer.js]) *)
(* ===================================================================== *)

Module AdvancedCodeAnalyzer.

Definition isCodeFile (e : string) : bool :=
  Js.arr_includes
    [".js"; ".ts"; ".jsx"; ".tsx"; ".py"; ".java"; ".php"; ".rb"; ".go"; ".cs"] e.

Record Codebase : Type := {
  files : list (Fs.FileRecord * string);    (* { ...file, content } *)
  totalLines : nat
}.

(** The loop of [buildCodebaseMap]: [readFileSync] is called outside any
    [try]. *)
Fixpoint readFiles (read : Fs.Reader) (fs : list Fs.FileRecord) (cb : Codebase)
  : Js.result Fs.Error Codebase :=
  match fs with
  | [] => Js.Ok cb
  | f :: rest =>
      if isCodeFile (Fs.ext f) then
        Js.bind (read (Fs.path f)) (fun content =>
          readFiles read rest
            {| files := files cb ++ [(f, content)];
               totalLines := totalLines cb + Fs.lineCount content |})
      else readFiles read rest cb
  end.

Definition buildCodebaseMap (read : Fs.Reader) (fs : list Fs.FileRecord)
  : Js.result Fs.Error Codebase :=
  readFiles read fs {| files := []; totalLines := O |}.

End AdvancedCodeAnalyzer.

(* ===================================================================== *)
(** ** IntelligentCodeAnalyzer: the third strategy of the chain *)
(* ===================================================================== *)

Module IntelligentCodeAnalyzer.

Definition reMvc := Regex.re [["controller"]; ["model"]; ["view"]; ["routes"]].
Definition reApi := Regex.re [["app.get"]; ["app.post"]; ["app.put"]; ["app.delete"]; ["router."]; ["endpoint"]; ["api"]].
Definition reMicroservice := Regex.re [["service"]; ["microservice"]; ["docker"]; ["kubernetes"]].
Definition reDatabase := Regex.re [["database"]; ["db."]; ["sql"]; ["query"]; ["table"]; ["schema"]; ["migration"]].
Definition reCrud := Regex.re [["create"]; ["read"]; ["update"]; ["delete"]; ["insert"]; ["select"]; ["find"]; ["save"]].
Definition reOrm := Regex.re [["sequelize"]; ["mongoose"]; ["prisma"]; ["typeorm"]; ["knex"]].
Definition reFrontend := Regex.re [["react"]; ["vue"]; ["angular"]; ["html"]; ["css"]; ["dom"]; ["window"]; ["document"]].
Definition reSpa := Regex.re [["router"]; ["route"]; ["navigation"]; ["component"]; ["state"]].
Definition reResponsive := Regex.re [["mobile"]; ["tablet"]; ["responsive"]; ["media"; "query"]].
Definition reAuthentication := Regex.re [["login"]; ["auth"]; ["jwt"]; ["session"]; ["password"]; ["token"]].
Definition reAuthorization := Regex.re [["role"]; ["permission"]; ["access"]; ["admin"]; ["user"]].
Definition rePayment := Regex.re [["payment"]; ["stripe"]; ["paypal"]; ["billing"]; ["invoice"]; ["transaction"]].
Definition reEcommerce := Regex.re [["product"]; ["cart"]; ["order"]; ["checkout"]; ["inventory"]; ["catalog"]].
Definition reExternalApi := Regex.re [["fetch"]; ["axios"]; ["http"]; ["request"]; ["api"; "call"]].
Definition reWebhook := Regex.re [["webhook"]; ["callback"]; ["event"]; ["trigger"]].
Definition reEmail := Regex.re [["email"]; ["mail"]; ["smtp"]; ["sendgrid"]; ["nodemailer"]].
Definition reCaching := Regex.re [["cache"]; ["redis"]; ["memcached"]; ["storage"]].
Definition reOptimization := Regex.re [["optimize"]; ["performance"]; ["speed"]; ["fast"]].
Definition reScaling := Regex.re [["scale"]; ["load"]; ["cluster"]; ["worker"]].
Definition reEncryption := Regex.re [["encrypt"]; ["decrypt"]; ["hash"]; ["bcrypt"]; ["crypto"]].
Definition reValidation := Regex.re [["validate"]; ["sanitize"]; ["joi"]; ["yup"]; ["schema"]].
Definition reSecurity := Regex.re [["security"]; ["secure"]; ["protect"]; ["vulnerability"]].
Definition reLogging := Regex.re [["log"]; ["winston"]; ["bunyan"]; ["console."]].
Definition reMonitoring := Regex.re [["monitor"]; ["metric"]; ["analytics"]; ["track"]].
Definition reErrorHandling := Regex.re [["try"; "catch"]; ["error"]; ["exception"]; ["throw"]].
Definition reFileUpload := Regex.re [["upload"]; ["multer"]; ["file"]; ["document"]; ["attachment"]].
Definition reFileProcessing := Regex.re [["process"]; ["convert"]; ["transform"]; ["parse"]].
Definition reRealtime := Regex.re [["socket"]; ["websocket"]; ["realtime"]; ["live"]; ["push"]].
Definition reMessaging := Regex.re [["message"]; ["chat"]; ["notification"]; ["alert"]].
Definition reCms := Regex.re [["content"]; ["cms"]; ["blog"]; ["article"]; ["post"]].
Definition reSearch := Regex.re [["search"]; ["index"]; ["elasticsearch"]; ["algolia"]].
Definition reAutomation := Regex.re [["automate"]; ["schedule"]; ["cron"]; ["job"]; ["task"]].
Definition reWorkflow := Regex.re [["workflow"]; ["process"]; ["step"]; ["stage"]; ["pipeline"]].

(** [initializeCodePatterns] *)
Definition codePatterns : list (string * Regex.t) :=
  [ ("mvc", reMvc); ("api", reApi); ("microservice", reMicroservice);
    ("database", reDatabase); ("crud", reCrud); ("orm", reOrm);
    ("frontend", reFrontend); ("spa", reSpa); ("responsive", reResponsive);
    ("authentication", reAuthentication); ("authorization", reAuthorization);
    ("payment", rePayment); ("ecommerce", reEcommerce);
    ("external_api", reExternalApi); ("webhook", reWebhook); ("email", reEmail);
    ("caching", reCaching); ("optimization", reOptimization); ("scaling", reScaling);
    ("encryption", reEncryption); ("validation", reValidation); ("security", reSecurity);
    ("logging", reLogging); ("monitoring", reMonitoring); ("error_handling", reErrorHandling);
    ("file_upload", reFileUpload); ("file_processing", reFileProcessing);
    ("realtime", reRealtime); ("messaging", reMessaging);
    ("cms", reCms); ("search", reSearch);
    ("automation", reAutomation); ("workflow", reWorkflow) ].

Definition isCodeFile (e : string) : bool :=
  Js.arr_includes [".js"; ".ts"; ".py"; ".java"; ".php"; ".rb"; ".go"; ".cs"; ".cpp"; ".c"] e.

Record Scan : Type := { allCode : string; totalLines : nat }.

(** The loop of [performDeepCodeAnalysis]; a file whose read throws is
    skipped. *)
Fixpoint readFiles (read : Fs.Reader) (files : list Fs.FileRecord) (s : Scan) : Scan :=
  match files with
  | [] => s
  | f :: rest =>
      if isCodeFile (Fs.ext f) then
        match read (Fs.path f) with
        | Js.Ok content =>
            readFiles read rest
              {| allCode := (allCode s ++ content ++ (String "010" EmptyString))%string;
                 totalLines := totalLines s + Fs.lineCount content |}
        | Js.Throw _ => readFiles read rest s
        end
      else readFiles read rest s
  end.

Record PatternStat : Type := { count : nat; density : Js.jsnum; present : bool }.

(** [{ count, density: count / totalLines * 1000, present: count > 0 }] *)
Definition statOf (r : Regex.t) (s : Scan) : PatternStat :=
  let c := Regex.matchCount r (allCode s) in
  {| count := c;
     density := Js.mul_q (Js.div_nat c (totalLines s)) 1000;
     present := Nat.ltb 0 c |}.

(** [analysis.patterns] *)
Definition patterns (s : Scan) : list (string * PatternStat) :=
  map (fun e => (fst e, statOf (snd e) s)) codePatterns.

Record CodeAnalysis : Type := { scan : Scan; stats : list (string * PatternStat) }.

Definition performDeepCodeAnalysis (read : Fs.Reader) (files : list Fs.FileRecord)
  : CodeAnalysis :=
  let s := readFiles read files {| allCode := EmptyString; totalLines := O |} in
  {| scan := s; stats := patterns s |}.

(** [codeAnalysis.patterns.<name>]; every name read by the analyzer is a
    key of the table. *)
Definition pattern (a : CodeAnalysis) (n : string) : PatternStat :=
  match find (fun e => String.eqb (fst e) n) (stats a) with
  | Some e => snd e
  | None => {| count := O; density := Js.NaN; present := false |}
  end.

Record ProjectContext : Type := {
  type : string; purpose : string; audience : string;
  scale : string; maturity : string; businessModel : string
}.

Definition inferProjectContext (a : CodeAnalysis) : ProjectContext :=
  let p := pattern a in
  let '(t, pu, au, bm) :=
    if Js.gt (density (p "ecommerce")) 5
    then ("ecommerce", "sales", "customers", "b2c")
    else if andb (Js.gt (density (p "api")) 10) (Js.lt (density (p "frontend")) 2)
    then ("api_service", "integration", "developers", "b2b")
    else if Js.gt (density (p "cms")) 3
    then ("content_platform", "publishing", "readers", "content")
    else if andb (present (p "authentication"))
                 (andb (present (p "authorization")) (Js.gt (density (p "database")) 8))
    then ("business_application", "operations", "employees", "internal")
    else if Js.gt (density (p "frontend")) 5
    then ("web_application", "service", "users", "saas")
    else ("unknown", "unknown", "unknown", "unknown") in
  let lines := Z.of_nat (totalLines (scan a)) in
  {| type := t; purpose := pu; audience := au; businessModel := bm;
     scale := if 50000 <? lines then "enterprise"
              else if 10000 <? lines then "medium" else "small";
     maturity := if andb (present (p "monitoring"))
                         (andb (present (p "caching")) (Js.gt (density (p "security")) 3))
                 then "mature"
                 else if andb (present (p "error_handling")) (present (p "validation"))
                 then "developing" else "early" |}.

Record Solution : Type := { solution_type : string; sophistication : string }.

Definition analyzeDataStorage (a : CodeAnalysis) : Solution :=
  if Js.gt (density (pattern a "database")) 5 then
    if present (pattern a "orm")
    then {| solution_type := "database_with_orm"; sophistication := "medium" |}
    else {| solution_type := "raw_database"; sophistication := "low" |}
  else {| solution_type := "file_based"; sophistication := "low" |}.

Definition analyzeAuthentication (a : CodeAnalysis) : Solution :=
  if Js.gt (density (pattern a "authentication")) 3 then
    if present (pattern a "authorization")
    then {| solution_type := "role_based_auth"; sophistication := "medium" |}
    else {| solution_type := "basic_auth"; sophistication := "low" |}
  else {| solution_type := "no_auth"; sophistication := "none" |}.

(** The stub of [analyzeMonitoring]. *)
Definition analyzeMonitoring : Solution :=
  {| solution_type := "basic"; sophistication := "low" |}.

Definition categoryMap (c : string) : string :=
  if String.eqb c "caching" then "monitoring"
  else if String.eqb c "security" then "authentication"
  else if String.eqb c "performance" then "monitoring"
  else if String.eqb c "monitoring" then "monitoring"
  else if String.eqb c "analytics" then "analytics"
  else if String.eqb c "ux" then "analytics"
  else if String.eqb c "quality" then "monitoring"
  else if String.eqb c "documentation" then "communication"
  else if String.eqb c "maintenance" then "monitoring"
  else "monitoring".

Definition section (db : ApiDatabase) (n : string) : list Provider :=
  if String.eqb n "monitoring" then monitoring db
  else if String.eqb n "authentication" then authentication db
  else if String.eqb n "analytics" then analytics db
  else if String.eqb n "communication" then communication db
  else [].

(** [this.apiDatabase[dbCategory]?.slice(0, 2) || []] *)
Definition getRelevantProviders (db : ApiDatabase) (c : string) : list ProviderRef :=
  map providerRef (Js.slice0 2 (section db (categoryMap c))).

Definition relevanceMap (recommendationType : string) : list string :=
  if String.eqb recommendationType "caching"
  then ["business_application"; "api_service"; "web_application"]
  else if String.eqb recommendationType "monitoring"
  then ["api_service"; "business_application"]
  else if String.eqb recommendationType "security"
  then ["ecommerce"; "business_application"]
  else [].

Definition calculateIntelligenceScore (a : CodeAnalysis) (ctx : ProjectContext)
    (recommendationType : string) : Q :=
  Qmin 100
    (50 + Qmin 30 (inject_Z (Z.of_nat (totalLines (scan a))) / 1000)
     + (if String.eqb (maturity ctx) "mature" then 20
        else if String.eqb (maturity ctx) "developing" then 10 else 0)
     + (if Js.arr_includes (relevanceMap recommendationType) (type ctx) then 25 else 0))%Q.

(** [calculateImpact(...).multiplier] *)
Definition multiplier (sc : string) : Z :=
  if String.eqb sc "enterprise" then 3 else if String.eqb sc "medium" then 2 else 1.

Record Recommendation : Type := { finding : Finding; intelligenceScore : Q }.

Definition rec (i t c : string) (im ef : Z) (co sc : Q) (ps : list ProviderRef)
  : Recommendation :=
  {| finding := {| id := i; title := t; category := c; impact := im; effort := ef;
                   confidence := co; providers := ps |};
     intelligenceScore := sc |}.

(** The title of the caching finding interpolates the expected speed-up;
    its fixed part is kept. *)
Definition analyzeDataStorageImprovements (db : ApiDatabase) (a : CodeAnalysis)
    (ctx : ProjectContext) (dataStorage : Solution) : list Recommendation :=
  if andb (Js.includes (solution_type dataStorage) "database")
          (negb (present (pattern a "caching")))
  then [rec "add_caching" "Lägg till caching för snabbare dataåtkomst" "performance"
            (Z.min 9 (5 + multiplier (scale ctx))) 4 (9 # 10)
            (calculateIntelligenceScore a ctx "caching")
            (getRelevantProviders db "caching")]
  else [].

Definition analyzePerformanceImprovements (db : ApiDatabase) (a : CodeAnalysis)
    (ctx : ProjectContext) : list Recommendation :=
  if andb (negb (present (pattern a "monitoring")))
          (1000 <? Z.of_nat (totalLines (scan a)))
  then [rec "add_monitoring" "Lägg till systemmonitorering och logging" "monitoring"
            7 3 (8 # 10)
            (calculateIntelligenceScore a ctx "monitoring")
            (getRelevantProviders db "monitoring")]
  else [].

Definition analyzeSecurityImprovements (db : ApiDatabase) (a : CodeAnalysis)
    (ctx : ProjectContext) : list Recommendation :=
  if andb (negb (present (pattern a "validation"))) (present (pattern a "api"))
  then [rec "add_validation" "Implementera input-validering för API:er" "security"
            8 4 (9 # 10)
            (calculateIntelligenceScore a ctx "security")
            (getRelevantProviders db "security")]
  else [].

Definition analyzeUserExperienceImprovements (db : ApiDatabase) (a : CodeAnalysis)
    (ctx : ProjectContext) : list Recommendation :=
  if andb (Js.lt (density (pattern a "error_handling")) 2) (present (pattern a "frontend"))
  then [rec "improve_error_handling" "Förbättra felhantering i användargränssnittet" "ux"
            6 3 (7 # 10)
            (calculateIntelligenceScore a ctx "ux")
            (getRelevantProviders db "ux")]
  else [].

Definition analyzeMonitoringImprovements (db : ApiDatabase) (a : CodeAnalysis)
    (ctx : ProjectContext) : list Recommendation :=
  if andb (negb (present (pattern a "monitoring"))) (String.eqb (audience ctx) "customers")
  then [rec "add_analytics" "Implementera användaranalys och spårning" "analytics"
            7 2 (8 # 10)
            (calculateIntelligenceScore a ctx "analytics")
            (getRelevantProviders db "analytics")]
  else [].

Definition generateFallbackRecommendations (db : ApiDatabase) (a : CodeAnalysis)
  : list Recommendation :=
  (if 2000 <? Z.of_nat (totalLines (scan a))
   then [rec "improve_documentation" "Förbättra koddokumentation och README" "maintenance"
             5 2 (9 # 10) 60 (getRelevantProviders db "documentation")]
   else [])
  ++ (if 1000 <? Z.of_nat (totalLines (scan a))
      then [rec "add_testing" "Implementera automatiserade tester" "quality"
                8 5 (8 # 10) 70 (getRelevantProviders db "quality")]
      else []).

Definition generateIntelligentRecommendations (db : ApiDatabase) (a : CodeAnalysis)
    (ctx : ProjectContext) (dataStorage : Solution) : list Recommendation :=
  let allRecommendations :=
    analyzeDataStorageImprovements db a ctx dataStorage
    ++ analyzePerformanceImprovements db a ctx
    ++ analyzeSecurityImprovements db a ctx
    ++ analyzeUserExperienceImprovements db a ctx
    ++ analyzeMonitoringImprovements db a ctx in
  Js.sortDesc intelligenceScore
    (match allRecommendations with
     | [] => generateFallbackRecommendations db a
     | _ => allRecommendations
     end).

(** [getRelevantMarketplace]; [apiDatabase.database] is read with
    [?.slice(0, 2) || []] and is not among the sections modelled here, so
    that category is listed without providers. *)
Definition getRelevantMarketplace (db : ApiDatabase) (ctx : ProjectContext)
    (dataStorage authSolution : Solution) : list (string * list ProviderRef) :=
  (if String.eqb (sophistication analyzeMonitoring) "low"
   then [("Systemmonitorering", map providerRef (Js.slice0 2 (monitoring db)))] else [])
  ++ (if String.eqb (type ctx) "ecommerce"
      then [("Betalningslösningar", map providerRef (Js.slice0 2 (payments db)))] else [])
  ++ (if String.eqb (solution_type dataStorage) "raw_database"
      then [("Databashantering", [])] else [])
  ++ (if orb (String.eqb (sophistication authSolution) "medium")
             (String.eqb (sophistication authSolution) "low")
      then [("Autentisering & Säkerhet", map providerRef (Js.slice0 2 (authentication db)))]
      else []).

Record Output : Type := {
  codeAnalysis : CodeAnalysis;
  projectContext : ProjectContext;
  dataStorage : Solution;
  suggestions : list Recommendation;
  marketplace : list (string * list ProviderRef)
}.

(** [analyzeCodeIntelligently], given the records of [getFileStructure]. *)
Definition analyzeCodeIntelligently (db : ApiDatabase) (read : Fs.Reader)
    (files : list Fs.FileRecord) : Js.result Fs.Error Output :=
  let a := performDeepCodeAnalysis read files in
  let ctx := inferProjectContext a in
  let ds := analyzeDataStorage a in
  Js.Ok {| codeAnalysis := a;
           projectContext := ctx;
           dataStorage := ds;
           suggestions := generateIntelligentRecommendations db a ctx ds;
           marketplace := getRelevantMarketplace db ctx ds (analyzeAuthentication a) |}.

End IntelligentCodeAnalyzer.

(* ===================================================================== *)
(** ** The directory walk ([getAllFiles] / [getFileStructure])

    The replacement, deep, intelligent and enhanced analyzers share one
    walk: [readdirSync] the directory, [statSync] every entry, record the
    files, and recurse into the directories whose name neither starts
    with a dot nor is 'node_modules'; the whole body of a directory runs
    inside [try { } catch { }].  [statSync] reports on what a path
    resolves to, so an entry that is a symbolic link to a directory is
    reported as a directory. *)
(* ===================================================================== *)

Module Walk.

Inductive Stat : Type := IsFile | IsDirectory | IsOther.

(** The file-system calls of the walk, and (for stating where a path
    leads, the walk itself never calls it) the resolution of a path to
    the location it denotes. *)
Record Env : Type := {
  readdirSync : string -> Js.result Fs.Error (list string);
  statSync : string -> Js.result Fs.Error Stat;
  realpath : string -> string
}.

Fixpoint afterLastDot (s : string) (cur : option string) : option string :=
  match s with
  | EmptyString => cur
  | String c s' =>
      if Ascii.eqb c "."%char then afterLastDot s' (Some s) else afterLastDot s' cur
  end.

(** [path.extname(item)]: a dot in first position does not start an
    extension. *)
Definition extname (item : string) : string :=
  match item with
  | EmptyString => EmptyString
  | String _ rest =>
      match afterLastDot rest None with
      | Some e => if String.eqb item ".." then EmptyString else e
      | None => EmptyString
      end
  end.

Definition descends (item : string) : bool :=
  andb (negb (Js.startsWith item ".")) (negb (String.eqb item "node_modules")).

(** [scan(currentDir)] with [currentDir = dir ++ rel]; the accumulator is
    the [files] array.  A throw of [readdirSync] or [statSync] leaves the
    directory at once and is swallowed by its [catch]; the records pushed
    so far stay.  The recursion has no bound of its own: [fuel] is the
    nesting depth at which the file system refuses to resolve the path
    any further. *)
Fixpoint scan (fuel : nat) (env : Env) (dir rel : string) (acc : list Fs.FileRecord)
  : list Fs.FileRecord :=
  match fuel with
  | O => acc
  | S fuel' =>
      match readdirSync env (dir ++ rel)%string with
      | Js.Throw _ => acc
      | Js.Ok items =>
          (fix each (items : list string) (acc : list Fs.FileRecord) : list Fs.FileRecord :=
             match items with
             | [] => acc
             | item :: rest =>
                 let relPath := (rel ++ "/" ++ item)%string in
                 match statSync env (dir ++ relPath)%string with
                 | Js.Throw _ => acc
                 | Js.Ok IsFile =>
                     each rest (acc ++ [{| Fs.path := relPath; Fs.ext := extname item |}])
                 | Js.Ok IsDirectory =>
                     if descends item then each rest (scan fuel' env dir relPath acc)
                     else each rest acc
                 | Js.Ok IsOther => each rest acc
                 end
             end) items acc
      end
  end.

Definition getAllFiles (fuel : nat) (env : Env) (dir : string) : list Fs.FileRecord :=
  scan fuel env dir EmptyString [].

(** The path below the root made of nested directory names. *)
Definition dirPath (dirs : list string) : string :=
  fold_right (fun d acc => ("/" ++ d ++ acc)%string) EmptyString dirs.

(** The path of a record: nested directory names and a file name. *)
Definition relPathOf (dirs : list string) (file : string) : string :=
  (dirPath dirs ++ "/" ++ file)%string.

(** What the walk guarantees of a record: it names a file that
    [statSync] reports as a file, below directories it descends into. *)
Definition recorded (env : Env) (dir : string) (r : Fs.FileRecord) : Prop :=
  exists dirs file,
    Fs.path r = relPathOf dirs file /\
    Fs.ext r = extname file /\
    Forall (fun d => descends d = true) dirs /\
    statSync env (dir ++ Fs.path r)%string = Js.Ok IsFile.

End Walk.

(* ===================================================================== *)
(** ** The analyzer chain of [server.js] *)
(* ===================================================================== *)

Module Server.

(** [legacyProgress] and the console. *)
Record World : Type := {
  legacyProgress : list (string * (nat * string));
  console : list string
}.

Definition setProgress (analysisId : string) (progress : nat) (stage : string) (w : World)
  : World :=
  {| legacyProgress :=
       (analysisId, (progress, stage))
       :: filter (fun e => negb (String.eqb (fst e) analysisId)) (legacyProgress w);
     console := console w |}.

(** [console.log(msg)] and [console.log(msg, detail)] *)
Definition log (msg : string) (w : World) : World :=
  {| legacyProgress := legacyProgress w; console := console w ++ [msg] |}.

Definition logError (msg detail : string) (w : World) : World :=
  log (msg ++ " " ++ detail)%string w.

Record ScanResult : Type := {
  language : string; framework : string;
  endpoints : list (string * string); authFlows : list string
}.

Section Chain.

(** What a strategy returns. *)
Context {A : Type}.

Definition Strategy : Type := string -> ScanResult -> Js.result Fs.Error A.

(** The five analyzers, in the order the chain tries them. *)
Record Strategies : Type := {
  analyzeCodeForReplacements : Strategy;
  performDeepAnalysis : Strategy;
  analyzeCodeIntelligently : Strategy;
  analyzeProjectAdvanced : Strategy;
  analyzeProject : Strategy
}.

(** The nested [try]/[catch] of [POST /upload]: the value left in
    [analysis], or the error that leaves the outermost [try] of the
    chain. *)
Definition uploadChain (s : Strategies) (analysisId projectPath : string)
    (scanResult : ScanResult) (w : World) : Js.result Fs.Error A * World :=
  let w := setProgress analysisId 50 "Analyserar kodmönster..." w in
  match analyzeCodeForReplacements s projectPath scanResult with
  | Js.Ok a => (Js.Ok a, log "✅ Using code replacement analysis" w)
  | Js.Throw error =>
    let w := logError "🔄 Advanced analyzer failed, trying deep:" error w in
    let w := setProgress analysisId 60 "Djupanalys..." w in
    match performDeepAnalysis s projectPath scanResult with
    | Js.Ok a => (Js.Ok a, log "✅ Using deep code analysis" w)
    | Js.Throw error2 =>
      let w := logError "🔄 Deep analyzer failed, trying intelligent:" error2 w in
      let w := setProgress analysisId 70 "Intelligent analys..." w in
      match analyzeCodeIntelligently s projectPath scanResult with
      | Js.Ok a => (Js.Ok a, log "✅ Using intelligent analysis" w)
      | Js.Throw error3 =>
        let w := logError "🔄 Intelligent analyzer failed, trying enhanced:" error3 w in
        let w := setProgress analysisId 80 "Förbättrad analys..." w in
        match analyzeProjectAdvanced s projectPath scanResult with
        | Js.Ok a => (Js.Ok a, log "✅ Using enhanced analysis" w)
        | Js.Throw error4 =>
          let w := logError "🔄 Enhanced analyzer failed, using basic:" error4 w in
          let w := setProgress analysisId 90 "Grundanalys..." w in
          match analyzeProject s projectPath scanResult with
          | Js.Ok a => (Js.Ok a, log "✅ Using basic analysis" w)
          | Js.Throw error5 => (Js.Throw error5, w)
          end
        end
      end
    end
  end.

(** The same chain in [POST /analyze-github], without progress reports. *)
Definition githubChain (s : Strategies) (projectPath : string)
    (scanResult : ScanResult) (w : World) : Js.result Fs.Error A * World :=
  match analyzeCodeForReplacements s projectPath scanResult with
  | Js.Ok a => (Js.Ok a, log "✅ Using code replacement analysis for GitHub" w)
  | Js.Throw error =>
    let w := logError "🔄 Replacement analyzer failed, trying deep:" error w in
    match performDeepAnalysis s projectPath scanResult with
    | Js.Ok a => (Js.Ok a, log "✅ Using deep code analysis for GitHub" w)
    | Js.Throw error2 =>
      let w := logError "🔄 Deep analyzer failed, trying intelligent:" error2 w in
      match analyzeCodeIntelligently s projectPath scanResult with
      | Js.Ok a => (Js.Ok a, log "✅ Using intelligent analysis for GitHub" w)
      | Js.Throw error3 =>
        let w := logError "🔄 Intelligent analyzer failed, trying enhanced:" error3 w in
        match analyzeProjectAdvanced s projectPath scanResult with
        | Js.Ok a => (Js.Ok a, log "✅ Using enhanced analysis for GitHub" w)
        | Js.Throw error4 =>
          let w := logError "🔄 Enhanced analyzer failed, using basic:" error4 w in
          match analyzeProject s projectPath scanResult with
          | Js.Ok a => (Js.Ok a, log "✅ Using basic analysis for GitHub" w)
          | Js.Throw error5 => (Js.Throw error5, w)
          end
        end
      end
    end
  end.

(** The body sent with [res.json]. *)
Inductive Response : Type :=
| Success (source : string) (analysisId : option string) (repoInfo : option string)
          (analysis : A) (timestamp : string)                      (* 200 *)
| BadRequest (error : string)                                      (* 400 *)
| Failure (error : string) (analysisId : option string).           (* 500 *)

(** [POST /upload].  [uploaded] is the outcome of [uploadHandler],
    [scanProject] that of the coarse scan. *)
Definition upload (s : Strategies) (analysisId timestamp : string)
    (uploaded : Js.result Fs.Error string)
    (scanProject : string -> Js.result Fs.Error ScanResult)
    (w : World) : Response * World :=
  let failed (err : Fs.Error) (w : World) :=
    (Failure err (Some analysisId), setProgress analysisId 100 "Fel uppstod" w) in
  let w := setProgress analysisId 10 "Extraherar filer..." w in
  match uploaded with
  | Js.Throw err => failed err w
  | Js.Ok projectPath =>
      let w := setProgress analysisId 30 "Skannar projekt..." w in
      match scanProject projectPath with
      | Js.Throw err => failed err w
      | Js.Ok scanResult =>
          match uploadChain s analysisId projectPath scanResult w with
          | (Js.Throw err, w) => failed err w
          | (Js.Ok analysis, w) =>
              (Success "upload" (Some analysisId) None analysis timestamp,
               setProgress analysisId 100 "Klar!" w)
          end
      end
  end.

(** [POST /analyze-github].  [fetched] is the outcome of
    [github.analyzeFromGitHub]: the project path and the repository
    information. *)
Definition analyzeGithub (s : Strategies) (timestamp : string) (repoUrl : option string)
    (fetched : string -> Js.result Fs.Error (string * string))
    (scanProject : string -> Js.result Fs.Error ScanResult)
    (w : World) : Response * World :=
  match repoUrl with
  | None => (BadRequest "Repository URL krävs", w)
  | Some u =>
      match fetched u with
      | Js.Throw err => (Failure err None, w)
      | Js.Ok (projectPath, repoInfo) =>
          match scanProject projectPath with
          | Js.Throw err => (Failure err None, w)
          | Js.Ok scanResult =>
              match githubChain s projectPath scanResult w with
              | (Js.Throw err, w) => (Failure err None, w)
              | (Js.Ok analysis, w) =>
                  (Success "github" None (Some repoInfo) analysis timestamp, w)
              end
          end
      end
  end.


(** The chain as the specification describes it: the strategies tried in
    order, the first success returned, the errors collected. *)
Fixpoint firstSuccess (l : list Strategy) (projectPath : string) (scanResult : ScanResult)
    (errors : list Fs.Error) : Js.result (list Fs.Error) A :=
  match l with
  | [] => Js.Throw errors
  | st :: rest =>
      match st projectPath scanResult with
      | Js.Ok a => Js.Ok a
      | Js.Throw e => firstSuccess rest projectPath scanResult (errors ++ [e])
      end
  end.

Definition inOrder (s : Strategies) : list Strategy :=
  [ analyzeCodeForReplacements s; performDeepAnalysis s; analyzeCodeIntelligently s;
    analyzeProjectAdvanced s; analyzeProject s ].

End Chain.

Arguments Strategies A : clear implicits.
Arguments Response A : clear implicits.

Definition emptyWorld : World := {| legacyProgress := []; console := [] |}.

End Server.

(* ===================================================================== *)
(** ** Vocabulary of the specification *)
(* ===================================================================== *)

Module Spec.

(** The fixed maximum of the ranked list. *)
Definition maxResults : nat := 10.

(** [returned] is [generated] put in non-increasing [key] order, with
    equal keys left in generation order, and cut to [maxResults]. *)
Definition ranked {A : Type} (key : A -> Q) (generated returned : list A) : Prop :=
  exists full,
    returned = firstn maxResults full /\
    Permutation full generated /\
    StronglySorted (Js.keyGe key) full /\
    forall k, filter (Js.hasKey key k) full = filter (Js.hasKey key k) generated.

(** The score of section 4.5 of the specification, for a given
    context-fit bonus. *)
Definition score (f : Finding) (contextFitBonus : Q) : Q :=
  (inject_Z (impact f) * 2 - inject_Z (effort f) + confidence f * 10 + contextFitBonus)%Q.

(** A context-fit bonus as the specification allows it: nothing, or a
    fixed bonus between 3 and 5. *)
Definition bonusAllowed (b : Q) : Prop := (b == 0 \/ (3 <= b /\ b <= 5))%Q.

(** The baseline monitoring detector as the claim words it: one readable
    code file matching the generic pattern and a non-empty monitoring
    section are enough for a monitoring finding. *)
Definition monitoringAlwaysReported : Prop :=
  forall (db : ApiDatabase) (read : Fs.Reader) (fs : list Fs.FileRecord)
         (f : Fs.FileRecord) (content : string),
    In f fs ->
    CodeReplacementAnalyzer.isCodeFile (Fs.ext f) = true ->
    read (Fs.path f) = Js.Ok content ->
    Regex.test (Regex.re CodeReplacementAnalyzer.anyCode) content = true ->
    monitoring db <> [] ->
    exists out,
      CodeReplacementAnalyzer.analyzeCodeForReplacements db read fs = Js.Ok out /\
      exists s, In s (CodeReplacementAnalyzer.suggestions out) /\
                CodeReplacementAnalyzer.s_category s = "monitoring".


(** A walk that never leaves the root: every record denotes a location
    below the scanned directory. *)
Definition walkStaysInsideRoot : Prop :=
  forall (env : Walk.Env) (dir : string) (fuel : nat) (r : Fs.FileRecord),
    In r (Walk.getAllFiles fuel env dir) ->
    Js.startsWith (Walk.realpath env (dir ++ Fs.path r)%string) (dir ++ "/")%string = true.

End Spec.

(* ===================================================================== *)
(** ** A sample catalog and sample projects

    The catalog file is not part of the source tree; this one has the
    shape the analyzers expect and is used for concrete runs. *)
(* ===================================================================== *)

Module Sample.

Definition provider (n bi cx r : string) (uc : list string) (cat : string) : Provider :=
  {| name := n; company := n; url := "https://example.com"; pricing := "Från $10/månad";
     business_impact := bi; implementation_time := "1-2 veckor"; complexity := cx;
     roi := r; use_cases := uc; provider_category := cat |}.

Definition db : ApiDatabase :=
  {| payments := [provider "Stripe" "30% högre konvertering" "medium" "300%" ["checkout"] "payments"];
     authentication := [provider "Auth0" "50% färre incidenter" "low" "250%" ["login"] "auth"];
     analytics := [provider "Mixpanel" "25% bättre retention" "low" "200%" ["tracking"] "analytics"];
     communication := [provider "SendGrid" "30% bättre leverans" "very_low" "150%" ["email"] "communication"];
     search := [provider "Algolia" "30% fler köp" "low" "300%" ["search"] "search";
                provider "Elastic" "25% fler köp" "high" "200%" ["search"] "search";
                provider "Typesense" "25% fler köp" "medium" "250%" ["search"] "search";
                provider "Meilisearch" "25% fler köp" "low" "150%" ["search"] "search"];
     media_storage := [provider "Cloudinary" "50% snabbare sidor" "low" "200%" ["images"] "media"];
     monitoring := [provider "Sentry" "50% snabbare felsökning" "low" "400%" ["errors"] "monitoring";
                    provider "Datadog" "30% färre avbrott" "medium" "350%" ["metrics"] "monitoring"];
     ai_ml := [provider "OpenAI" "50% lägre supportkostnad" "medium" "500%" ["chatbot"] "enterprise_ai"] |}.

(** The same catalog with an empty analytics section. *)
Definition dbNoAnalytics : ApiDatabase :=
  {| payments := payments db; authentication := authentication db; analytics := [];
     communication := communication db; search := search db;
     media_storage := media_storage db; monitoring := monitoring db; ai_ml := ai_ml db |}.

Definition nl : string := String "010" EmptyString.

Definition serverJs : string :=
  ("const express = require('express');" ++ nl ++
   "app.post('/login', (req, res) => { console.log(req.body); });")%string.

Definition shopJs : string :=
  ("const cart = []; // product order payment" ++ nl ++
   "function buy(customer) { return shop.sell(cart, customer); }")%string.

Definition files : list Fs.FileRecord :=
  [ {| Fs.path := "/server.js"; Fs.ext := ".js" |};
    {| Fs.path := "/locked.js"; Fs.ext := ".js" |};
    {| Fs.path := "/shop.js"; Fs.ext := ".js" |};
    {| Fs.path := "/README.md"; Fs.ext := ".md" |} ].

(** [/locked.js] cannot be read. *)
Definition read : Fs.Reader :=
  fun p =>
    if String.eqb p "/server.js" then Js.Ok serverJs
    else if String.eqb p "/shop.js" then Js.Ok shopJs
    else if String.eqb p "/locked.js" then Js.Throw "EACCES: permission denied, open '/locked.js'"
    else Js.Throw "ENOENT: no such file or directory".

Definition pkg : PkgFile :=
  Pkg {| dependencies := ["express"; "stripe"]; keywords := []; description := "" |}.

(** A handler that passes the request body on eleven times. *)
Definition handlersJs : string :=
  String.concat nl (repeat "db.save(req.body);" 11).

Definition handlerFiles : list Fs.FileRecord :=
  [ {| Fs.path := "/handlers.js"; Fs.ext := ".js" |} ].

Definition readHandlers : Fs.Reader :=
  fun p => if String.eqb p "/handlers.js" then Js.Ok handlersJs
           else Js.Throw "ENOENT: no such file or directory".

(** A project without a single file. *)
Definition noFiles : list Fs.FileRecord := [].

Definition readNothing : Fs.Reader :=
  fun _ => Js.Throw "ENOENT: no such file or directory".

(** A project whose [vendor] entry is a symbolic link to [/opt/lib], a
    directory outside [/proj]. *)
Definition linkedEnv : Walk.Env :=
  {| Walk.readdirSync := fun p =>
       if String.eqb p "/proj" then Js.Ok ["src"; "vendor"; ".git"; "node_modules"]
       else if String.eqb p "/proj/src" then Js.Ok ["a.js"]
       else if String.eqb p "/proj/vendor" then Js.Ok ["secret.js"]
       else if String.eqb p "/proj/.git" then Js.Ok ["config"]
       else if String.eqb p "/proj/node_modules" then Js.Ok ["dep.js"]
       else Js.Throw "ENOENT: no such file or directory";
     Walk.statSync := fun p =>
       if existsb (String.eqb p)
            ["/proj/src"; "/proj/vendor"; "/proj/.git"; "/proj/node_modules"]
       then Js.Ok Walk.IsDirectory
       else if existsb (String.eqb p)
                 ["/proj/src/a.js"; "/proj/vendor/secret.js"; "/proj/.git/config";
                  "/proj/node_modules/dep.js"]
       then Js.Ok Walk.IsFile
       else Js.Throw "ENOENT: no such file or directory";
     Walk.realpath := fun p =>
       if Js.startsWith p "/proj/vendor"
       then ("/opt/lib" ++ Regex.drop 12 p)%string
       else p |}.


(** The first strategy throws, the second returns. *)
Definition secondSucceeds : Server.Strategies nat :=
  {| Server.analyzeCodeForReplacements := fun _ _ => Js.Throw "replacement failed";
     Server.performDeepAnalysis := fun _ _ => Js.Ok 2%nat;
     Server.analyzeCodeIntelligently := fun _ _ => Js.Ok 3%nat;
     Server.analyzeProjectAdvanced := fun _ _ => Js.Ok 4%nat;
     Server.analyzeProject := fun _ _ => Js.Ok 5%nat |}.

Definition scanResult : Server.ScanResult :=
  {| Server.language := "JavaScript"; Server.framework := "Node.js/Express";
     Server.endpoints := [("post", "/login")]; Server.authFlows := [] |}.

(** Lists for the rankers, longer than ten and with equal keys. *)
Definition suggestion (t : string) (i e h : Z) : CodeAnalyzer.Suggestion :=
  {| CodeAnalyzer.category := "UX"; CodeAnalyzer.title := t;
     CodeAnalyzer.impact := i; CodeAnalyzer.effort := e;
     CodeAnalyzer.apis := []; CodeAnalyzer.estimatedHours := h |}.

(** Twelve suggestions; the keys [(impact*2 - effort) / estimatedHours * 10]
    are 20, 60, 20, 20, 5, 20, 30, 5, 3, 25, 1, 2. *)
Definition backlog : list CodeAnalyzer.Suggestion :=
  [ suggestion "a" 5 2 4; suggestion "b" 8 4 2; suggestion "c" 6 4 4;
    suggestion "d" 9 2 8; suggestion "e" 3 1 10; suggestion "f" 7 4 5;
    suggestion "g" 10 5 5; suggestion "h" 4 3 10; suggestion "i" 2 1 10;
    suggestion "j" 6 2 4; suggestion "k" 1 1 10; suggestion "l" 2 2 10 ].

Definition finding (i : string) (im ef : Z) (c : Q) : Finding :=
  {| id := i; title := i; category := "ai-ux"; impact := im; effort := ef;
     confidence := c; providers := [] |}.

(** Eleven findings; the keys [(impact*2 - effort) * confidence] are
    8, 8, 8, 16, 4, 4, 12, 10, 2, 1, 6. *)
Definition elevenFindings : list Finding :=
  [ finding "a" 5 2 1; finding "b" 6 4 1; finding "c" 9 2 (1 # 2);
    finding "d" 10 4 1; finding "e" 3 2 1; finding "f" 4 4 1;
    finding "g" 7 2 1; finding "h" 8 6 1; finding "i" 2 2 1;
    finding "j" 1 1 1; finding "k" 9 6 (1 # 2) ].



End Sample.

(* ===================================================================== *)
(** * Further code of the cited files                                    *)
(* ===================================================================== *)

(* ===================================================================== *)
(** ** More JavaScript primitives *)
(* ===================================================================== *)

Module JsText.

(** [s.toLowerCase()] on the ASCII letters; other bytes stay.  The code
    applies it to file extensions that it compares with '.js', '.py' and
    '.ts' and to the category names of the baseline generator, where no
    letter outside ASCII can produce one of the compared letters. *)
Fixpoint toLowerCase (s : string) : string :=
  match s with
  | EmptyString => EmptyString
  | String c s' => String (Regex.lower c) (toLowerCase s')
  end.

(** [s.endsWith(suffix)] *)
Fixpoint endsWith (s suffix : string) : bool :=
  if String.eqb s suffix then true
  else match s with
       | EmptyString => false
       | String _ s' => endsWith s' suffix
       end.

(** [s.replace(pattern, '')] with a string pattern: the first occurrence
    is removed. *)
Fixpoint removeFirst (s pattern : string) : string :=
  if prefix pattern s then Regex.drop (String.length pattern) s
  else match s with
       | EmptyString => EmptyString
       | String c s' => String c (removeFirst s' pattern)
       end.

End JsText.

(* ===================================================================== *)
(** ** Progress polling ([GET /api/legacy-progress/:id]) *)
(* ===================================================================== *)

Module Progress.

(** [legacyProgress.get(id) || { progress: 0, stage: 'Startar...' }] *)
Definition get (analysisId : string) (w : Server.World) : nat * string :=
  match find (fun e => String.eqb (fst e) analysisId) (Server.legacyProgress w) with
  | Some e => snd e
  | None => (O, "Startar...")
  end.

End Progress.

(* ===================================================================== *)
(** ** The coarse scan ([scan.js]) *)
(* ===================================================================== *)

Module ScanProject.

(** [extCount]: a counter per extension, as an object used as a map. *)
Definition ExtCount : Type := list (string * nat).

(** [extCount[ext] = (extCount[ext] || 0) + 1] *)
Fixpoint bump (e : string) (m : ExtCount) : ExtCount :=
  match m with
  | [] => [(e, 1%nat)]
  | (k, n) :: rest =>
      if String.eqb k e then (k, S n) :: rest else (k, n) :: bump e rest
  end.

(** [extCount[ext]], [undefined] read as 0. *)
Definition countOf (e : string) (m : ExtCount) : nat :=
  match find (fun x => String.eqb (fst x) e) m with
  | Some x => snd x
  | None => O
  end.

Definition extOf (f : string) : string := JsText.toLowerCase (Walk.extname f).

Definition extCounts (files : list string) : ExtCount :=
  fold_left (fun m f => bump (extOf f) m) files [].

Definition detectLanguage (files : list string) : string :=
  let extCount := extCounts files in
  if Nat.ltb 0 (countOf ".js" extCount) then "JavaScript"
  else if Nat.ltb 0 (countOf ".py" extCount) then "Python"
  else if Nat.ltb 0 (countOf ".ts" extCount) then "TypeScript"
  else "Unknown".

Definition detectFramework (files : list string) : string :=
  if Js.arr_includes files "package.json" then "Node.js/Express"
  else if Js.arr_includes files "requirements.txt" then "Python/Flask/Django"
  else "Unknown".

Definition isQuote (c : ascii) : bool :=
  orb (Ascii.eqb c "039"%char) (Ascii.eqb c "034"%char).

(** The lazy group and the closing quote of the route pattern: the
    shortest run of characters of the line that is followed by a single
    or double quote; the run and what follows the quote. *)
Fixpoint lazyPath (s : string) (acc : string) : option (string * string) :=
  match s with
  | EmptyString => None
  | String c s' =>
      if isQuote c then Some (acc, s')
      else if Regex.at_line_end s then None
      else lazyPath s' (acc ++ String c EmptyString)%string
  end.

(** [prefix], with what follows the prefix. *)
Definition after (p s : string) : option string :=
  if prefix p s then Some (Regex.drop (String.length p) s) else None.

(** One alternative of the route pattern (app. then get, post, put or
    delete, an opening parenthesis, a quote, the lazy group, a quote) at
    the start of [s]: the route and what follows the match. *)
Definition routeWith (method s : string) : option (string * string * string) :=
  match after ("app." ++ method ++ "(")%string s with
  | Some (String q s') =>
      if isQuote q then
        match lazyPath s' EmptyString with
        | Some (p, rest) => Some (method, p, rest)
        | None => None
        end
      else None
  | _ => None
  end.

Fixpoint routeHere (methods : list string) (s : string) : option (string * string * string) :=
  match methods with
  | [] => None
  | m :: rest =>
      match routeWith m s with
      | Some r => Some r
      | None => routeHere rest s
      end
  end.

Definition methods : list string := ["get"; "post"; "put"; "delete"].

(** [content.match(/.../g)] and, per match, its two groups: the matches
    are taken left to right without overlap. *)
Fixpoint routes (fuel : nat) (s : string) : list (string * string) :=
  match fuel with
  | O => []
  | S fuel' =>
      match routeHere methods s with
      | Some (m, p, rest) => (m, p) :: routes fuel' rest
      | None =>
          match s with
          | EmptyString => []
          | String _ s' => routes fuel' s'
          end
      end
  end.

Definition routesOf (content : string) : list (string * string) :=
  routes (S (String.length content)) content.

(** The file of a top-level entry. *)
Definition entryPath (f : string) : string := ("/" ++ f)%string.

(** [scanEndpoints]: the read of an entry ending in '.js' is not
    guarded. *)
Fixpoint scanEndpoints (files : list string) (read : Fs.Reader)
  : Js.result Fs.Error (list (string * string)) :=
  match files with
  | [] => Js.Ok []
  | f :: rest =>
      if JsText.endsWith f ".js" then
        Js.bind (read (entryPath f)) (fun content =>
          Js.bind (scanEndpoints rest read) (fun more =>
            Js.Ok (routesOf content ++ more)))
      else scanEndpoints rest read
  end.

(** [scanAuthFlows] *)
Fixpoint scanAuthFlows (files : list string) (read : Fs.Reader)
  : Js.result Fs.Error (list string) :=
  match files with
  | [] => Js.Ok []
  | f :: rest =>
      if JsText.endsWith f ".js" then
        Js.bind (read (entryPath f)) (fun content =>
          Js.bind (scanAuthFlows rest read) (fun more =>
            Js.Ok ((if orb (Js.includes content "passport")
                           (orb (Js.includes content "jwt") (Js.includes content "auth"))
                    then [f] else []) ++ more)))
      else scanAuthFlows rest read
  end.

(** [scanProject]; [listing] is the outcome of
    [fs.readdirSync(projectPath)]. *)
Definition scanProject (listing : Js.result Fs.Error (list string)) (read : Fs.Reader)
  : Js.result Fs.Error Server.ScanResult :=
  Js.bind listing (fun files =>
  Js.bind (scanEndpoints files read) (fun endpoints =>
  Js.bind (scanAuthFlows files read) (fun authFlows =>
    Js.Ok {| Server.language := detectLanguage files;
             Server.framework := detectFramework files;
             Server.endpoints := endpoints;
             Server.authFlows := authFlows |}))).

(** The text of a route registration, as the scan expects it. *)
Definition render (quote : ascii) (route : string * string) : string :=
  ("app." ++ fst route ++ "(" ++ String quote (snd route) ++ String quote ")")%string.

(** A source text that registers the routes, one statement per line. *)
Definition program (quote : ascii) (rs : list (string * string)) : string :=
  fold_right (fun r acc => (render quote r ++ ";" ++ String "010" acc)%string)
             EmptyString rs.

(** A character that a route path can hold: no quote, no line
    terminator, and not the first byte of U+2028 or U+2029. *)
Definition plain (c : ascii) : bool :=
  negb (orb (isQuote c)
            (orb (Ascii.eqb c "010"%char)
                 (orb (Ascii.eqb c "013"%char) (Ascii.eqb c "226"%char)))).

Fixpoint allPlain (s : string) : bool :=
  match s with
  | EmptyString => true
  | String c s' => andb (plain c) (allPlain s')
  end.

End ScanProject.

(* ===================================================================== *)
(** ** GitHub download ([github-integration.js]) *)
(* ===================================================================== *)

Module GitHubIntegration.

(** [[^\/]+]: the longest run of characters other than '/', and what
    follows it. *)
Fixpoint segment (s : string) : string * string :=
  match s with
  | EmptyString => (EmptyString, EmptyString)
  | String c s' =>
      if Ascii.eqb c "/"%char then (EmptyString, s)
      else let '(seg, rest) := segment s' in (String c seg, rest)
  end.

(** [/github\.com\/([^\/]+)\/([^\/]+)/] at the start of [s]. *)
Definition matchHere (s : string) : option (string * string) :=
  match ScanProject.after "github.com/" s with
  | None => None
  | Some s1 =>
      let '(owner, r1) := segment s1 in
      match owner, r1 with
      | String _ _, String _ r2 =>
          let '(repo, _) := segment r2 in
          match repo with
          | String _ _ => Some (owner, repo)
          | EmptyString => None
          end
      | _, _ => None
      end
  end.

(** [repoUrl.match(...)]: the leftmost match. *)
Fixpoint matchUrl (s : string) : option (string * string) :=
  match matchHere s with
  | Some r => Some r
  | None => match s with
            | EmptyString => None
            | String _ s' => matchUrl s'
            end
  end.

(** [repo.replace('.git', '')] *)
Definition cleanRepo (repo : string) : string := JsText.removeFirst repo ".git".

Definition downloadUrl (owner repo : string) : string :=
  ("https://github.com/" ++ owner ++ "/" ++ cleanRepo repo
   ++ "/archive/refs/heads/main.zip")%string.

(** What lies outside the process: the GitHub API, the download, the
    extraction of the archive and the removal of the ZIP file. *)
Record Remote : Type := {
  repositoryInfo : string -> string -> Js.result Fs.Error string;   (* owner, repo *)
  download : string -> Js.result Fs.Error string;                   (* url -> zipPath *)
  extractRepository : string -> Js.result Fs.Error string;          (* zipPath -> path *)
  unlinkSync : string -> Js.result Fs.Error unit
}.

(** [getRepositoryInfo]: [null] for a URL that does not match. *)
Definition getRepositoryInfo (net : Remote) (repoUrl : string)
  : Js.result Fs.Error (option string) :=
  match matchUrl repoUrl with
  | None => Js.Ok None
  | Some (owner, repo) =>
      Js.bind (repositoryInfo net owner (cleanRepo repo)) (fun i => Js.Ok (Some i))
  end.

Definition downloadRepository (net : Remote) (repoUrl : string)
  : Js.result Fs.Error string :=
  match matchUrl repoUrl with
  | None => Js.Throw "Ogiltig GitHub URL"
  | Some (owner, repo) => download net (downloadUrl owner repo)
  end.

(** [analyzeFromGitHub]: every error is rethrown with a prefix. *)
Definition analyzeFromGitHub (net : Remote) (repoUrl : string)
  : Js.result Fs.Error (string * option string) :=
  match
    Js.bind (getRepositoryInfo net repoUrl) (fun repoInfo =>
    Js.bind (downloadRepository net repoUrl) (fun zipPath =>
    Js.bind (extractRepository net zipPath) (fun projectPath =>
    Js.bind (unlinkSync net zipPath) (fun _ =>
      Js.Ok (projectPath, repoInfo)))))
  with
  | Js.Ok r => Js.Ok r
  | Js.Throw e => Js.Throw ("GitHub-integration misslyckades: " ++ e)%string
  end.

(** What [POST /analyze-github] destructures from that result; the
    repository information is carried as its JSON text, [null] as the
    text null. *)
Definition fetched (net : Remote) (repoUrl : string)
  : Js.result Fs.Error (string * string) :=
  match analyzeFromGitHub net repoUrl with
  | Js.Ok (projectPath, Some info) => Js.Ok (projectPath, info)
  | Js.Ok (projectPath, None) => Js.Ok (projectPath, "null")
  | Js.Throw e => Js.Throw e
  end.

End GitHubIntegration.

(* ===================================================================== *)
(** ** The walk, once more *)
(* ===================================================================== *)

Module WalkLoop.

(** The [forEach] over the entries of one directory in the guarded walk
    ([Walk.scan] has it as a nested loop); [scanDir] is the recursive
    call on a subdirectory. *)
Fixpoint each (scanDir : string -> list Fs.FileRecord -> list Fs.FileRecord)
    (env : Walk.Env) (dir rel : string) (items : list string)
    (acc : list Fs.FileRecord) : list Fs.FileRecord :=
  match items with
  | [] => acc
  | item :: rest =>
      let relPath := (rel ++ "/" ++ item)%string in
      match Walk.statSync env (dir ++ relPath)%string with
      | Js.Throw _ => acc
      | Js.Ok Walk.IsFile =>
          each scanDir env dir rel rest
               (acc ++ [{| Fs.path := relPath; Fs.ext := Walk.extname item |}])
      | Js.Ok Walk.IsDirectory =>
          if Walk.descends item then each scanDir env dir rel rest (scanDir relPath acc)
          else each scanDir env dir rel rest acc
      | Js.Ok Walk.IsOther => each scanDir env dir rel rest acc
      end
  end.

End WalkLoop.

(** [getFileStructure] of the baseline analyzer ([analyzer.js]): the
    same walk without [try]/[catch], so a throw of [readdirSync] or
    [statSync] leaves the whole walk. *)
Module BaselineWalk.

Fixpoint scan (fuel : nat) (env : Walk.Env) (dir rel : string) (acc : list Fs.FileRecord)
  : Js.result Fs.Error (list Fs.FileRecord) :=
  match fuel with
  | O => Js.Throw "ENAMETOOLONG: name too long, scandir"
  | S fuel' =>
      match Walk.readdirSync env (dir ++ rel)%string with
      | Js.Throw e => Js.Throw e
      | Js.Ok items =>
          (fix each (items : list string) (acc : list Fs.FileRecord)
             : Js.result Fs.Error (list Fs.FileRecord) :=
             match items with
             | [] => Js.Ok acc
             | item :: rest =>
                 let relPath := (rel ++ "/" ++ item)%string in
                 match Walk.statSync env (dir ++ relPath)%string with
                 | Js.Throw e => Js.Throw e
                 | Js.Ok Walk.IsFile =>
                     each rest (acc ++ [{| Fs.path := relPath; Fs.ext := Walk.extname item |}])
                 | Js.Ok Walk.IsDirectory =>
                     if Walk.descends item then
                       match scan fuel' env dir relPath acc with
                       | Js.Ok acc' => each rest acc'
                       | Js.Throw e => Js.Throw e
                       end
                     else each rest acc
                 | Js.Ok Walk.IsOther => each rest acc
                 end
             end) items acc
      end
  end.

Definition getFileStructure (fuel : nat) (env : Walk.Env) (dir : string)
  : Js.result Fs.Error (list Fs.FileRecord) :=
  scan fuel env dir EmptyString [].

(** [analyzeProject] of the baseline analyzer from the directory: the
    object literal calls [getFileStructure] first, and [detectPatterns]
    and [checkGDPRRisks] walk the directory again. *)
Definition analyzeProject (fuel : nat) (env : Walk.Env) (dir : string)
    (read : Fs.Reader) (pkg : PkgFile) : Js.result Fs.Error CodeAnalyzer.Output :=
  Js.bind (getFileStructure fuel env dir) (fun files =>
    CodeAnalyzer.analyzeProject read files pkg).

End BaselineWalk.

(* ===================================================================== *)
(** ** Storing a scan ([routes/api.js]) *)
(* ===================================================================== *)

Module Api.

Definition mapImpactScore (score : Z) : string :=
  if 8 <=? score then "high" else if 5 <=? score then "medium" else "low".

Definition mapEffortScore (score : Z) : string :=
  if score <=? 3 then "low" else if score <=? 6 then "medium" else "high".

(** The object passed to [db.createFinding]. *)
Record FindingRow : Type := {
  row_title : string;
  row_category : string;
  row_impact : string;
  row_effort : string;
  row_confidence : Q
}.

Definition findingOf (r : CodeAnalyzer.Ranked) : FindingRow :=
  let suggestion := CodeAnalyzer.suggestion r in
  {| row_title := CodeAnalyzer.title suggestion;
     row_category := JsText.toLowerCase (CodeAnalyzer.category suggestion);
     row_impact := mapImpactScore (CodeAnalyzer.impact suggestion);
     row_effort := mapEffortScore (CodeAnalyzer.effort suggestion);
     row_confidence := 8 # 10 |}.

Record Summary : Type := {
  findingsCount : nat;
  topSuggestion : string;
  estimatedImpact : string;
  language : string;
  framework : string
}.

(** The database calls of [processScan]. *)
Record Db : Type := {
  updateScanStatus : string -> Js.result Fs.Error unit;
  createFinding : FindingRow -> Js.result Fs.Error string
}.

(** The [for] loop over the suggestions: the ids of the stored rows. *)
Fixpoint storeFindings (db : Db) (l : list CodeAnalyzer.Ranked)
  : Js.result Fs.Error (list string) :=
  match l with
  | [] => Js.Ok []
  | r :: rest =>
      Js.bind (createFinding db (findingOf r)) (fun findingId =>
        Js.bind (storeFindings db rest) (fun ids => Js.Ok (findingId :: ids)))
  end.

Definition summaryOf (scanResult : Server.ScanResult) (analysis : CodeAnalyzer.Output)
    (findingIds : list string) : Summary :=
  {| findingsCount := List.length findingIds;
     topSuggestion :=
       match CodeAnalyzer.suggestions analysis with
       | r :: _ =>
           if String.eqb (CodeAnalyzer.title (CodeAnalyzer.suggestion r)) EmptyString
           then "No suggestions"
           else CodeAnalyzer.title (CodeAnalyzer.suggestion r)
       | [] => "No suggestions"
       end;
     estimatedImpact :=
       match CodeAnalyzer.suggestions analysis with
       | r :: _ =>
           if 7 <=? CodeAnalyzer.impact (CodeAnalyzer.suggestion r) then "high" else "medium"
       | [] => "medium"
       end;
     language := Server.language scanResult;
     framework := Server.framework scanResult |}.

(** The [try] block of [processScan]: the rows handed to the database
    and the summary of the scan marked 'done'; a [Throw] is the error
    with which the [catch] block marks the scan 'failed'. *)
Definition processScan (db : Db) (scanned : Js.result Fs.Error Server.ScanResult)
    (analyzeProject : Server.ScanResult -> Js.result Fs.Error CodeAnalyzer.Output)
  : Js.result Fs.Error (list FindingRow * Summary) :=
  Js.bind (updateScanStatus db "running") (fun _ =>
  Js.bind scanned (fun scanResult =>
  Js.bind (analyzeProject scanResult) (fun analysis =>
  Js.bind (storeFindings db (CodeAnalyzer.suggestions analysis)) (fun findingIds =>
    let summary := summaryOf scanResult analysis findingIds in
    Js.bind (updateScanStatus db "done") (fun _ =>
      Js.Ok (map findingOf (CodeAnalyzer.suggestions analysis), summary)))))).

End Api.

(* ===================================================================== *)
(** ** The entry point of the full EnhancedAnalyzer *)
(* ===================================================================== *)

Module EnhancedAnalyzerRun.

Definition quoted (s : string) : string :=
  String "034"%char (s ++ String "034"%char EmptyString)%string.

(** [piiPatterns] *)
Definition piiPatterns : list (Regex.t * string) :=
  [ (Regex.re [["email"; "="]; ["email"; ":"]; [quoted "email"]], "email_collection");
    (Regex.re [["phone"; "="]; ["phone"; ":"]; [quoted "phone"]], "phone_collection");
    (Regex.re [["address"; "="]; ["address"; ":"]; [quoted "address"]], "address_collection");
    (Regex.re [["ssn"]; ["social"; "security"]; ["personnummer"]], "sensitive_id");
    (Regex.re [["birthday"]; ["birth"; "date"]; ["age"]], "age_data");
    (Regex.re [["ip"; "address"]; ["getClientIP"]; ["req.ip"]], "ip_tracking");
    (Regex.re [["cookie"]; ["localStorage"]; ["sessionStorage"]], "data_storage");
    (Regex.re [["track"]; ["analytics"]; ["gtag"]; ["fbpixel"]], "tracking") ].

Record Risk : Type := { risk_file : string; risk_type : string; matches : nat }.

Definition fileRisks (file content : string) : list Risk :=
  flat_map (fun pt =>
    let n := Regex.matchCount (fst pt) content in
    if Nat.ltb 0 n
    then [{| risk_file := file; risk_type := snd pt; matches := n |}] else [])
    piiPatterns.

(** [performGDPRScan]: [readFileSync] is called outside any [try]. *)
Fixpoint performGDPRScan (read : Fs.Reader) (files : list Fs.FileRecord)
  : Js.result Fs.Error (list Risk) :=
  match files with
  | [] => Js.Ok []
  | f :: rest =>
      if CodeAnalyzer.isScript (Fs.ext f) then
        Js.bind (read (Fs.path f)) (fun content =>
          Js.bind (performGDPRScan read rest) (fun risks =>
            Js.Ok (fileRisks (Fs.path f) content ++ risks)))
      else performGDPRScan read rest
  end.

(** [this.scanSecurityIssues(projectPath)]: the class defines no method
    of this name, so the call throws a [TypeError]. *)
Definition scanSecurityIssues : Js.result Fs.Error (list string) :=
  Js.Throw "this.scanSecurityIssues is not a function".

Record Output : Type := {
  out_patterns : EnhancedAnalyzer.Patterns;
  businessContext : EnhancedAnalyzer.BusinessContext;
  gdprRisks : list Risk;
  securityVulnerabilities : list string;
  suggestions : list EnhancedAnalyzer.Ranked
}.

(** [analyzeProjectAdvanced], given the records of [getFileStructure]
    and the package names of [analyzeDependencies]; the properties of
    the object literal are evaluated in the order they are written. *)
Definition analyzeProjectAdvanced (read : Fs.Reader) (files : list Fs.FileRecord)
    (pkg : PkgFile) (packages : list string) : Js.result Fs.Error Output :=
  Js.bind (EnhancedAnalyzer.detectAdvancedPatterns read files) (fun patterns =>
  Js.bind (EnhancedAnalyzer.inferBusinessContext pkg) (fun ctx =>
  Js.bind (performGDPRScan read files) (fun risks =>
  Js.bind scanSecurityIssues (fun vulnerabilities =>
    Js.Ok {| out_patterns := patterns;
             businessContext := ctx;
             gdprRisks := risks;
             securityVulnerabilities := vulnerabilities;
             suggestions :=
               EnhancedAnalyzer.rankWithMLScoring
                 (EnhancedAnalyzer.generateEnhancedSuggestions patterns ctx packages)
                 ctx |})))).

End EnhancedAnalyzerRun.

(* ===================================================================== *)
(** ** More sample data *)
(* ===================================================================== *)

Module Demo.

(** The readable files of the sample project. *)
Definition files : list Fs.FileRecord :=
  [ {| Fs.path := "/server.js"; Fs.ext := ".js" |};
    {| Fs.path := "/shop.js"; Fs.ext := ".js" |};
    {| Fs.path := "/README.md"; Fs.ext := ".md" |} ].

(** A database that accepts every call. *)
Definition store : Api.Db :=
  {| Api.updateScanStatus := fun _ => Js.Ok tt;
     Api.createFinding := fun r => Js.Ok ("finding-" ++ Api.row_title r)%string |}.

(** The entries of a project root: [chart.js] is a directory. *)
Definition entries : list string := ["server.js"; "chart.js"; "shop.js"; "package.json"].

Definition readEntry : Fs.Reader :=
  fun p =>
    if String.eqb p "/server.js" then Js.Ok Sample.serverJs
    else if String.eqb p "/shop.js" then Js.Ok Sample.shopJs
    else if String.eqb p "/chart.js"
    then Js.Throw "EISDIR: illegal operation on a directory, read"
    else Js.Throw "ENOENT: no such file or directory".

(** A directory whose second entry is a dangling symbolic link. *)
Definition danglingEnv : Walk.Env :=
  {| Walk.readdirSync := fun p =>
       if String.eqb p "/proj" then Js.Ok ["a.js"; "gone"; "b.js"]
       else Js.Throw "ENOENT: no such file or directory";
     Walk.statSync := fun p =>
       if existsb (String.eqb p) ["/proj/a.js"; "/proj/b.js"] then Js.Ok Walk.IsFile
       else Js.Throw "ENOENT: no such file or directory";
     Walk.realpath := fun p => p |}.

(** A remote side on which every call succeeds. *)
Definition remote : GitHubIntegration.Remote :=
  {| GitHubIntegration.repositoryInfo := fun owner repo =>
       Js.Ok ("{name:" ++ repo ++ "}")%string;
     GitHubIntegration.download := fun url => Js.Ok "/uploads/repo.zip";
     GitHubIntegration.extractRepository := fun zipPath => Js.Ok "/uploads/extracted/repo-main";
     GitHubIntegration.unlinkSync := fun _ => Js.Ok tt |}.

End Demo.

(* ===================================================================== *)
(** ** Facts about the primitives *)
(* ===================================================================== *)

Section SortFacts.
Context {A : Type} (key : A -> Q).

Lemma insertDesc_perm (x : A) (l : list A) :
  Permutation (Js.insertDesc key x l) (x :: l).
Proof.
  induction l as [|y r IH]; simpl.
  - apply Permutation_refl.
  - destruct (Qle_bool (key y) (key x)).
    + apply Permutation_refl.
    + eapply perm_trans; [apply perm_skip, IH | apply perm_swap].
Qed.

Lemma sortDesc_perm (l : list A) : Permutation (Js.sortDesc key l) l.
Proof.
  induction l as [|x r IH]; simpl.
  - constructor.
  - eapply perm_trans; [apply insertDesc_perm | apply perm_skip, IH].
Qed.

Lemma sortDesc_length (l : list A) :
  List.length (Js.sortDesc key l) = List.length l.
Proof. apply Permutation_length, sortDesc_perm. Qed.

Lemma keyGe_trans (a b c : A) :
  Js.keyGe key a b -> Js.keyGe key b c -> Js.keyGe key a c.
Proof. unfold Js.keyGe; intros H1 H2. eapply Qle_trans; eauto. Qed.

Lemma insertDesc_sorted (x : A) (l : list A) :
  StronglySorted (Js.keyGe key) l ->
  StronglySorted (Js.keyGe key) (Js.insertDesc key x l).
Proof.
  induction 1 as [|y r Hr IH Hy]; simpl.
  - repeat constructor.
  - destruct (Qle_bool (key y) (key x)) eqn:E.
    + apply Qle_bool_iff in E.
      constructor; [constructor; assumption|].
      constructor; [exact E|].
      eapply Forall_impl; [|exact Hy].
      intros c Hc. eapply keyGe_trans; [exact E | exact Hc].
    + assert (Hlt : (key x < key y)%Q).
      { apply Qnot_le_lt. intro Hle. apply Qle_bool_iff in Hle. congruence. }
      constructor; [exact IH|].
      eapply Permutation_Forall.
      * apply Permutation_sym, insertDesc_perm.
      * constructor; [apply Qlt_le_weak, Hlt | exact Hy].
Qed.

Lemma sortDesc_sorted (l : list A) :
  StronglySorted (Js.keyGe key) (Js.sortDesc key l).
Proof.
  induction l as [|x r IH]; simpl.
  - constructor.
  - apply insertDesc_sorted, IH.
Qed.

(** Stability: the elements carrying any given key value appear in the
    output in exactly the order they had in the input. *)
Lemma insertDesc_stable (k : Q) (x : A) (l : list A) :
  filter (Js.hasKey key k) (Js.insertDesc key x l) =
  filter (Js.hasKey key k) (x :: l).
Proof.
  induction l as [|y r IH]; [reflexivity|].
  cbn [Js.insertDesc].
  destruct (Qle_bool (key y) (key x)) eqn:E; [reflexivity|].
  cbn [filter] in *. rewrite IH.
  destruct (Js.hasKey key k x) eqn:Hx; [|reflexivity].
  destruct (Js.hasKey key k y) eqn:Hy; [|reflexivity].
  exfalso. unfold Js.hasKey in *.
  apply Qeq_bool_iff in Hx, Hy.
  assert (Hle : (key y <= key x)%Q) by (rewrite Hx, Hy; apply Qle_refl).
  apply Qle_bool_iff in Hle. congruence.
Qed.

Lemma sortDesc_stable (k : Q) (l : list A) :
  filter (Js.hasKey key k) (Js.sortDesc key l) = filter (Js.hasKey key k) l.
Proof.
  induction l as [|x r IH]; [reflexivity|].
  cbn [Js.sortDesc]. rewrite insertDesc_stable.
  cbn [filter]. rewrite IH. reflexivity.
Qed.

Lemma sorted_firstn (n : nat) (l : list A) :
  StronglySorted (Js.keyGe key) l ->
  StronglySorted (Js.keyGe key) (firstn n l).
Proof.
  intros H. revert n. induction H as [|y r Hr IH Hy]; intros [|n]; simpl;
    try constructor.
  - apply IH.
  - rewrite Forall_forall in *. intros z Hz. apply Hy.
    rewrite <- (firstn_skipn n r). apply in_or_app. now left.
Qed.

End SortFacts.

Lemma sortDesc_map {A B : Type} (f : A -> B) (key : B -> Q) (l : list A) :
  Js.sortDesc key (map f l) = map f (Js.sortDesc (fun a => key (f a)) l).
Proof.
  induction l as [|x r IH]; [reflexivity|].
  simpl. rewrite IH. clear IH.
  induction (Js.sortDesc (fun a => key (f a)) r) as [|y t IHt]; [reflexivity|].
  simpl. destruct (Qle_bool (key (f y)) (key (f x))); [reflexivity|].
  simpl. now rewrite IHt.
Qed.

Example regex_examples :
  Regex.test (Regex.re [["function"]; ["const"]; ["let"]; ["var"]; ["=>"]]) "Const x = 1;" = true /\
  Regex.test (Regex.re [["console.log"; "error"]; ["try"; "catch"; "console"]]) ("console.log(1)" ++ String "010" "error")%string = false /\
  Regex.test (Regex.re [["console.log"; "error"]; ["try"; "catch"; "console"]]) "try { } catch (e) { console.log(e) }" = true /\
  Regex.matchCount (Regex.re [["product"]; ["cart"]]) "Product cart productcart x" = 4%nat /\
  Regex.matchCount (Regex.re [["try"; "catch"]; ["error"]]) ("try a catch b catch error" ++ String "010" "error")%string = 3%nat /\
  Regex.matchCount (Regex.re [["try"; "catch"]; ["error"]]) "" = 0%nat /\
  Fs.lines ("a" ++ String "010" ("b" ++ String "010" ""))%string = ["a"; "b"; ""] /\
  Fs.lineCount "" = 1%nat.
Proof. repeat split; vm_compute; reflexivity. Qed.

(* ===================================================================== *)
(** ** Ranking *)
(* ===================================================================== *)

Lemma ranked_sort_slice {A : Type} (key : A -> Q) (l : list A) :
  Spec.ranked key l (Js.slice0 10 (Js.sortDesc key l)).
Proof.
  exists (Js.sortDesc key l). repeat split.
  - apply sortDesc_perm.
  - apply sortDesc_sorted.
  - intros k. apply sortDesc_stable.
Qed.

Lemma ranked_sort {A : Type} (key : A -> Q) (l : list A) :
  (List.length l <= 10)%nat -> Spec.ranked key l (Js.sortDesc key l).
Proof.
  intros H. exists (Js.sortDesc key l). repeat split.
  - symmetry. apply firstn_all2. rewrite sortDesc_length. exact H.
  - apply sortDesc_perm.
  - apply sortDesc_sorted.
  - intros k. apply sortDesc_stable.
Qed.

Lemma sortDesc_stablySorted {A : Type} (key : A -> Q) (l : list A) :
  Js.stablySorted key l (Js.sortDesc key l).
Proof.
  split; [apply sortDesc_perm|]. split; [apply sortDesc_sorted|].
  intros k. apply sortDesc_stable.
Qed.


Lemma ranked_sorted {A : Type} (key : A -> Q) (g r : list A) :
  Spec.ranked key g r -> StronglySorted (Js.keyGe key) r.
Proof.
  intros (full & -> & _ & Hs & _). apply sorted_firstn, Hs.
Qed.

Lemma length_when {A : Type} (b : bool) (x : A) :
  (List.length (if b then [x] else []) <= 1)%nat.
Proof. destruct b; simpl; lia. Qed.

Lemma map_firstn_comm {A B : Type} (f : A -> B) (n : nat) (l : list A) :
  map f (firstn n l) = firstn n (map f l).
Proof.
  revert n; induction l as [|x r IH]; intros [|n]; simpl; try reflexivity.
  now rewrite IH.
Qed.

(** The baseline ranker, on any list of suggestions. *)
Lemma CodeAnalyzer_rank_view (l : list CodeAnalyzer.Suggestion) :
  map CodeAnalyzer.suggestion (CodeAnalyzer.rankSuggestions l) =
  Js.slice0 10 (Js.sortDesc CodeAnalyzer.scoreOf l).
Proof.
  unfold CodeAnalyzer.rankSuggestions, Js.slice0.
  rewrite map_firstn_comm. f_equal.
  rewrite (sortDesc_map
             (fun s => {| CodeAnalyzer.suggestion := s;
                          CodeAnalyzer.score := CodeAnalyzer.scoreOf s |})
             CodeAnalyzer.score).
  rewrite map_map. simpl. apply map_id.
Qed.

Lemma CodeAnalyzer_generate_length p d :
  (List.length (CodeAnalyzer.generateSuggestions p d) <= 6)%nat.
Proof.
  unfold CodeAnalyzer.generateSuggestions.
  repeat rewrite length_app.
  pose proof (length_when (negb (CodeAnalyzer.hasChat p)) CodeAnalyzer.chatbot).
  pose proof (length_when (negb (CodeAnalyzer.hasSearch p)) CodeAnalyzer.betterSearch).
  pose proof (length_when (Nat.ltb 0 (List.length (CodeAnalyzer.security d)))
                CodeAnalyzer.dependencyRisks).
  simpl List.length at 3. lia.
Qed.

Lemma Simple_rank_view (l : list Finding) :
  map EnhancedAnalyzerSimple.finding (EnhancedAnalyzerSimple.rankSuggestions l) =
  Js.sortDesc EnhancedAnalyzerSimple.scoreOf l.
Proof.
  unfold EnhancedAnalyzerSimple.rankSuggestions.
  rewrite (sortDesc_map
             (fun s => {| EnhancedAnalyzerSimple.finding := s;
                          EnhancedAnalyzerSimple.score := EnhancedAnalyzerSimple.scoreOf s;
                          EnhancedAnalyzerSimple.priority := EnhancedAnalyzerSimple.priorityOf s |})
             EnhancedAnalyzerSimple.score).
  rewrite map_map. simpl. apply map_id.
Qed.


(* ===================================================================== *)
(** ** The pattern map of the replacement analyzer *)
(* ===================================================================== *)

Lemma fold_left_inv {A B : Type} (P : A -> Prop) (f : A -> B -> A) (l : list B) (a : A) :
  (forall a b, In b l -> P a -> P (f a b)) -> P a -> P (fold_left f l a).
Proof.
  revert a; induction l as [|b r IH]; intros a Hf Ha; simpl; [exact Ha|].
  apply IH.
  - intros a' b' Hb. apply Hf. now right.
  - apply Hf; [now left | exact Ha].
Qed.

Module ReplacementFacts.
Import CodeReplacementAnalyzer.

Lemma addMatch_keys_in c d m k :
  In k (keys (addMatch c d m)) <-> k = c \/ In k (keys m).
Proof.
  unfold keys. induction m as [|[k0 ds] r IH]; simpl.
  - intuition.
  - destruct (String.eqb_spec k0 c) as [->|Hne]; simpl.
    + intuition.
    + rewrite IH. intuition.
Qed.

Lemma addMatch_nodup c d m : NoDup (keys m) -> NoDup (keys (addMatch c d m)).
Proof.
  unfold keys. induction m as [|[k0 ds] r IH]; simpl; intros H.
  - repeat constructor. intros [].
  - destruct (String.eqb_spec k0 c) as [->|Hne]; simpl; [exact H|].
    inversion H as [|? ? Hnin Hnd]; subst. constructor.
    + intro Hin. apply (addMatch_keys_in c d r k0) in Hin.
      destruct Hin as [->|Hin]; [now apply Hne | now apply Hnin].
    + apply IH, Hnd.
Qed.

Lemma addMatch_nonempty c d m :
  Forall (fun e => snd e <> []) m -> Forall (fun e => snd e <> []) (addMatch c d m).
Proof.
  induction m as [|[k0 ds] r IH]; simpl; intros H.
  - constructor; [discriminate | constructor].
  - inversion H; subst.
    destruct (String.eqb k0 c); constructor; simpl; auto.
    destruct ds; discriminate.
Qed.

Lemma addMatch_wf cfg c d m :
  In c (map fst cfg) -> wf cfg m -> wf cfg (addMatch c d m).
Proof.
  intros Hc (Hnd & Hincl & Hne). repeat split.
  - apply addMatch_nodup, Hnd.
  - intros k Hk. apply addMatch_keys_in in Hk. destruct Hk as [->|Hk]; auto.
  - apply addMatch_nonempty, Hne.
Qed.

Lemma scanPatterns_wf cfg path content c ps m :
  In c (map fst cfg) -> wf cfg m -> wf cfg (scanPatterns path content c ps m).
Proof.
  intros Hc. unfold scanPatterns. apply fold_left_inv.
  intros a p _ Ha. destruct (Regex.test (code p) content); [|exact Ha].
  apply addMatch_wf; assumption.
Qed.

Lemma scanPatterns_keeps path content c ps m k :
  In k (keys m) -> In k (keys (scanPatterns path content c ps m)).
Proof.
  intros Hk. unfold scanPatterns.
  apply (fold_left_inv (fun a => In k (keys a))); [|exact Hk].
  intros a p _ Ha. destruct (Regex.test (code p) content); [|exact Ha].
  apply addMatch_keys_in. now right.
Qed.

Lemma scanPatterns_adds path content c ps m p :
  In p ps -> Regex.test (code p) content = true ->
  In c (keys (scanPatterns path content c ps m)).
Proof.
  unfold scanPatterns. revert m. induction ps as [|q r IH]; intros m Hin Ht; [destruct Hin|].
  simpl. destruct Hin as [->|Hin].
  - rewrite Ht.
    apply (fold_left_inv (fun a => In c (keys a))).
    + intros a b _ Ha. destruct (Regex.test (code b) content); [|exact Ha].
      apply addMatch_keys_in. now right.
    + apply addMatch_keys_in. now left.
  - apply IH; assumption.
Qed.

Lemma scanContent_wf cfg0 cfg path content m :
  incl (map fst cfg) (map fst cfg0) -> wf cfg0 m -> wf cfg0 (scanContent cfg path content m).
Proof.
  intros Hincl. unfold scanContent. apply fold_left_inv.
  intros a e He Ha. apply scanPatterns_wf; [|exact Ha].
  apply Hincl, in_map, He.
Qed.

Lemma scanContent_keeps cfg path content m k :
  In k (keys m) -> In k (keys (scanContent cfg path content m)).
Proof.
  intros Hk. unfold scanContent.
  apply (fold_left_inv (fun a => In k (keys a))); [|exact Hk].
  intros a e _ Ha. now apply scanPatterns_keeps.
Qed.

Lemma scanContent_adds cfg path content m c conf p :
  In (c, conf) cfg -> In p (patterns conf) -> Regex.test (code p) content = true ->
  In c (keys (scanContent cfg path content m)).
Proof.
  unfold scanContent. revert m. induction cfg as [|e r IH]; intros m Hin Hp Ht; [destruct Hin|].
  simpl. destruct Hin as [->|Hin].
  - apply (fold_left_inv (fun a => In c (keys a))).
    + intros a b _ Ha. now apply scanPatterns_keeps.
    + simpl. eapply scanPatterns_adds; eauto.
  - apply IH; assumption.
Qed.

Lemma scanFiles_wf cfg read fs m :
  wf cfg m -> wf cfg (scanFiles cfg read fs m).
Proof.
  revert m; induction fs as [|f r IH]; intros m Hm; simpl; [exact Hm|].
  destruct (isCodeFile (Fs.ext f)); [|now apply IH].
  destruct (read (Fs.path f)); [|now apply IH].
  apply IH, scanContent_wf; [apply incl_refl | exact Hm].
Qed.

Lemma scanFiles_keeps cfg read fs m k :
  In k (keys m) -> In k (keys (scanFiles cfg read fs m)).
Proof.
  revert m; induction fs as [|f r IH]; intros m Hm; simpl; [exact Hm|].
  destruct (isCodeFile (Fs.ext f)); [|now apply IH].
  destruct (read (Fs.path f)); [|now apply IH].
  apply IH, scanContent_keeps, Hm.
Qed.

Lemma scanFiles_adds cfg read fs m f content c conf p :
  In f fs -> isCodeFile (Fs.ext f) = true -> read (Fs.path f) = Js.Ok content ->
  In (c, conf) cfg -> In p (patterns conf) -> Regex.test (code p) content = true ->
  In c (keys (scanFiles cfg read fs m)).
Proof.
  revert m; induction fs as [|g r IH]; intros m Hin Hext Hread Hc Hp Ht; [destruct Hin|].
  simpl. destruct Hin as [->|Hin].
  - rewrite Hext, Hread. apply scanFiles_keeps. eapply scanContent_adds; eauto.
  - destruct (isCodeFile (Fs.ext g)); [|now apply IH].
    destruct (read (Fs.path g)); now apply IH.
Qed.

Lemma wf_empty cfg : wf cfg [].
Proof. repeat split; [constructor | intros ? [] | constructor]. Qed.

Lemma scanCodebase_wf db read fs :
  wf (buildCodePatterns db) (cb_patterns (scanCodebase db read fs)).
Proof. apply scanFiles_wf, wf_empty. Qed.

(** One opportunity per key of the map, in map order. *)
Lemma opportunities_categories cfg m :
  Forall (fun e => snd e <> []) m ->
  map category (flat_map (opportunityOf cfg) m) = keys m.
Proof.
  induction 1 as [|[c ms] r Hne _ IH]; [reflexivity|].
  simpl in *. destruct ms as [|m0 ms']; [contradiction|].
  simpl. now rewrite IH.
Qed.

Lemma cfg_keys db :
  map fst (buildCodePatterns db) =
  ["payments"; "auth"; "analytics"; "communication"; "search"; "media"; "monitoring"].
Proof. reflexivity. Qed.

Lemma opportunities_nodup db read fs :
  NoDup (map category (findReplacementOpportunities db (scanCodebase db read fs))).
Proof.
  destruct (scanCodebase_wf db read fs) as (Hnd & _ & Hne).
  unfold findReplacementOpportunities. rewrite opportunities_categories; assumption.
Qed.

Lemma opportunities_length db read fs :
  (List.length (findReplacementOpportunities db (scanCodebase db read fs)) <= 7)%nat.
Proof.
  destruct (scanCodebase_wf db read fs) as (Hnd & Hincl & Hne).
  rewrite <- (length_map category).
  unfold findReplacementOpportunities. rewrite opportunities_categories by assumption.
  apply (NoDup_incl_length Hnd) in Hincl.
  rewrite cfg_keys in Hincl. exact Hincl.
Qed.

End ReplacementFacts.

Section SampleRuns.
Import CodeReplacementAnalyzer.

Example sample_replacement_run :
  match analyzeCodeForReplacements Sample.db Sample.read Sample.files with
  | Js.Ok o => map sview (suggestions o) =
               [("monitoring", 8, 3); ("analytics", 5, 2)]
  | Js.Throw _ => False
  end.
Proof. vm_compute. reflexivity. Qed.

End SampleRuns.

Section ReplacementRanking.
Import CodeReplacementAnalyzer.

Lemma toSuggestions_view i l ss :
  toSuggestions i l = Js.Ok ss -> map sview ss = map view l.
Proof.
  revert i ss; induction l as [|o r IH]; intros i ss H; simpl in H.
  - now inversion H.
  - destruct (opp_recommendations o) as [|top rest] eqn:E; [discriminate|].
    destruct (toSuggestions (S i) r) as [ss'|e] eqn:E'; simpl in H; [|discriminate].
    inversion H; subst. simpl. f_equal. unfold view. eapply IH; eauto.
Qed.

Lemma toSuggestions_ok i l :
  Forall (fun o => opp_recommendations o <> []) l -> exists ss, toSuggestions i l = Js.Ok ss.
Proof.
  intros H; revert i; induction H as [|o r Ho _ IH]; intros i; simpl.
  - eexists; reflexivity.
  - destruct (opp_recommendations o) as [|top rest]; [contradiction|].
    destruct (IH (S i)) as [ss ->]. simpl. eexists; reflexivity.
Qed.

Lemma analyze_ok db read fs out :
  analyzeCodeForReplacements db read fs = Js.Ok out ->
  prioritizeRecommendations (findReplacementOpportunities db (scanCodebase db read fs))
  = Js.Ok (suggestions out).
Proof.
  unfold analyzeCodeForReplacements.
  destruct (prioritizeRecommendations _) as [ss|e]; simpl; intros H; [|discriminate].
  now inversion H.
Qed.

Lemma prioritize_view l ss :
  prioritizeRecommendations l = Js.Ok ss ->
  map sview ss = Js.sortDesc viewKey (map view l).
Proof.
  unfold prioritizeRecommendations. intros H.
  apply toSuggestions_view in H. rewrite H.
  rewrite (sortDesc_map view viewKey). reflexivity.
Qed.

End ReplacementRanking.




(* ===================================================================== *)
(** ** The baseline monitoring detector *)
(* ===================================================================== *)

Section Monitoring.
Import CodeReplacementAnalyzer.

Lemma selectBest_nonempty recs m : recs <> [] -> bestRecommendations recs m <> [].
Proof.
  intros H Hnil. apply (f_equal (@List.length _)) in Hnil.
  unfold bestRecommendations, Js.slice0 in Hnil.
  rewrite length_map, length_firstn, sortDesc_length, length_map in Hnil.
  destruct recs; [contradiction | simpl in Hnil; discriminate].
Qed.

Lemma opportunity_recommendations cfg m o :
  In o (flat_map (opportunityOf cfg) m) ->
  In (category o) (keys m) /\
  exists m, opp_recommendations o = bestRecommendations (configOf cfg (category o)) m.
Proof.
  intros H. apply in_flat_map in H. destruct H as ([c ms] & Hin & Ho).
  simpl in Ho. destruct ms as [|m0 ms']; [destruct Ho|].
  destruct Ho as [<-|[]]. simpl. split.
  - unfold keys. change c with (fst (c, m0 :: ms')). now apply in_map.
  - eexists; reflexivity.
Qed.

Lemma monitoring_key db read fs f content :
  In f fs -> isCodeFile (Fs.ext f) = true -> read (Fs.path f) = Js.Ok content ->
  Regex.test (Regex.re anyCode) content = true ->
  In "monitoring" (keys (cb_patterns (scanCodebase db read fs))).
Proof.
  intros Hin Hext Hread Ht. unfold scanCodebase. simpl.
  eapply (ReplacementFacts.scanFiles_adds (buildCodePatterns db) read fs [] f content
            "monitoring" _
            (pat anyCode "Grundläggande kod utan övervakning"
                 "Ingen felspårning eller prestandaövervakning")); eauto.
  - simpl. do 6 right. left. reflexivity.
  - simpl. do 3 right. left. reflexivity.
Qed.

Lemma suggestion_categories l ss :
  prioritizeRecommendations l = Js.Ok ss ->
  Permutation (map s_category ss) (map category l).
Proof.
  intros H. apply prioritize_view in H.
  assert (E1 : map s_category ss = map (fun v : View => fst (fst v)) (map sview ss))
    by (rewrite map_map; reflexivity).
  assert (E2 : map category l = map (fun v : View => fst (fst v)) (map view l))
    by (rewrite map_map; reflexivity).
  rewrite E1, E2, H. apply Permutation_map, sortDesc_perm.
Qed.

End Monitoring.

(** C10, as amended.  When a project has a readable code file whose
    content matches [/function|const|let|var|=>/i], and every category
    for which some pattern matched (monitoring is then one of them) has a
    non-empty catalog section, [analyzeCodeForReplacements] returns and
    its suggestions include one of category 'monitoring'. *)
Theorem monitoring_reported_on_any_code
    (db : ApiDatabase) (read : Fs.Reader) (fs : list Fs.FileRecord)
    (f : Fs.FileRecord) (content : string) :
  In f fs ->
  CodeReplacementAnalyzer.isCodeFile (Fs.ext f) = true ->
  read (Fs.path f) = Js.Ok content ->
  Regex.test (Regex.re CodeReplacementAnalyzer.anyCode) content = true ->
  (forall c,
     In c (CodeReplacementAnalyzer.keys
             (CodeReplacementAnalyzer.cb_patterns
                (CodeReplacementAnalyzer.scanCodebase db read fs))) ->
     CodeReplacementAnalyzer.configOf (CodeReplacementAnalyzer.buildCodePatterns db) c <> []) ->
  exists out,
    CodeReplacementAnalyzer.analyzeCodeForReplacements db read fs = Js.Ok out /\
    exists s, In s (CodeReplacementAnalyzer.suggestions out) /\
              CodeReplacementAnalyzer.s_category s = "monitoring".
Proof.
  intros Hin Hext Hread Ht Hcat.
  pose proof (monitoring_key db read fs f content Hin Hext Hread Ht) as Hkey.
  destruct (ReplacementFacts.scanCodebase_wf db read fs) as (_ & _ & Hne).
  set (cb := CodeReplacementAnalyzer.scanCodebase db read fs) in *.
  set (opps := CodeReplacementAnalyzer.findReplacementOpportunities db cb).
  assert (Hrecs : Forall (fun o => CodeReplacementAnalyzer.opp_recommendations o <> []) opps).
  { apply Forall_forall. intros o Ho.
    apply opportunity_recommendations in Ho. destruct Ho as (Hk & ms & ->).
    apply selectBest_nonempty, Hcat, Hk. }
  assert (Hsorted : Forall (fun o => CodeReplacementAnalyzer.opp_recommendations o <> [])
                      (Js.sortDesc CodeReplacementAnalyzer.priorityKey opps)).
  { eapply Permutation_Forall; [apply Permutation_sym, sortDesc_perm | exact Hrecs]. }
  destruct (toSuggestions_ok O _ Hsorted) as [ss Hss].
  assert (Hprio : CodeReplacementAnalyzer.prioritizeRecommendations opps = Js.Ok ss) by exact Hss.
  eexists. split.
  - unfold CodeReplacementAnalyzer.analyzeCodeForReplacements.
    fold cb. fold opps. rewrite Hprio. simpl. reflexivity.
  - simpl.
    assert (Hm : In "monitoring" (map CodeReplacementAnalyzer.s_category ss)).
    { eapply Permutation_in; [apply Permutation_sym, suggestion_categories, Hprio|].
      unfold opps, CodeReplacementAnalyzer.findReplacementOpportunities.
      rewrite ReplacementFacts.opportunities_categories by exact Hne. exact Hkey. }
    apply in_map_iff in Hm. destruct Hm as (s & Hs & Hin'). exists s. split; assumption.
Qed.

Lemma monitoring_reported_witness :
  In {| Fs.path := "/server.js"; Fs.ext := ".js" |} Sample.files /\
  exists out,
    CodeReplacementAnalyzer.analyzeCodeForReplacements Sample.db Sample.read Sample.files
    = Js.Ok out /\
    exists s, In s (CodeReplacementAnalyzer.suggestions out) /\
              CodeReplacementAnalyzer.s_category s = "monitoring".
Proof.
  split; [left; reflexivity|].
  apply (monitoring_reported_on_any_code Sample.db Sample.read Sample.files
           {| Fs.path := "/server.js"; Fs.ext := ".js" |} Sample.serverJs).
  - left; reflexivity.
  - reflexivity.
  - reflexivity.
  - vm_compute; reflexivity.
  - intros c Hc. vm_compute in Hc.
    destruct Hc as [<-|[<-|[]]]; vm_compute; discriminate.
Defined.

(** With an empty analytics section and a file that logs to the console,
    the analysis throws instead of reporting monitoring. *)
Lemma monitoring_not_always_reported : ~ Spec.monitoringAlwaysReported.
Proof.
  intros H.
  destruct (H Sample.dbNoAnalytics Sample.read Sample.files
              {| Fs.path := "/server.js"; Fs.ext := ".js" |} Sample.serverJs)
    as (out & Hout & _).
  - left; reflexivity.
  - reflexivity.
  - reflexivity.
  - vm_compute; reflexivity.
  - vm_compute; discriminate.
  - vm_compute in Hout. discriminate.
Qed.

(* ===================================================================== *)
(** ** Categories and ids of the generated findings *)
(* ===================================================================== *)

Ltac split_rules :=
  repeat match goal with
         | |- context [if ?b then _ :: _ else []] => destruct b
         end.

Ltac distinct_strings :=
  simpl; repeat constructor; simpl; intuition discriminate.

Lemma Simple_ids_distinct db p c :
  NoDup (map id (EnhancedAnalyzerSimple.generateEnhancedSuggestions db p c)).
Proof.
  unfold EnhancedAnalyzerSimple.generateEnhancedSuggestions.
  split_rules; distinct_strings.
Qed.

Lemma Enhanced_ids_distinct p c pk :
  NoDup (map id (EnhancedAnalyzer.generateEnhancedSuggestions p c pk)).
Proof.
  unfold EnhancedAnalyzer.generateEnhancedSuggestions.
  split_rules; distinct_strings.
Qed.

(** C6, as amended.  In one run of the replacement analyzer the
    categories of the opportunities, and of the suggestions made from
    them, are pairwise distinct; in one run of either enhanced generator
    the ids of the findings are pairwise distinct (their categories need
    not be: 'ai-ux' is the category of both the chatbot and the search
    finding). *)
Theorem findings_distinct_per_run :
  (forall db read fs,
     NoDup (map CodeReplacementAnalyzer.category
              (CodeReplacementAnalyzer.findReplacementOpportunities db
                 (CodeReplacementAnalyzer.scanCodebase db read fs)))) /\
  (forall db read fs out,
     CodeReplacementAnalyzer.analyzeCodeForReplacements db read fs = Js.Ok out ->
     NoDup (map CodeReplacementAnalyzer.s_category (CodeReplacementAnalyzer.suggestions out))) /\
  (forall db p c,
     NoDup (map (fun r => id (EnhancedAnalyzerSimple.finding r))
              (EnhancedAnalyzerSimple.rankSuggestions
                 (EnhancedAnalyzerSimple.generateEnhancedSuggestions db p c)))) /\
  (forall p c pk ctx,
     NoDup (map (fun r => id (EnhancedAnalyzer.finding r))
              (EnhancedAnalyzer.rankWithMLScoring
                 (EnhancedAnalyzer.generateEnhancedSuggestions p c pk) ctx))).
Proof.
  split; [|split; [|split]].
  - apply ReplacementFacts.opportunities_nodup.
  - intros db read fs out Hok. apply analyze_ok in Hok.
    eapply Permutation_NoDup.
    + apply Permutation_sym, suggestion_categories, Hok.
    + apply ReplacementFacts.opportunities_nodup.
  - intros db p c.
    rewrite <- (map_map EnhancedAnalyzerSimple.finding id), Simple_rank_view.
    eapply Permutation_NoDup; [|apply Simple_ids_distinct].
    apply Permutation_map, Permutation_sym, sortDesc_perm.
  - intros p c pk ctx.
    unfold EnhancedAnalyzer.rankWithMLScoring.
    eapply Permutation_NoDup.
    + apply Permutation_map, Permutation_sym, sortDesc_perm.
    + rewrite map_map. simpl. apply Enhanced_ids_distinct.
Qed.

Lemma findings_distinct_witness :
  exists out,
    CodeReplacementAnalyzer.analyzeCodeForReplacements Sample.db Sample.read Sample.files
    = Js.Ok out /\
    NoDup (map CodeReplacementAnalyzer.s_category (CodeReplacementAnalyzer.suggestions out)).
Proof.
  eexists. split.
  - vm_compute. reflexivity.
  - apply (proj1 (proj2 findings_distinct_per_run) Sample.db Sample.read Sample.files).
    vm_compute. reflexivity.
Defined.

(** The enhanced analyzer of the chain, run on the sample shop, returns
    two findings of category 'ai-ux'. *)
Lemma categories_repeat_in_one_run :
  exists o,
    EnhancedAnalyzerSimple.analyzeProjectAdvanced Sample.db Sample.read Sample.files Sample.pkg
    = Js.Ok o /\
    map (fun r => (id (EnhancedAnalyzerSimple.finding r),
                   category (EnhancedAnalyzerSimple.finding r)))
        (EnhancedAnalyzerSimple.suggestions o)
    = [("payment-optimization", "business"); ("ai-chatbot", "ai-ux");
       ("personalization", "ai-business"); ("advanced-search", "ai-ux")] /\
    ~ NoDup (map (fun r => category (EnhancedAnalyzerSimple.finding r))
               (EnhancedAnalyzerSimple.suggestions o)).
Proof.
  eexists. split; [vm_compute; reflexivity|]. split; [vm_compute; reflexivity|].
  vm_compute. intros H.
  inversion H as [|? ? _ H1]; subst.
  inversion H1 as [|? ? Hn _]; subst.
  apply Hn. right. left. reflexivity.
Qed.

(* ===================================================================== *)
(** ** Ordering keys *)
(* ===================================================================== *)

Lemma Forall_sortDesc {A : Type} (key : A -> Q) (P : A -> Prop) (l : list A) :
  Forall P l -> Forall P (Js.sortDesc key l).
Proof.
  intros H. eapply Permutation_Forall; [apply Permutation_sym, sortDesc_perm | exact H].
Qed.

Lemma Forall_map_intro {A B : Type} (f : A -> B) (P : B -> Prop) (l : list A) :
  (forall a, In a l -> P (f a)) -> Forall P (map f l).
Proof.
  intros H. apply Forall_forall. intros b Hb.
  apply in_map_iff in Hb. destruct Hb as (a & <- & Ha). now apply H.
Qed.

Lemma context_bonus_cases (f : Finding) (ctx : EnhancedAnalyzer.BusinessContext) :
  let b := EnhancedAnalyzer.getBusinessContextBonus f ctx in
  (b = 0 \/ b = 3 \/ b = 5) /\
  (b = 5 <->
   EnhancedAnalyzer.type ctx = "ecommerce" /\
   orb (Js.includes (category f) "business") (Js.includes (id f) "personalization") = true) /\
  (b = 3 <->
   EnhancedAnalyzer.type ctx = "saas" /\
   orb (Js.includes (category f) "ai") (Js.includes (id f) "analytics") = true).
Proof.
  unfold EnhancedAnalyzer.getBusinessContextBonus.
  destruct (String.eqb_spec (EnhancedAnalyzer.type ctx) "ecommerce") as [He|He];
  destruct (String.eqb_spec (EnhancedAnalyzer.type ctx) "saas") as [Hs|Hs];
    try (rewrite He in Hs; discriminate);
    destruct (orb (Js.includes (category f) "business")
                  (Js.includes (id f) "personalization"));
    destruct (orb (Js.includes (category f) "ai") (Js.includes (id f) "analytics"));
    simpl; repeat split; intros; try tauto; try lia; try discriminate;
    try (destruct H; congruence); try (destruct H; discriminate).
Qed.

Lemma Full_rank_view (l : list Finding) (ctx : EnhancedAnalyzer.BusinessContext) :
  map EnhancedAnalyzer.finding (EnhancedAnalyzer.rankWithMLScoring l ctx) =
  Js.sortDesc (fun f => EnhancedAnalyzer.round1 (EnhancedAnalyzer.rawScore f ctx)) l.
Proof.
  unfold EnhancedAnalyzer.rankWithMLScoring.
  rewrite (sortDesc_map
             (fun s =>
                let sc := EnhancedAnalyzer.rawScore s ctx in
                {| EnhancedAnalyzer.finding := s;
                   EnhancedAnalyzer.score := EnhancedAnalyzer.round1 sc;
                   EnhancedAnalyzer.priority :=
                     if negb (Qle_bool sc 15) then "high"
                     else if negb (Qle_bool sc 10) then "medium" else "low" |})
             EnhancedAnalyzer.score).
  rewrite map_map. simpl. apply map_id.
Qed.

Lemma Forall_firstn {A : Type} (P : A -> Prop) (n : nat) (l : list A) :
  Forall P l -> Forall P (firstn n l).
Proof.
  intros H. apply Forall_forall. intros x Hx.
  rewrite Forall_forall in H. apply H.
  rewrite <- (firstn_skipn n l). apply in_or_app. now left.
Qed.

(** C1, as amended.  Each ranker orders by its own key: the list it
    returns is the stable non-increasing arrangement of its input by that
    key (for the baseline ranker, the first ten entries of it), and the
    score attached to an entry is the key.  The full enhanced ranker uses
    [impact*2 - effort*0.5 + confidence*10 + bonus] rounded to one
    decimal, where the bonus is 5 for an e-commerce context when the
    category contains 'business' or the id contains 'personalization', 3
    for a SaaS context when the category contains 'ai' or the id contains
    'analytics', and 0 otherwise.  The enhanced ranker of the chain uses
    [(impact*2 - effort) * confidence]; the baseline ranker uses
    [(impact*2 - effort) / estimatedHours * 10], for hours other than
    zero.  Every operation is rounded to the nearest double, as in the
    source. *)
Theorem ordering_key_of_each_ranker :
  (forall l ctx,
     let key := fun f : Finding =>
       EnhancedAnalyzer.round1
         (Js.add
            (Js.add (Js.sub (inject_Z (impact f * 2)) (Js.mul (inject_Z (effort f)) (1 # 2)))
                    (Js.mul (Js.double (confidence f)) 10))
            (inject_Z (EnhancedAnalyzer.getBusinessContextBonus f ctx))) in
     let r := EnhancedAnalyzer.rankWithMLScoring l ctx in
     Js.stablySorted key l (map EnhancedAnalyzer.finding r) /\
     Forall (fun x => EnhancedAnalyzer.score x = key (EnhancedAnalyzer.finding x)) r) /\
  (forall f ctx,
     let b := EnhancedAnalyzer.getBusinessContextBonus f ctx in
     (b = 0 \/ b = 3 \/ b = 5) /\
     (b = 5 <->
      EnhancedAnalyzer.type ctx = "ecommerce" /\
      orb (Js.includes (category f) "business") (Js.includes (id f) "personalization") = true) /\
     (b = 3 <->
      EnhancedAnalyzer.type ctx = "saas" /\
      orb (Js.includes (category f) "ai") (Js.includes (id f) "analytics") = true)) /\
  (forall l,
     let key := fun f : Finding =>
       Js.mul (inject_Z (impact f * 2 - effort f)) (Js.double (confidence f)) in
     let r := EnhancedAnalyzerSimple.rankSuggestions l in
     Js.stablySorted key l (map EnhancedAnalyzerSimple.finding r) /\
     Forall (fun x => EnhancedAnalyzerSimple.score x = key (EnhancedAnalyzerSimple.finding x)) r) /\
  (forall l,
     Forall (fun s => CodeAnalyzer.estimatedHours s <> 0) l ->
     let key := fun s : CodeAnalyzer.Suggestion =>
       Js.mul (Js.div (inject_Z (CodeAnalyzer.impact s * 2 - CodeAnalyzer.effort s))
                      (inject_Z (CodeAnalyzer.estimatedHours s))) 10 in
     let r := CodeAnalyzer.rankSuggestions l in
     Spec.ranked key l (map CodeAnalyzer.suggestion r) /\
     Forall (fun x => CodeAnalyzer.score x = key (CodeAnalyzer.suggestion x)) r).
Proof.
  split; [|split; [|split]].
  - intros l ctx key r. subst r. split.
    + rewrite Full_rank_view. apply (sortDesc_stablySorted key).
    + unfold EnhancedAnalyzer.rankWithMLScoring.
      apply Forall_sortDesc, Forall_map_intro. intros f _. reflexivity.
  - intros f ctx. apply context_bonus_cases.
  - intros l key r. subst r. split.
    + rewrite Simple_rank_view. apply (sortDesc_stablySorted key).
    + unfold EnhancedAnalyzerSimple.rankSuggestions.
      apply Forall_sortDesc, Forall_map_intro. intros f _. reflexivity.
  - intros l _ key r. subst r. split.
    + rewrite CodeAnalyzer_rank_view. apply (ranked_sort_slice key).
    + unfold CodeAnalyzer.rankSuggestions, Js.slice0.
      apply Forall_firstn, Forall_sortDesc, Forall_map_intro. intros f _. reflexivity.
Qed.

(** The three rankers on lists with equal keys.  The full enhanced ranker
    puts eleven findings with the keys 19, 20, 22, 28, 15, 16, 23, 23, 13,
    11.5, 20 in the order d, g, h, c, b, k, a, f, e, i, j; the baseline
    ranker keeps ten of twelve suggestions. *)
Lemma ordering_key_witness :
  let ctx := {| EnhancedAnalyzer.type := "unknown"; EnhancedAnalyzer.industry := "general";
                EnhancedAnalyzer.scale := "small"; EnhancedAnalyzer.monetization := "unknown" |} in
  (Js.stablySorted
     (fun f : Finding =>
        EnhancedAnalyzer.round1
          (Js.add
             (Js.add (Js.sub (inject_Z (impact f * 2)) (Js.mul (inject_Z (effort f)) (1 # 2)))
                     (Js.mul (Js.double (confidence f)) 10))
             (inject_Z (EnhancedAnalyzer.getBusinessContextBonus f ctx))))
     Sample.elevenFindings
     (map EnhancedAnalyzer.finding
        (EnhancedAnalyzer.rankWithMLScoring Sample.elevenFindings ctx)) /\
   map (fun x => (id (EnhancedAnalyzer.finding x), Qred (EnhancedAnalyzer.score x)))
       (EnhancedAnalyzer.rankWithMLScoring Sample.elevenFindings ctx)
   = [("d", 28); ("g", 23); ("h", 23); ("c", 22); ("b", 20); ("k", 20); ("a", 19);
      ("f", 16); ("e", 15); ("i", 13); ("j", 23 # 2)]%Q) /\
  (Forall (fun s => CodeAnalyzer.estimatedHours s <> 0) Sample.backlog /\
   Spec.ranked
     (fun s : CodeAnalyzer.Suggestion =>
        Js.mul (Js.div (inject_Z (CodeAnalyzer.impact s * 2 - CodeAnalyzer.effort s))
                       (inject_Z (CodeAnalyzer.estimatedHours s))) 10)
     Sample.backlog
     (map CodeAnalyzer.suggestion (CodeAnalyzer.rankSuggestions Sample.backlog)) /\
   map (fun x => (CodeAnalyzer.title (CodeAnalyzer.suggestion x), Qred (CodeAnalyzer.score x)))
       (CodeAnalyzer.rankSuggestions Sample.backlog)
   = [("b", 60); ("g", 30); ("j", 25); ("a", 20); ("c", 20); ("d", 20); ("f", 20);
      ("e", 5); ("h", 5); ("i", 3)]%Q).
Proof.
  intros ctx. split.
  - split.
    + exact (proj1 (proj1 ordering_key_of_each_ranker Sample.elevenFindings ctx)).
    + vm_compute. reflexivity.
  - assert (H : Forall (fun s => CodeAnalyzer.estimatedHours s <> 0) Sample.backlog)
      by (repeat constructor; discriminate).
    split; [exact H|]. split.
    + exact (proj1 (proj2 (proj2 (proj2 ordering_key_of_each_ranker)) Sample.backlog H)).
    + vm_compute. reflexivity.
Defined.

(** The keys are the doubles of the source.  On paper 17 * 0.9 and
    18 * 0.85 are both 15.3; the source computes 15.3 for the first and
    15.299999999999999 for the second, so the finding with impact 9,
    effort 1 and confidence 0.9 is ranked before the one with impact 9,
    effort 0 and confidence 0.85, whichever comes first in the input. *)
Example ranker_keys_are_the_doubles_of_the_source :
  let x := Sample.finding "x" 9 0 (85 # 100) in
  let y := Sample.finding "y" 9 1 (9 # 10) in
  (EnhancedAnalyzerSimple.scoreOf x < EnhancedAnalyzerSimple.scoreOf y)%Q /\
  map EnhancedAnalyzerSimple.finding (EnhancedAnalyzerSimple.rankSuggestions [x; y]) = [y; x] /\
  map EnhancedAnalyzerSimple.finding (EnhancedAnalyzerSimple.rankSuggestions [y; x]) = [y; x].
Proof. intros x y. repeat split; vm_compute; reflexivity. Qed.

(** The chatbot finding of the full enhanced analyzer is ranked with the
    key 25.5, which is the specification's score plus 2; and no finding
    that the chain's enhanced analyzer returns for the sample shop is
    ranked with the specification's score, whatever the bonus: its keys
    are the doubles 14.25, 13.299999999999999, 11.700000000000001 and
    9.35. *)
Lemma ordering_key_is_not_the_spec_score :
  let ctx := {| EnhancedAnalyzer.type := "unknown"; EnhancedAnalyzer.industry := "general";
                EnhancedAnalyzer.scale := "small"; EnhancedAnalyzer.monetization := "unknown" |} in
  (exists r,
     EnhancedAnalyzer.rankWithMLScoring [EnhancedAnalyzer.chatbotAdvanced] ctx = [r] /\
     EnhancedAnalyzer.finding r = EnhancedAnalyzer.chatbotAdvanced /\
     (EnhancedAnalyzer.score r == 51 # 2)%Q /\
     (forall b, Spec.bonusAllowed b ->
                ~ (EnhancedAnalyzer.score r == Spec.score (EnhancedAnalyzer.finding r) b)%Q)) /\
  (exists o,
     EnhancedAnalyzerSimple.analyzeProjectAdvanced Sample.db Sample.read Sample.files Sample.pkg
     = Js.Ok o /\
     map (fun r => Qred (EnhancedAnalyzerSimple.score r)) (EnhancedAnalyzerSimple.suggestions o)
     = [57 # 4; 7487234380503449 # 562949953421312;
        6586514455029351 # 562949953421312; 5263582064489267 # 562949953421312]%Q /\
     Forall (fun r =>
               forall b, Spec.bonusAllowed b ->
                 ~ (EnhancedAnalyzerSimple.score r
                    == Spec.score (EnhancedAnalyzerSimple.finding r) b)%Q)
            (EnhancedAnalyzerSimple.suggestions o)).
Proof.
  intros ctx. split.
  - eexists. split; [reflexivity|]. split; [reflexivity|]. split.
    + vm_compute. reflexivity.
    + intros b Hb Heq.
      assert (Hs : (EnhancedAnalyzer.round1
                      (EnhancedAnalyzer.rawScore EnhancedAnalyzer.chatbotAdvanced ctx)
                    == 51 # 2)%Q)
        by (vm_compute; reflexivity).
      simpl in Heq. rewrite Hs in Heq.
      unfold Spec.score in Heq. simpl in Heq.
      unfold Spec.bonusAllowed in Hb.
      clear Hs. unfold inject_Z in Heq.
      destruct Hb as [Hb|[Hb1 Hb2]]; [rewrite Hb in Heq|]; lra.
  - eexists. split; [vm_compute; reflexivity|].
    split; [vm_compute; reflexivity|].
    cbn [EnhancedAnalyzerSimple.suggestions].
    repeat constructor; intros b Hb Heq;
      unfold Spec.score, Spec.bonusAllowed in *;
      cbn [EnhancedAnalyzerSimple.score EnhancedAnalyzerSimple.finding
           impact effort confidence] in Heq;
      unfold inject_Z in Heq;
      (destruct Hb as [Hb|[Hb1 Hb2]]; [rewrite Hb in Heq|]; lra).
Qed.

(* ===================================================================== *)
(** ** The analyzer chain *)
(* ===================================================================== *)

Section ChainFacts.
Context {A : Type}.
Import Server.

(** The nested handlers are the first-success loop over the five
    strategies; of the collected errors only the last one leaves the
    chain. *)
Lemma uploadChain_first_success (s : Strategies A) analysisId projectPath scanResult w :
  fst (uploadChain s analysisId projectPath scanResult w) =
  match firstSuccess (inOrder s) projectPath scanResult [] with
  | Js.Ok a => Js.Ok a
  | Js.Throw errors => Js.Throw (List.last errors EmptyString)
  end.
Proof.
  unfold uploadChain, inOrder. simpl.
  destruct (analyzeCodeForReplacements s projectPath scanResult); [reflexivity|].
  destruct (performDeepAnalysis s projectPath scanResult); [reflexivity|].
  destruct (analyzeCodeIntelligently s projectPath scanResult); [reflexivity|].
  destruct (analyzeProjectAdvanced s projectPath scanResult); [reflexivity|].
  destruct (analyzeProject s projectPath scanResult); reflexivity.
Qed.

Lemma githubChain_first_success (s : Strategies A) projectPath scanResult w :
  fst (githubChain s projectPath scanResult w) =
  match firstSuccess (inOrder s) projectPath scanResult [] with
  | Js.Ok a => Js.Ok a
  | Js.Throw errors => Js.Throw (List.last errors EmptyString)
  end.
Proof.
  unfold githubChain, inOrder. simpl.
  destruct (analyzeCodeForReplacements s projectPath scanResult); [reflexivity|].
  destruct (performDeepAnalysis s projectPath scanResult); [reflexivity|].
  destruct (analyzeCodeIntelligently s projectPath scanResult); [reflexivity|].
  destruct (analyzeProjectAdvanced s projectPath scanResult); [reflexivity|].
  destruct (analyzeProject s projectPath scanResult); reflexivity.
Qed.

End ChainFacts.

(** C2.  When the first strategy throws and the second succeeds, the
    chain of either endpoint returns exactly the second strategy's
    result, and that result is the analysis of the response. *)
Theorem chain_returns_second_strategy_result
    {A : Type} (s : Server.Strategies A) (analysisId timestamp projectPath : string)
    (scanResult : Server.ScanResult) (w : Server.World) (e1 : Fs.Error) (a2 : A) :
  Server.analyzeCodeForReplacements s projectPath scanResult = Js.Throw e1 ->
  Server.performDeepAnalysis s projectPath scanResult = Js.Ok a2 ->
  fst (Server.uploadChain s analysisId projectPath scanResult w) = Js.Ok a2 /\
  fst (Server.githubChain s projectPath scanResult w) = Js.Ok a2 /\
  (forall scanProject,
     scanProject projectPath = Js.Ok scanResult ->
     fst (Server.upload s analysisId timestamp (Js.Ok projectPath) scanProject w)
     = Server.Success "upload" (Some analysisId) None a2 timestamp) /\
  (forall repoUrl fetched scanProject repoInfo,
     fetched repoUrl = Js.Ok (projectPath, repoInfo) ->
     scanProject projectPath = Js.Ok scanResult ->
     fst (Server.analyzeGithub s timestamp (Some repoUrl) fetched scanProject w)
     = Server.Success "github" None (Some repoInfo) a2 timestamp).
Proof.
  intros H1 H2. repeat split.
  - unfold Server.uploadChain. rewrite H1, H2. reflexivity.
  - unfold Server.githubChain. rewrite H1, H2. reflexivity.
  - intros scanProject Hs. unfold Server.upload. rewrite Hs.
    unfold Server.uploadChain. rewrite H1, H2. reflexivity.
  - intros repoUrl fetched scanProject repoInfo Hf Hs.
    unfold Server.analyzeGithub. rewrite Hf, Hs.
    unfold Server.githubChain. rewrite H1, H2. reflexivity.
Qed.

Lemma chain_returns_second_witness :
  fst (Server.uploadChain Sample.secondSucceeds "1700000000000" "/proj"
         Sample.scanResult Server.emptyWorld) = Js.Ok 2%nat /\
  fst (Server.githubChain Sample.secondSucceeds "/proj" Sample.scanResult Server.emptyWorld)
  = Js.Ok 2%nat /\
  (forall scanProject,
     scanProject "/proj" = Js.Ok Sample.scanResult ->
     fst (Server.upload Sample.secondSucceeds "1700000000000" "2024-01-01T00:00:00.000Z"
            (Js.Ok "/proj") scanProject Server.emptyWorld)
     = Server.Success "upload" (Some "1700000000000") None 2%nat "2024-01-01T00:00:00.000Z") /\
  (forall repoUrl fetched scanProject repoInfo,
     fetched repoUrl = Js.Ok ("/proj", repoInfo) ->
     scanProject "/proj" = Js.Ok Sample.scanResult ->
     fst (Server.analyzeGithub Sample.secondSucceeds "2024-01-01T00:00:00.000Z"
            (Some repoUrl) fetched scanProject Server.emptyWorld)
     = Server.Success "github" None (Some repoInfo) 2%nat "2024-01-01T00:00:00.000Z").
Proof.
  apply (chain_returns_second_strategy_result Sample.secondSucceeds
           "1700000000000" "2024-01-01T00:00:00.000Z" "/proj" Sample.scanResult
           Server.emptyWorld "replacement failed" 2%nat); reflexivity.
Defined.




(* ===================================================================== *)
(** ** Unreadable files *)
(* ===================================================================== *)

(** The guarded scans treat an unreadable file as if it were absent. *)
Lemma Intelligent_skips_unreadable read fs s :
  IntelligentCodeAnalyzer.readFiles read fs s =
  IntelligentCodeAnalyzer.readFiles read (filter (Fs.readable read) fs) s.
Proof.
  revert s; induction fs as [|f r IH]; intros s; [reflexivity|].
  simpl. unfold Fs.readable at 1.
  destruct (read (Fs.path f)) as [c|e] eqn:E; simpl.
  - rewrite E. destruct (IntelligentCodeAnalyzer.isCodeFile (Fs.ext f)); apply IH.
  - destruct (IntelligentCodeAnalyzer.isCodeFile (Fs.ext f)); apply IH.
Qed.

Lemma Replacement_skips_unreadable cfg read fs m :
  CodeReplacementAnalyzer.scanFiles cfg read fs m =
  CodeReplacementAnalyzer.scanFiles cfg read (filter (Fs.readable read) fs) m.
Proof.
  revert m; induction fs as [|f r IH]; intros m; [reflexivity|].
  simpl. unfold Fs.readable at 1.
  destruct (read (Fs.path f)) as [c|e] eqn:E; simpl.
  - rewrite E. destruct (CodeReplacementAnalyzer.isCodeFile (Fs.ext f)); apply IH.
  - destruct (CodeReplacementAnalyzer.isCodeFile (Fs.ext f)); apply IH.
Qed.

Lemma Deep_skips_unreadable read fs cb :
  DeepCodeAnalyzer.readFiles read fs cb =
  DeepCodeAnalyzer.readFiles read (filter (Fs.readable read) fs) cb.
Proof.
  revert cb; induction fs as [|f r IH]; intros cb; [reflexivity|].
  simpl. unfold Fs.readable at 1.
  destruct (read (Fs.path f)) as [c|e] eqn:E; simpl.
  - rewrite E. destruct (DeepCodeAnalyzer.isAnalyzableFile (Fs.ext f)); apply IH.
  - destruct (DeepCodeAnalyzer.isAnalyzableFile (Fs.ext f)); apply IH.
Qed.

Lemma Simple_skips_unreadable read fs acc :
  EnhancedAnalyzerSimple.scanFiles read fs acc =
  EnhancedAnalyzerSimple.scanFiles read (filter (Fs.readable read) fs) acc.
Proof.
  revert acc; induction fs as [|f r IH]; intros acc; [reflexivity|].
  simpl. unfold Fs.readable at 1.
  destruct (read (Fs.path f)) as [c|e] eqn:E; simpl.
  - rewrite E. destruct (EnhancedAnalyzerSimple.isScanned (Fs.ext f)); apply IH.
  - destruct (EnhancedAnalyzerSimple.isScanned (Fs.ext f)); apply IH.
Qed.

(** The unguarded scans end with the error of the first unreadable file
    they reach. *)
Lemma Advanced_aborts_on_unreadable read fs cb f e :
  In f fs -> AdvancedCodeAnalyzer.isCodeFile (Fs.ext f) = true ->
  read (Fs.path f) = Js.Throw e ->
  exists e', AdvancedCodeAnalyzer.readFiles read fs cb = Js.Throw e'.
Proof.
  revert cb; induction fs as [|g r IH]; intros cb Hin Hext Hread; [destruct Hin|].
  simpl. destruct Hin as [->|Hin].
  - rewrite Hext, Hread. simpl. eexists; reflexivity.
  - destruct (AdvancedCodeAnalyzer.isCodeFile (Fs.ext g)); [|now apply IH].
    destruct (read (Fs.path g)); simpl; [now apply IH | eexists; reflexivity].
Qed.

Lemma Baseline_aborts_on_unreadable read fs p f e :
  In f fs -> CodeAnalyzer.isScript (Fs.ext f) = true ->
  read (Fs.path f) = Js.Throw e ->
  exists e', CodeAnalyzer.detectPatterns_from read fs p = Js.Throw e'.
Proof.
  revert p; induction fs as [|g r IH]; intros p Hin Hext Hread; [destruct Hin|].
  simpl. destruct Hin as [->|Hin].
  - rewrite Hext, Hread. simpl. eexists; reflexivity.
  - destruct (CodeAnalyzer.isScript (Fs.ext g)); [|now apply IH].
    destruct (read (Fs.path g)); simpl; [now apply IH | eexists; reflexivity].
Qed.

(** C4, at the sample project, whose file [/locked.js] cannot be read:
    the scans of AdvancedCodeAnalyzer, of the full EnhancedAnalyzer and of
    the baseline CodeAnalyzer end with the read error, while the scans of
    the intelligent, replacement, deep and enhanced (chain) analyzers give
    what they give for the project without that file. *)
Theorem read_error_aborts_unguarded_scans :
  let without :=
    [ {| Fs.path := "/server.js"; Fs.ext := ".js" |};
      {| Fs.path := "/shop.js"; Fs.ext := ".js" |};
      {| Fs.path := "/README.md"; Fs.ext := ".md" |} ] in
  let eacces := "EACCES: permission denied, open '/locked.js'" in
  AdvancedCodeAnalyzer.buildCodebaseMap Sample.read Sample.files = Js.Throw eacces /\
  EnhancedAnalyzer.detectAdvancedPatterns Sample.read Sample.files = Js.Throw eacces /\
  CodeAnalyzer.analyzeProject Sample.read Sample.files Sample.pkg = Js.Throw eacces /\
  IntelligentCodeAnalyzer.performDeepCodeAnalysis Sample.read Sample.files
  = IntelligentCodeAnalyzer.performDeepCodeAnalysis Sample.read without /\
  CodeReplacementAnalyzer.scanCodebase Sample.db Sample.read Sample.files
  = {| CodeReplacementAnalyzer.files := Sample.files;
       CodeReplacementAnalyzer.cb_patterns :=
         CodeReplacementAnalyzer.cb_patterns
           (CodeReplacementAnalyzer.scanCodebase Sample.db Sample.read without) |} /\
  DeepCodeAnalyzer.readEntireCodebase Sample.read Sample.files
  = DeepCodeAnalyzer.readEntireCodebase Sample.read without /\
  EnhancedAnalyzerSimple.detectAdvancedPatterns Sample.read Sample.files
  = EnhancedAnalyzerSimple.detectAdvancedPatterns Sample.read without.
Proof.
  intros without eacces. repeat split; vm_compute; reflexivity.
Qed.

(* ===================================================================== *)
(** ** Ranges of impact, effort, confidence and provider lists *)
(* ===================================================================== *)

(** For the categories of the pattern table. *)
Lemma Replacement_ranges db c n :
  In c (map fst (CodeReplacementAnalyzer.buildCodePatterns db)) ->
  3 <= CodeReplacementAnalyzer.calculateCategoryImpact c n <= 10 /\
  2 <= CodeReplacementAnalyzer.estimateReplacementEffort c n <= 10.
Proof.
  intros _.
  unfold CodeReplacementAnalyzer.calculateCategoryImpact,
         CodeReplacementAnalyzer.estimateReplacementEffort,
         CodeReplacementAnalyzer.baseImpact, CodeReplacementAnalyzer.baseEffort,
         Js.floor_div.
  assert (H2 : 0 <= Z.of_nat n / 2) by (apply Z.div_pos; lia).
  assert (H3 : 0 <= Z.of_nat n / 3) by (apply Z.div_pos; lia).
  repeat match goal with |- context [String.eqb ?a ?b] => destruct (String.eqb a b) end; lia.
Qed.

Lemma Replacement_providers_bound recs m :
  (List.length (CodeReplacementAnalyzer.bestRecommendations recs m) <= 3)%nat.
Proof.
  unfold CodeReplacementAnalyzer.bestRecommendations, Js.slice0.
  rewrite length_map, length_firstn. apply Nat.le_min_l.
Qed.

Lemma Deep_ranges db cb :
  let r := DeepCodeAnalyzer.createSecurityRecommendation db cb in
  6 <= DeepCodeAnalyzer.impact r <= 10 /\
  3 <= DeepCodeAnalyzer.effort r /\
  DeepCodeAnalyzer.effort r =
    Z.max 3 (Z.of_nat (List.length (DeepCodeAnalyzer.analyzeSecurityInCode cb))) /\
  (List.length (DeepCodeAnalyzer.providers r) <= 3)%nat.
Proof.
  cbv zeta. unfold DeepCodeAnalyzer.createSecurityRecommendation.
  cbn [DeepCodeAnalyzer.impact DeepCodeAnalyzer.effort DeepCodeAnalyzer.providers].
  unfold DeepCodeAnalyzer.identifySpecificSecurityIssues.
  rewrite length_map.
  split; [lia|]. split; [lia|]. split; [reflexivity|].
  unfold DeepCodeAnalyzer.getSecurityProviders, Js.slice0.
  rewrite length_app, length_map, length_firstn.
  cbn [List.length]. lia.
Qed.

Lemma Forall_when {A : Type} (P : A -> Prop) (b : bool) (x : A) :
  P x -> Forall P (if b then [x] else []).
Proof. intros H. destruct b; repeat constructor. exact H. Qed.

Lemma slice_map_length {A B : Type} (f : A -> B) (n : nat) (l : list A) :
  (List.length (map f (Js.slice0 n l)) <= n)%nat.
Proof. unfold Js.slice0. rewrite length_map, length_firstn. apply Nat.le_min_l. Qed.

Lemma Simple_ranges db p c :
  Forall (fun f =>
            0 <= impact f <= 10 /\ 0 <= effort f <= 10 /\
            (0 <= confidence f <= 1)%Q /\
            (id f <> "advanced-search" -> (List.length (providers f) <= 3)%nat))
         (EnhancedAnalyzerSimple.generateEnhancedSuggestions db p c).
Proof.
  unfold EnhancedAnalyzerSimple.generateEnhancedSuggestions.
  repeat (apply Forall_app; split);
    apply Forall_when; cbn [impact effort confidence id providers];
    (split; [lia|]); (split; [lia|]);
    (split; [split; unfold Qle; simpl; lia|]).
  - intros _. apply slice_map_length.
  - intros _. simpl. lia.
  - intros _. pose proof (slice_map_length providerRef 2 (authentication db)). lia.
  - intros _. cbn [List.length].
    pose proof (slice_map_length providerRef 2
                  (filter (fun p => String.eqb (provider_category p) "enterprise_ai")
                     (ai_ml db))). lia.
  - intros _. simpl. lia.
  - intros H. exfalso. apply H. reflexivity.
  - intros _. apply slice_map_length.
Qed.

(** C5, at two sample projects.  The deep analyzer, given a handler file
    that uses [req.body] on eleven lines, returns its security finding
    with effort 11; the enhanced analyzer of the chain, given the sample
    shop and a catalog with four search providers, attaches all four to
    its search finding. *)
Theorem effort_and_providers_exceed_their_bounds :
  (exists r,
     DeepCodeAnalyzer.suggestions Sample.db Sample.readHandlers Sample.handlerFiles = [r] /\
     DeepCodeAnalyzer.impact r = 10 /\
     DeepCodeAnalyzer.effort r = 11) /\
  (exists o r,
     EnhancedAnalyzerSimple.analyzeProjectAdvanced Sample.db Sample.read Sample.files Sample.pkg
     = Js.Ok o /\
     In r (EnhancedAnalyzerSimple.suggestions o) /\
     id (EnhancedAnalyzerSimple.finding r) = "advanced-search" /\
     List.length (providers (EnhancedAnalyzerSimple.finding r)) = 4%nat).
Proof.
  split.
  - eexists. split; [vm_compute; reflexivity|]. split; reflexivity.
  - eexists. eexists. split; [vm_compute; reflexivity|].
    split; [do 3 right; left; reflexivity|]. split; reflexivity.
Qed.

(* ===================================================================== *)
(** ** A project without files *)
(* ===================================================================== *)

(** C8, as amended.  On a snapshot without files (and hence without a
    package.json) the strategies return as follows, whatever the catalog:
    the intelligent analyzer its initial context type 'unknown' and no
    suggestion; the enhanced analyzer its initial context type
    'internal_tool' and no suggestion; the replacement analyzer no
    suggestion; the baseline analyzer its five unconditional suggestions;
    the deep analyzer its security finding with impact 6 and effort 3. *)
Theorem result_on_zero_files (db : ApiDatabase) (read : Fs.Reader) :
  (exists o,
     IntelligentCodeAnalyzer.analyzeCodeIntelligently db read [] = Js.Ok o /\
     IntelligentCodeAnalyzer.type (IntelligentCodeAnalyzer.projectContext o) = "unknown" /\
     IntelligentCodeAnalyzer.suggestions o = []) /\
  (exists o,
     EnhancedAnalyzerSimple.analyzeProjectAdvanced db read [] NoPkg = Js.Ok o /\
     EnhancedAnalyzerSimple.type (EnhancedAnalyzerSimple.businessContext o) = "internal_tool" /\
     EnhancedAnalyzerSimple.suggestions o = []) /\
  (exists o,
     CodeReplacementAnalyzer.analyzeCodeForReplacements db read [] = Js.Ok o /\
     CodeReplacementAnalyzer.suggestions o = []) /\
  (exists o,
     CodeAnalyzer.analyzeProject read [] NoPkg = Js.Ok o /\
     map (fun r => CodeAnalyzer.title (CodeAnalyzer.suggestion r)) (CodeAnalyzer.suggestions o)
     = [ "Lägg till AI-chatbot för kundsupport";
         "Implementera avancerad monitorering";
         "Automatisk innehållsgenerering";
         "Förbättra sökfunktionalitet";
         "Personaliserade produktrekommendationer" ]) /\
  (exists r,
     DeepCodeAnalyzer.suggestions db read [] = [r] /\
     DeepCodeAnalyzer.id r = "security_upgrade" /\
     DeepCodeAnalyzer.impact r = 6 /\
     DeepCodeAnalyzer.effort r = 3).
Proof.
  repeat split.
  - eexists. split; [reflexivity|]. split; reflexivity.
  - eexists. split; [reflexivity|]. split; reflexivity.
  - eexists. split; reflexivity.
  - eexists. split; [reflexivity|]. vm_compute. reflexivity.
  - eexists. split; [reflexivity|]. repeat split.
Qed.

(** On the empty sample project no strategy reports the context type
    'unspecified application': the intelligent analyzer reports
    'unknown', the enhanced analyzer 'internal_tool', and the baseline
    analyzer returns five suggestions. *)
Lemma zero_files_context_is_not_unspecified :
  (exists o,
     IntelligentCodeAnalyzer.analyzeCodeIntelligently Sample.db Sample.readNothing
       Sample.noFiles = Js.Ok o /\
     IntelligentCodeAnalyzer.type (IntelligentCodeAnalyzer.projectContext o) = "unknown" /\
     IntelligentCodeAnalyzer.type (IntelligentCodeAnalyzer.projectContext o)
     <> "unspecified application") /\
  (exists o,
     EnhancedAnalyzerSimple.analyzeProjectAdvanced Sample.db Sample.readNothing
       Sample.noFiles NoPkg = Js.Ok o /\
     EnhancedAnalyzerSimple.type (EnhancedAnalyzerSimple.businessContext o) = "internal_tool" /\
     EnhancedAnalyzerSimple.type (EnhancedAnalyzerSimple.businessContext o)
     <> "unspecified application") /\
  (exists o,
     CodeAnalyzer.analyzeProject Sample.readNothing Sample.noFiles NoPkg = Js.Ok o /\
     List.length (CodeAnalyzer.suggestions o) = 5%nat).
Proof.
  repeat split; eexists; (split; [reflexivity|]);
    try (split; [reflexivity | discriminate]); vm_compute; reflexivity.
Qed.

(* ===================================================================== *)
(** ** The directory walk *)
(* ===================================================================== *)

Lemma append_nil_r (s : string) : (s ++ "")%string = s.
Proof. induction s as [|c s IH]; simpl; [reflexivity | now rewrite IH]. Qed.

Lemma append_assoc (a b c : string) : ((a ++ b) ++ c)%string = (a ++ (b ++ c))%string.
Proof. induction a as [|x a IH]; simpl; [reflexivity | now rewrite IH]. Qed.

Lemma dirPath_snoc (ds : list string) (item : string) :
  Walk.dirPath (ds ++ [item]) = (Walk.dirPath ds ++ "/" ++ item)%string.
Proof.
  induction ds as [|d r IH]; simpl.
  - now rewrite append_nil_r.
  - rewrite IH. now rewrite append_assoc.
Qed.

Lemma scan_recorded (env : Walk.Env) (dir : string) (fuel : nat) :
  forall ds acc,
    Forall (fun d => Walk.descends d = true) ds ->
    Forall (Walk.recorded env dir) acc ->
    Forall (Walk.recorded env dir) (Walk.scan fuel env dir (Walk.dirPath ds) acc).
Proof.
  induction fuel as [|fuel IH]; intros ds acc Hds Hacc; simpl; [exact Hacc|].
  destruct (Walk.readdirSync env (dir ++ Walk.dirPath ds)) as [items|e]; [|exact Hacc].
  revert acc Hacc. induction items as [|item rest IHi]; intros acc Hacc; [exact Hacc|].
  assert (Hp : (Walk.dirPath ds ++ String "/" item)%string = Walk.relPathOf ds item)
    by reflexivity.
  match goal with
  | |- context [Walk.statSync env ?p] =>
      destruct (Walk.statSync env p) as [st|e] eqn:Est; [|exact Hacc]
  end.
  destruct st.
  - apply IHi. apply Forall_app. split; [exact Hacc|].
    constructor; [|constructor].
    exists ds, item. cbn [Fs.path Fs.ext]. repeat split; try assumption.
  - destruct (Walk.descends item) eqn:Ed.
    + apply IHi.
      change (Walk.dirPath ds ++ String "/" item)%string
        with (Walk.dirPath ds ++ "/" ++ item)%string.
      rewrite <- dirPath_snoc. apply IH; [|exact Hacc].
      apply Forall_app. split; [exact Hds|]. constructor; [exact Ed|constructor].
    + apply IHi, Hacc.
  - apply IHi, Hacc.
Qed.

(** C9, as amended.  Every record of the walk names a file below the
    scanned directory by a path whose directory names neither start with
    a dot nor are 'node_modules', and [statSync] reports a file at that
    path; whether the path leads through a symbolic link is not looked
    at. *)
Theorem walk_records_files_below_visible_directories
    (env : Walk.Env) (dir : string) (fuel : nat) (r : Fs.FileRecord) :
  In r (Walk.getAllFiles fuel env dir) ->
  exists dirs file,
    Fs.path r = Walk.relPathOf dirs file /\
    Fs.ext r = Walk.extname file /\
    Forall (fun d => Js.startsWith d "." = false /\ d <> "node_modules") dirs /\
    Walk.statSync env (dir ++ Fs.path r)%string = Js.Ok Walk.IsFile.
Proof.
  intros Hin.
  pose proof (scan_recorded env dir fuel [] [] (Forall_nil _) (Forall_nil _)) as H.
  rewrite Forall_forall in H. destruct (H r Hin) as (dirs & file & Hp & He & Hd & Hs).
  exists dirs, file. repeat split; try assumption.
  eapply Forall_impl; [|exact Hd].
  intros d Hdesc. unfold Walk.descends in Hdesc.
  apply andb_true_iff in Hdesc. destruct Hdesc as [H1 H2].
  apply negb_true_iff in H1, H2. split; [exact H1|].
  intros ->. discriminate.
Qed.

Lemma walk_records_witness :
  In {| Fs.path := "/src/a.js"; Fs.ext := ".js" |}
     (Walk.getAllFiles 3 Sample.linkedEnv "/proj") /\
  exists dirs file,
    "/src/a.js" = Walk.relPathOf dirs file /\
    ".js" = Walk.extname file /\
    Forall (fun d => Js.startsWith d "." = false /\ d <> "node_modules") dirs /\
    Walk.statSync Sample.linkedEnv "/proj/src/a.js" = Js.Ok Walk.IsFile.
Proof.
  split; [vm_compute; left; reflexivity|].
  apply (walk_records_files_below_visible_directories Sample.linkedEnv "/proj" 3
           {| Fs.path := "/src/a.js"; Fs.ext := ".js" |}).
  vm_compute. left. reflexivity.
Defined.

(** In the sample project the entry [vendor] is a link to [/opt/lib]; the
    walk records [/vendor/secret.js], which lies in [/opt/lib]. *)
Lemma walk_follows_link_out_of_root : ~ Spec.walkStaysInsideRoot.
Proof.
  intros H.
  specialize (H Sample.linkedEnv "/proj" 3%nat
                {| Fs.path := "/vendor/secret.js"; Fs.ext := ".js" |}).
  assert (Hin : In {| Fs.path := "/vendor/secret.js"; Fs.ext := ".js" |}
                   (Walk.getAllFiles 3 Sample.linkedEnv "/proj"))
    by (vm_compute; right; left; reflexivity).
  specialize (H Hin). vm_compute in H. discriminate.
Qed.

Example walk_of_linked_project :
  Walk.getAllFiles 3 Sample.linkedEnv "/proj" =
  [ {| Fs.path := "/src/a.js"; Fs.ext := ".js" |};
    {| Fs.path := "/vendor/secret.js"; Fs.ext := ".js" |} ] /\
  Walk.realpath Sample.linkedEnv "/proj/vendor/secret.js" = "/opt/lib/secret.js".
Proof. split; vm_compute; reflexivity. Qed.

(* ===================================================================== *)
(** * Further properties of the code                                     *)
(* ===================================================================== *)

(* ===================================================================== *)
(** ** The chain and its progress reports *)
(* ===================================================================== *)

(** X1.  Whatever the five strategies do, the chain of [POST /upload]
    and the chain of [POST /analyze-github] leave the same value: the
    result of the first strategy, in the fixed order replacement, deep,
    intelligent, enhanced, baseline, that does not throw, and when all
    five throw the error of the last one. *)
Theorem chains_return_first_success {A : Type} (s : Server.Strategies A)
    (analysisId projectPath : string) (scanResult : Server.ScanResult)
    (w w' : Server.World) :
  fst (Server.uploadChain s analysisId projectPath scanResult w) =
  fst (Server.githubChain s projectPath scanResult w') /\
  fst (Server.uploadChain s analysisId projectPath scanResult w) =
  match Server.firstSuccess (Server.inOrder s) projectPath scanResult [] with
  | Js.Ok a => Js.Ok a
  | Js.Throw errors => Js.Throw (List.last errors EmptyString)
  end.
Proof.
  rewrite uploadChain_first_success, githubChain_first_success. split; reflexivity.
Qed.

Lemma find_filter_other (a b : string) (l : list (string * (nat * string))) :
  a <> b ->
  find (fun e => String.eqb (fst e) a)
       (filter (fun e => negb (String.eqb (fst e) b)) l) =
  find (fun e => String.eqb (fst e) a) l.
Proof.
  intros Hab. induction l as [|[k v] l IH]; [reflexivity|].
  simpl. destruct (String.eqb k b) eqn:Ekb; simpl.
  - apply String.eqb_eq in Ekb. subst k.
    destruct (String.eqb b a) eqn:Eba.
    + apply String.eqb_eq in Eba. congruence.
    + exact IH.
  - destruct (String.eqb k a); [reflexivity|exact IH].
Qed.

Lemma get_setProgress_same (a : string) (n : nat) (st : string) (w : Server.World) :
  Progress.get a (Server.setProgress a n st w) = (n, st).
Proof. unfold Progress.get. simpl. now rewrite String.eqb_refl. Qed.

Lemma get_setProgress_other (a b : string) (n : nat) (st : string) (w : Server.World) :
  a <> b -> Progress.get a (Server.setProgress b n st w) = Progress.get a w.
Proof.
  intros Hab. unfold Progress.get. simpl.
  destruct (String.eqb b a) eqn:E.
  - apply String.eqb_eq in E. congruence.
  - now rewrite find_filter_other.
Qed.

Lemma get_log (a m : string) (w : Server.World) :
  Progress.get a (Server.log m w) = Progress.get a w.
Proof. reflexivity. Qed.

Lemma get_logError (a m d : string) (w : Server.World) :
  Progress.get a (Server.logError m d w) = Progress.get a w.
Proof. reflexivity. Qed.

Lemma uploadChain_progress_frame {A : Type} (s : Server.Strategies A)
    (analysisId projectPath other : string) (scanResult : Server.ScanResult)
    (w : Server.World) :
  other <> analysisId ->
  Progress.get other (snd (Server.uploadChain s analysisId projectPath scanResult w)) =
  Progress.get other w.
Proof.
  intros Hne. unfold Server.uploadChain.
  assert (Hstep : forall n st w0,
            Progress.get other (Server.setProgress analysisId n st w0) =
            Progress.get other w0)
    by (intros; now apply get_setProgress_other).
  destruct (Server.analyzeCodeForReplacements s projectPath scanResult);
    [cbn [snd]; now rewrite get_log, Hstep|].
  destruct (Server.performDeepAnalysis s projectPath scanResult);
    [cbn [snd]; now rewrite get_log, Hstep, get_logError, Hstep|].
  destruct (Server.analyzeCodeIntelligently s projectPath scanResult);
    [cbn [snd]; now rewrite get_log, Hstep, get_logError, Hstep, get_logError, Hstep|].
  destruct (Server.analyzeProjectAdvanced s projectPath scanResult);
    [cbn [snd];
     now rewrite get_log, Hstep, get_logError, Hstep, get_logError, Hstep,
                 get_logError, Hstep|].
  destruct (Server.analyzeProject s projectPath scanResult); cbn [snd].
  - now rewrite get_log, Hstep, get_logError, Hstep, get_logError, Hstep,
                get_logError, Hstep, get_logError, Hstep.
  - now rewrite Hstep, get_logError, Hstep, get_logError, Hstep,
                get_logError, Hstep, get_logError, Hstep.
Qed.

(** X2.  When [POST /upload] answers, the progress stored for its
    analysis id is 100 percent, with stage 'Klar!' exactly when the
    answer is the 200 response and 'Fel uppstod' otherwise, and the
    progress stored for every other id is what it was before.  (The
    timer that deletes the entry five minutes after a success is not
    part of the model.) *)
Theorem upload_leaves_final_progress {A : Type} (s : Server.Strategies A)
    (analysisId timestamp : string) (uploaded : Js.result Fs.Error string)
    (scanProject : string -> Js.result Fs.Error Server.ScanResult) (w : Server.World) :
  let r := Server.upload s analysisId timestamp uploaded scanProject w in
  Progress.get analysisId (snd r) =
    (100%nat, match fst r with
              | Server.Success _ _ _ _ _ => "Klar!"
              | _ => "Fel uppstod"
              end) /\
  forall other, other <> analysisId ->
    Progress.get other (snd r) = Progress.get other w.
Proof.
  cbv zeta. unfold Server.upload.
  destruct uploaded as [projectPath|err]; cbn [fst snd].
  2:{ split; [apply get_setProgress_same|].
      intros other Hne. now rewrite !get_setProgress_other. }
  destruct (scanProject projectPath) as [scanResult|err]; cbn [fst snd].
  2:{ split; [apply get_setProgress_same|].
      intros other Hne. now rewrite !get_setProgress_other. }
  destruct (Server.uploadChain s analysisId projectPath scanResult
              (Server.setProgress analysisId 30 "Skannar projekt..."
                 (Server.setProgress analysisId 10 "Extraherar filer..." w)))
    as [[a|err] w1] eqn:Ech; cbn [fst snd].
  - split; [apply get_setProgress_same|].
    intros other Hne. rewrite get_setProgress_other by exact Hne.
    pose proof (uploadChain_progress_frame s analysisId projectPath other scanResult
                  (Server.setProgress analysisId 30 "Skannar projekt..."
                     (Server.setProgress analysisId 10 "Extraherar filer..." w)) Hne) as Hf.
    rewrite Ech in Hf. cbn [snd] in Hf. rewrite Hf.
    now rewrite !get_setProgress_other.
  - split; [apply get_setProgress_same|].
    intros other Hne. rewrite get_setProgress_other by exact Hne.
    pose proof (uploadChain_progress_frame s analysisId projectPath other scanResult
                  (Server.setProgress analysisId 30 "Skannar projekt..."
                     (Server.setProgress analysisId 10 "Extraherar filer..." w)) Hne) as Hf.
    rewrite Ech in Hf. cbn [snd] in Hf. rewrite Hf.
    now rewrite !get_setProgress_other.
Qed.

Lemma upload_leaves_final_progress_witness :
  "1700000000001" <> "1700000000000" /\
  Progress.get "1700000000000"
    (snd (Server.upload Sample.secondSucceeds "1700000000000" "2024-01-01T00:00:00.000Z"
            (Js.Ok "/proj") (fun _ => Js.Ok Sample.scanResult)
            (Server.setProgress "1700000000001" 60 "Djupanalys..." Server.emptyWorld)))
  = (100%nat, "Klar!") /\
  Progress.get "1700000000001"
    (snd (Server.upload Sample.secondSucceeds "1700000000000" "2024-01-01T00:00:00.000Z"
            (Js.Ok "/proj") (fun _ => Js.Ok Sample.scanResult)
            (Server.setProgress "1700000000001" 60 "Djupanalys..." Server.emptyWorld)))
  = (60%nat, "Djupanalys...").
Proof.
  assert (Hne : "1700000000001" <> "1700000000000") by (vm_compute; discriminate).
  split; [exact Hne|].
  destruct (upload_leaves_final_progress Sample.secondSucceeds "1700000000000"
              "2024-01-01T00:00:00.000Z" (Js.Ok "/proj") (fun _ => Js.Ok Sample.scanResult)
              (Server.setProgress "1700000000001" 60 "Djupanalys..." Server.emptyWorld))
    as [Hown Hother].
  split; [exact Hown|].
  rewrite (Hother "1700000000001" Hne). reflexivity.
Defined.

(* ===================================================================== *)
(** ** Unreadable files, for every project *)
(* ===================================================================== *)

Lemma Simple_collect_skips_unreadable read fs acc :
  EnhancedAnalyzerSimple.collectContent read fs acc =
  EnhancedAnalyzerSimple.collectContent read (filter (Fs.readable read) fs) acc.
Proof.
  revert acc; induction fs as [|f r IH]; intros acc; [reflexivity|].
  simpl. unfold Fs.readable at 1.
  destruct (read (Fs.path f)) as [c|e] eqn:E; simpl.
  - rewrite E. destruct (EnhancedAnalyzerSimple.isContentFile (Fs.ext f)); apply IH.
  - destruct (EnhancedAnalyzerSimple.isContentFile (Fs.ext f)); apply IH.
Qed.

Lemma Simple_gdpr_skips_unreadable read fs :
  EnhancedAnalyzerSimple.performGDPRScan read fs =
  EnhancedAnalyzerSimple.performGDPRScan read (filter (Fs.readable read) fs).
Proof.
  induction fs as [|f r IH]; [reflexivity|].
  simpl. unfold Fs.readable at 1.
  destruct (read (Fs.path f)) as [c|e] eqn:E; simpl.
  - rewrite E, IH. reflexivity.
  - rewrite IH. destruct (CodeAnalyzer.isScript (Fs.ext f)); reflexivity.
Qed.

Lemma Simple_patterns_skip_unreadable read fs :
  EnhancedAnalyzerSimple.detectAdvancedPatterns read fs =
  EnhancedAnalyzerSimple.detectAdvancedPatterns read (filter (Fs.readable read) fs).
Proof.
  unfold EnhancedAnalyzerSimple.detectAdvancedPatterns.
  now rewrite Simple_skips_unreadable.
Qed.

Lemma Simple_context_skips_unreadable read fs pkg :
  EnhancedAnalyzerSimple.inferBusinessContext read fs pkg =
  EnhancedAnalyzerSimple.inferBusinessContext read (filter (Fs.readable read) fs) pkg.
Proof.
  unfold EnhancedAnalyzerSimple.inferBusinessContext.
  destruct pkg; try reflexivity.
  now rewrite Simple_collect_skips_unreadable.
Qed.

(** X3.  The four analyzers that read inside [try]/[catch] treat a file
    that cannot be read as if the walk had not listed it: the ranked
    suggestions of the replacement analyzer (or its error), the
    suggestions of the deep analyzer and the whole result of the
    intelligent analyzer are those of the project without its unreadable
    files.  So is the result of the enhanced analyzer but for
    [analysis.files], which is the walk's list and still names them. *)
Theorem guarded_analyzers_ignore_unreadable_files
    (db : ApiDatabase) (read : Fs.Reader) (fs : list Fs.FileRecord) (pkg : PkgFile) :
  let seen := filter (Fs.readable read) fs in
  CodeReplacementAnalyzer.prioritizeRecommendations
    (CodeReplacementAnalyzer.findReplacementOpportunities db
       (CodeReplacementAnalyzer.scanCodebase db read fs)) =
  CodeReplacementAnalyzer.prioritizeRecommendations
    (CodeReplacementAnalyzer.findReplacementOpportunities db
       (CodeReplacementAnalyzer.scanCodebase db read seen)) /\
  DeepCodeAnalyzer.suggestions db read fs = DeepCodeAnalyzer.suggestions db read seen /\
  IntelligentCodeAnalyzer.analyzeCodeIntelligently db read fs =
  IntelligentCodeAnalyzer.analyzeCodeIntelligently db read seen /\
  exists o o',
    EnhancedAnalyzerSimple.analyzeProjectAdvanced db read fs pkg = Js.Ok o /\
    EnhancedAnalyzerSimple.analyzeProjectAdvanced db read seen pkg = Js.Ok o' /\
    EnhancedAnalyzerSimple.out_files o = fs /\
    EnhancedAnalyzerSimple.out_files o' = seen /\
    EnhancedAnalyzerSimple.out_dependencies o = EnhancedAnalyzerSimple.out_dependencies o' /\
    EnhancedAnalyzerSimple.out_patterns o = EnhancedAnalyzerSimple.out_patterns o' /\
    EnhancedAnalyzerSimple.businessContext o = EnhancedAnalyzerSimple.businessContext o' /\
    EnhancedAnalyzerSimple.gdprRisks o = EnhancedAnalyzerSimple.gdprRisks o' /\
    EnhancedAnalyzerSimple.suggestions o = EnhancedAnalyzerSimple.suggestions o' /\
    EnhancedAnalyzerSimple.marketplace o = EnhancedAnalyzerSimple.marketplace o'.
Proof.
  cbv zeta. split; [|split; [|split]].
  - unfold CodeReplacementAnalyzer.findReplacementOpportunities,
           CodeReplacementAnalyzer.scanCodebase.
    cbn [CodeReplacementAnalyzer.cb_patterns].
    now rewrite Replacement_skips_unreadable.
  - unfold DeepCodeAnalyzer.suggestions, DeepCodeAnalyzer.readEntireCodebase.
    now rewrite Deep_skips_unreadable.
  - unfold IntelligentCodeAnalyzer.analyzeCodeIntelligently,
           IntelligentCodeAnalyzer.performDeepCodeAnalysis.
    now rewrite Intelligent_skips_unreadable.
  - unfold EnhancedAnalyzerSimple.analyzeProjectAdvanced.
    eexists. eexists. split; [reflexivity|]. split; [reflexivity|].
    cbn [EnhancedAnalyzerSimple.out_files EnhancedAnalyzerSimple.out_dependencies
         EnhancedAnalyzerSimple.out_patterns EnhancedAnalyzerSimple.businessContext
         EnhancedAnalyzerSimple.gdprRisks EnhancedAnalyzerSimple.suggestions
         EnhancedAnalyzerSimple.marketplace].
    rewrite <- Simple_patterns_skip_unreadable, <- Simple_context_skips_unreadable,
            <- Simple_gdpr_skips_unreadable.
    repeat split; reflexivity.
Qed.

(** The sample project: [/locked.js] cannot be read and [/README.md] is
    not there to be read.  The enhanced analyzer lists both among its
    files and returns the suggestions of the two files it could read. *)
Lemma guarded_analyzers_witness :
  exists o o',
    EnhancedAnalyzerSimple.analyzeProjectAdvanced Sample.db Sample.read Sample.files Sample.pkg
    = Js.Ok o /\
    EnhancedAnalyzerSimple.analyzeProjectAdvanced Sample.db Sample.read
      (filter (Fs.readable Sample.read) Sample.files) Sample.pkg
    = Js.Ok o' /\
    map Fs.path (EnhancedAnalyzerSimple.out_files o)
    = ["/server.js"; "/locked.js"; "/shop.js"; "/README.md"] /\
    map Fs.path (EnhancedAnalyzerSimple.out_files o') = ["/server.js"; "/shop.js"] /\
    EnhancedAnalyzerSimple.suggestions o = EnhancedAnalyzerSimple.suggestions o' /\
    EnhancedAnalyzerSimple.marketplace o = EnhancedAnalyzerSimple.marketplace o'.
Proof.
  destruct (guarded_analyzers_ignore_unreadable_files
              Sample.db Sample.read Sample.files Sample.pkg)
    as (_ & _ & _ & o & o' & Ho & Ho' & Hf & Hf' & _ & _ & _ & _ & Hs & Hm).
  exists o, o'. split; [exact Ho|]. split; [exact Ho'|].
  split; [rewrite Hf; reflexivity|]. split; [rewrite Hf'; reflexivity|].
  split; [exact Hs|exact Hm].
Defined.

Lemma Advanced_reads_readable read pre rest cb :
  Forall (fun g => Fs.readable read g = true) pre ->
  exists cb', AdvancedCodeAnalyzer.readFiles read (pre ++ rest) cb =
              AdvancedCodeAnalyzer.readFiles read rest cb'.
Proof.
  intros H. revert cb. induction H as [|g pre Hg _ IH]; intros cb; [now exists cb|].
  simpl. unfold Fs.readable in Hg.
  destruct (AdvancedCodeAnalyzer.isCodeFile (Fs.ext g)); [|apply IH].
  destruct (read (Fs.path g)); [simpl; apply IH|discriminate].
Qed.

Lemma Baseline_patterns_readable read pre rest p :
  Forall (fun g => Fs.readable read g = true) pre ->
  exists p', CodeAnalyzer.detectPatterns_from read (pre ++ rest) p =
             CodeAnalyzer.detectPatterns_from read rest p'.
Proof.
  intros H. revert p. induction H as [|g pre Hg _ IH]; intros p; [now exists p|].
  simpl. unfold Fs.readable in Hg.
  destruct (CodeAnalyzer.isScript (Fs.ext g)); [|apply IH].
  destruct (read (Fs.path g)); [simpl; apply IH|discriminate].
Qed.

Lemma Enhanced_patterns_readable read pre rest p :
  Forall (fun g => Fs.readable read g = true) pre ->
  exists p', EnhancedAnalyzer.detectAdvancedPatterns_from read (pre ++ rest) p =
             EnhancedAnalyzer.detectAdvancedPatterns_from read rest p'.
Proof.
  intros H. revert p. induction H as [|g pre Hg _ IH]; intros p; [now exists p|].
  simpl. unfold Fs.readable in Hg.
  destruct (EnhancedAnalyzer.isScanned (Fs.ext g)); [|apply IH].
  destruct (read (Fs.path g)); [simpl; apply IH|discriminate].
Qed.

(** X4.  The three scans that read outside any [try] end with the error
    of the first file they cannot read: when the files before [f] are
    readable and the read of [f] throws [e], the codebase map of the
    advanced analyzer, the whole baseline analysis (with a usable
    package.json or none) and the pattern detection of the full enhanced
    analyzer throw [e], each provided it opens files with the extension
    of [f]. *)
Theorem unguarded_scans_throw_first_read_error
    (read : Fs.Reader) (pre post : list Fs.FileRecord) (f : Fs.FileRecord) (e : Fs.Error) :
  Forall (fun g => Fs.readable read g = true) pre ->
  read (Fs.path f) = Js.Throw e ->
  (AdvancedCodeAnalyzer.isCodeFile (Fs.ext f) = true ->
   AdvancedCodeAnalyzer.buildCodebaseMap read (pre ++ f :: post) = Js.Throw e) /\
  (CodeAnalyzer.isScript (Fs.ext f) = true ->
   forall pkg, pkg <> BadPkg ->
     CodeAnalyzer.analyzeProject read (pre ++ f :: post) pkg = Js.Throw e) /\
  (EnhancedAnalyzer.isScanned (Fs.ext f) = true ->
   EnhancedAnalyzer.detectAdvancedPatterns read (pre ++ f :: post) = Js.Throw e).
Proof.
  intros Hpre Hread. repeat split.
  - intros Hext. unfold AdvancedCodeAnalyzer.buildCodebaseMap.
    destruct (Advanced_reads_readable read pre (f :: post)
                {| AdvancedCodeAnalyzer.files := []; AdvancedCodeAnalyzer.totalLines := O |}
                Hpre) as [cb' ->].
    simpl. now rewrite Hext, Hread.
  - intros Hext pkg Hpkg. unfold CodeAnalyzer.analyzeProject.
    assert (Hdeps : exists d, CodeAnalyzer.analyzeDependencies pkg = Js.Ok d)
      by (destruct pkg; [eexists; reflexivity | congruence | eexists; reflexivity]).
    destruct Hdeps as [d ->]. cbn [Js.bind].
    unfold CodeAnalyzer.detectPatterns.
    destruct (Baseline_patterns_readable read pre (f :: post)
                CodeAnalyzer.initialPatterns Hpre) as [p' ->].
    simpl. now rewrite Hext, Hread.
  - intros Hext. unfold EnhancedAnalyzer.detectAdvancedPatterns.
    destruct (Enhanced_patterns_readable read pre (f :: post)
                EnhancedAnalyzer.initialPatterns Hpre) as [p' ->].
    simpl. now rewrite Hext, Hread.
Qed.

Lemma unguarded_scans_throw_first_read_error_witness :
  AdvancedCodeAnalyzer.buildCodebaseMap Sample.read Sample.files =
    Js.Throw "EACCES: permission denied, open '/locked.js'" /\
  CodeAnalyzer.analyzeProject Sample.read Sample.files Sample.pkg =
    Js.Throw "EACCES: permission denied, open '/locked.js'" /\
  EnhancedAnalyzer.detectAdvancedPatterns Sample.read Sample.files =
    Js.Throw "EACCES: permission denied, open '/locked.js'".
Proof.
  destruct (unguarded_scans_throw_first_read_error Sample.read
              [ {| Fs.path := "/server.js"; Fs.ext := ".js" |} ]
              [ {| Fs.path := "/shop.js"; Fs.ext := ".js" |};
                {| Fs.path := "/README.md"; Fs.ext := ".md" |} ]
              {| Fs.path := "/locked.js"; Fs.ext := ".js" |}
              "EACCES: permission denied, open '/locked.js'")
    as (Ha & Hb & Hc).
  - repeat constructor.
  - reflexivity.
  - split; [apply Ha; reflexivity|].
    split; [apply Hb; [reflexivity | discriminate] | apply Hc; reflexivity].
Defined.

(* ===================================================================== *)
(** ** The replacement analyzer *)
(* ===================================================================== *)

Section ReplacementShape.
Import CodeReplacementAnalyzer.

Lemma toSuggestions_rows i l ss :
  toSuggestions i l = Js.Ok ss ->
  Forall2 (fun o s =>
             s_id s = ("replacement_" ++ category o)%string /\
             s_category s = category o /\
             s_impact s = impact o /\ s_effort s = effort o /\
             s_affectedFiles s = affectedFiles o /\
             s_providers s = opp_recommendations o /\
             opp_recommendations o <> []) l ss.
Proof.
  revert i ss; induction l as [|o r IH]; intros i ss H; simpl in H.
  - inversion H. constructor.
  - destruct (opp_recommendations o) as [|top rest] eqn:E; [discriminate|].
    destruct (toSuggestions (S i) r) as [ss'|e] eqn:E'; simpl in H; [|discriminate].
    inversion H; subst. constructor; [|eapply IH; eauto].
    cbn. rewrite E. repeat split; try reflexivity. discriminate.
Qed.

Lemma toSuggestions_priorities i l ss :
  toSuggestions i l = Js.Ok ss -> map s_priority ss = seq (S i) (List.length l).
Proof.
  revert i ss; induction l as [|o r IH]; intros i ss H; simpl in H.
  - now inversion H.
  - destruct (opp_recommendations o) as [|top rest] eqn:E; [discriminate|].
    destruct (toSuggestions (S i) r) as [ss'|e] eqn:E'; simpl in H; [|discriminate].
    inversion H; subst. simpl. f_equal. eapply IH; eauto.
Qed.

Lemma toSuggestions_throws i l e :
  toSuggestions i l = Js.Throw e ->
  e = "Cannot read properties of undefined (reading 'name')" /\
  exists o, In o l /\ opp_recommendations o = [].
Proof.
  revert i; induction l as [|o r IH]; intros i H; simpl in H; [discriminate|].
  destruct (opp_recommendations o) as [|top rest] eqn:E.
  - inversion H. split; [reflexivity|]. exists o. split; [now left|exact E].
  - destruct (toSuggestions (S i) r) as [ss'|e'] eqn:E'; simpl in H; [discriminate|].
    inversion H; subst. destruct (IH (S i) E') as [He (o' & Hin & Ho')].
    split; [exact He|]. exists o'. split; [now right|exact Ho'].
Qed.

(** What an opportunity is made of: the matches of its category. *)
Lemma opportunity_shape cfg m o :
  In o (flat_map (opportunityOf cfg) m) ->
  exists ms,
    In (category o, ms) m /\ ms <> [] /\
    affectedFiles o = map (fun d => (file d, lineNumber d)) ms /\
    impact o = calculateCategoryImpact (category o) (List.length ms) /\
    effort o = estimateReplacementEffort (category o) (List.length ms) /\
    selectBestRecommendations (configOf cfg (category o)) ms
    = Js.Ok (opp_recommendations o).
Proof.
  intros H. apply in_flat_map in H. destruct H as ([c ms] & Hin & Ho).
  simpl in Ho. destruct ms as [|m0 ms']; [destruct Ho|].
  destruct Ho as [<-|[]]. exists (m0 :: ms'). cbn.
  repeat split; try reflexivity; [exact Hin | discriminate].
Qed.

Lemma selectBest_empty ms : selectBestRecommendations [] ms = Js.Ok [].
Proof. destruct ms; reflexivity. Qed.

Lemma selectBest_ok_nonempty recs ms rs :
  recs <> [] -> selectBestRecommendations recs ms = Js.Ok rs -> rs <> [].
Proof.
  unfold selectBestRecommendations. intros Hrecs.
  destruct ms as [|m ms'].
  - destruct recs; [contradiction|discriminate].
  - intros H. inversion H. now apply selectBest_nonempty.
Qed.

Lemma selectBest_length recs ms rs :
  selectBestRecommendations recs ms = Js.Ok rs -> (List.length rs <= 3)%nat.
Proof.
  unfold selectBestRecommendations.
  destruct ms as [|m ms'].
  - destruct recs; [|discriminate]. intros H. inversion H. simpl. lia.
  - intros H. inversion H. apply Replacement_providers_bound.
Qed.

Lemma Forall2_Forall_r {X Y : Type} (R : X -> Y -> Prop) (P : X -> Prop) (Q : Y -> Prop)
    (l : list X) (l' : list Y) :
  (forall x y, P x -> R x y -> Q y) -> Forall P l -> Forall2 R l l' -> Forall Q l'.
Proof.
  intros H HP HR. induction HR as [|x y l l' Hxy _ IH]; [constructor|].
  inversion HP; subst. constructor; [eapply H; eauto | now apply IH].
Qed.

Lemma summarize_length db read fs :
  List.length (summarizeCurrentCode (scanCodebase db read fs)) =
  List.length (findReplacementOpportunities db (scanCodebase db read fs)).
Proof.
  destruct (ReplacementFacts.scanCodebase_wf db read fs) as (_ & _ & Hne).
  unfold summarizeCurrentCode. rewrite length_map.
  rewrite <- (length_map category (findReplacementOpportunities _ _)).
  unfold findReplacementOpportunities.
  rewrite ReplacementFacts.opportunities_categories by exact Hne.
  unfold keys. now rewrite length_map.
Qed.

End ReplacementShape.

(** X5.  Whenever the replacement analyzer returns, its suggestions are
    numbered 1, 2, 3, ... in the order returned, there is one per
    matched category (at most seven, as many as the opportunities
    counted and the current implementations listed), and each has the
    id 'replacement_' followed by its category, an impact from 3 to 10,
    an effort from 2 to 10, one to three providers and at least one
    affected file. *)
Theorem replacement_suggestions_shape
    (db : ApiDatabase) (read : Fs.Reader) (fs : list Fs.FileRecord)
    (out : CodeReplacementAnalyzer.Output) :
  CodeReplacementAnalyzer.analyzeCodeForReplacements db read fs = Js.Ok out ->
  let ss := CodeReplacementAnalyzer.suggestions out in
  map CodeReplacementAnalyzer.s_priority ss = seq 1 (List.length ss) /\
  CodeReplacementAnalyzer.replacementOpportunities out = List.length ss /\
  List.length (CodeReplacementAnalyzer.currentImplementations out) = List.length ss /\
  (List.length ss <= 7)%nat /\
  Forall (fun s =>
            CodeReplacementAnalyzer.s_id s =
              ("replacement_" ++ CodeReplacementAnalyzer.s_category s)%string /\
            3 <= CodeReplacementAnalyzer.s_impact s <= 10 /\
            2 <= CodeReplacementAnalyzer.s_effort s <= 10 /\
            (1 <= List.length (CodeReplacementAnalyzer.s_providers s) <= 3)%nat /\
            CodeReplacementAnalyzer.s_affectedFiles s <> []) ss.
Proof.
  intros Hok. cbv zeta.
  pose proof (analyze_ok db read fs out Hok) as Hp.
  unfold CodeReplacementAnalyzer.prioritizeRecommendations in Hp.
  pose proof (toSuggestions_rows _ _ _ Hp) as Hrows.
  pose proof (toSuggestions_priorities _ _ _ Hp) as Hprio.
  pose proof (Forall2_length Hrows) as Hlen.
  rewrite sortDesc_length in Hlen.
  assert (Hout : CodeReplacementAnalyzer.replacementOpportunities out =
                   List.length (CodeReplacementAnalyzer.findReplacementOpportunities db
                                  (CodeReplacementAnalyzer.scanCodebase db read fs)) /\
                 CodeReplacementAnalyzer.currentImplementations out =
                   CodeReplacementAnalyzer.summarizeCurrentCode
                     (CodeReplacementAnalyzer.scanCodebase db read fs)).
  { unfold CodeReplacementAnalyzer.analyzeCodeForReplacements in Hok.
    destruct (CodeReplacementAnalyzer.prioritizeRecommendations _) as [ps|e];
      simpl in Hok; [|discriminate].
    inversion Hok; subst. split; reflexivity. }
  destruct Hout as [Hcount Hcur].
  split; [rewrite Hprio, sortDesc_length, Hlen; reflexivity|].
  split; [now rewrite Hcount|].
  split; [rewrite Hcur, summarize_length; exact Hlen|].
  split; [rewrite <- Hlen; apply ReplacementFacts.opportunities_length|].
  eapply Forall2_Forall_r; [| |exact Hrows].
  2:{ apply Forall_sortDesc. apply Forall_forall. intros o Ho.
      exact (opportunity_shape _ _ _ Ho). }
  intros o s (ms & Hin & Hms & Haff & Him & Hef & Hrec)
         (Hid & Hcat & Hi & He & Ha & Hpr & Hne).
  split; [rewrite Hid, Hcat; reflexivity|].
  assert (Hkey : In (CodeReplacementAnalyzer.category o)
                    (map fst (CodeReplacementAnalyzer.buildCodePatterns db))).
  { destruct (ReplacementFacts.scanCodebase_wf db read fs) as (_ & Hincl & _).
    apply Hincl. unfold CodeReplacementAnalyzer.keys.
    change (CodeReplacementAnalyzer.category o)
      with (fst (CodeReplacementAnalyzer.category o, ms)).
    now apply in_map. }
  pose proof (Replacement_ranges db (CodeReplacementAnalyzer.category o) (List.length ms) Hkey)
    as [Hr1 Hr2].
  split; [rewrite Hi, Him; exact Hr1|].
  split; [rewrite He, Hef; exact Hr2|].
  split.
  - rewrite Hpr. split.
    + destruct (CodeReplacementAnalyzer.opp_recommendations o); [contradiction|simpl; lia].
    + exact (selectBest_length _ _ _ Hrec).
  - rewrite Ha, Haff. destruct ms; [contradiction|discriminate].
Qed.

Lemma replacement_suggestions_shape_witness :
  exists out,
    CodeReplacementAnalyzer.analyzeCodeForReplacements Sample.db Sample.read Sample.files
    = Js.Ok out /\
    let ss := CodeReplacementAnalyzer.suggestions out in
    map CodeReplacementAnalyzer.s_priority ss = seq 1 (List.length ss) /\
    CodeReplacementAnalyzer.replacementOpportunities out = List.length ss /\
    List.length (CodeReplacementAnalyzer.currentImplementations out) = List.length ss /\
    (List.length ss <= 7)%nat /\
    Forall (fun s =>
              CodeReplacementAnalyzer.s_id s =
                ("replacement_" ++ CodeReplacementAnalyzer.s_category s)%string /\
              3 <= CodeReplacementAnalyzer.s_impact s <= 10 /\
              2 <= CodeReplacementAnalyzer.s_effort s <= 10 /\
              (1 <= List.length (CodeReplacementAnalyzer.s_providers s) <= 3)%nat /\
              CodeReplacementAnalyzer.s_affectedFiles s <> []) ss.
Proof.
  eexists. split; [vm_compute; reflexivity|].
  apply (replacement_suggestions_shape Sample.db Sample.read Sample.files).
  vm_compute. reflexivity.
Defined.

Section ReplacementProvenance.
Import CodeReplacementAnalyzer.
Variable P : MatchData -> Prop.

Lemma addMatch_data c d m :
  P d ->
  Forall (fun e => Forall P (snd e)) m ->
  Forall (fun e => Forall P (snd e)) (addMatch c d m).
Proof.
  intros Hd. induction m as [|[k ds] r IH]; simpl; intros H.
  - repeat constructor. exact Hd.
  - inversion H; subst. destruct (String.eqb k c); constructor; simpl; auto.
    apply Forall_app. split; [assumption|]. repeat constructor. exact Hd.
Qed.

Lemma scanPatterns_data path content c ps m :
  (forall pt, In pt ps ->
     P {| file := path; m_current := current pt; m_weakness := weakness pt;
          lineNumber := extractCodeSnippet content (code pt) |}) ->
  Forall (fun e => Forall P (snd e)) m ->
  Forall (fun e => Forall P (snd e)) (scanPatterns path content c ps m).
Proof.
  intros Hp. unfold scanPatterns.
  apply (fold_left_inv (fun a => Forall (fun e => Forall P (snd e)) a)).
  intros a pt Hin Ha. destruct (Regex.test (code pt) content); [|exact Ha].
  apply addMatch_data; [now apply Hp|exact Ha].
Qed.

Lemma scanContent_data cfg path content m :
  (forall e pt, In e cfg -> In pt (patterns (snd e)) ->
     P {| file := path; m_current := current pt; m_weakness := weakness pt;
          lineNumber := extractCodeSnippet content (code pt) |}) ->
  Forall (fun e => Forall P (snd e)) m ->
  Forall (fun e => Forall P (snd e)) (scanContent cfg path content m).
Proof.
  intros Hp. unfold scanContent.
  apply (fold_left_inv (fun a => Forall (fun e => Forall P (snd e)) a)).
  intros a e Hin Ha. apply scanPatterns_data; [|exact Ha].
  intros pt Hpt. now apply (Hp e pt).
Qed.

Lemma scanFiles_data cfg read fs m :
  (forall f content e pt,
     In f fs -> isCodeFile (Fs.ext f) = true -> read (Fs.path f) = Js.Ok content ->
     In e cfg -> In pt (patterns (snd e)) ->
     P {| file := Fs.path f; m_current := current pt; m_weakness := weakness pt;
          lineNumber := extractCodeSnippet content (code pt) |}) ->
  Forall (fun e => Forall P (snd e)) m ->
  Forall (fun e => Forall P (snd e)) (scanFiles cfg read fs m).
Proof.
  revert m; induction fs as [|f r IH]; intros m HP Hm; simpl; [exact Hm|].
  assert (HP' : forall g content e pt,
            In g r -> isCodeFile (Fs.ext g) = true -> read (Fs.path g) = Js.Ok content ->
            In e cfg -> In pt (patterns (snd e)) ->
            P {| file := Fs.path g; m_current := current pt; m_weakness := weakness pt;
                 lineNumber := extractCodeSnippet content (code pt) |})
    by (intros g content e pt Hg; apply HP; now right).
  destruct (isCodeFile (Fs.ext f)) eqn:Eext; [|now apply IH].
  destruct (read (Fs.path f)) as [content|e] eqn:Eread; [|now apply IH].
  apply IH; [exact HP'|]. apply scanContent_data; [|exact Hm].
  intros e pt He Hpt. apply (HP f content e pt); auto. now left.
Qed.

End ReplacementProvenance.

(** The line found by [findLine]: none (0), or the first line the
    pattern matches, counted from [i + 1]. *)
Lemma findLine_first (r : Regex.t) (ls : list string) (i : nat) :
  CodeReplacementAnalyzer.findLine r ls i = O \/
  exists j line,
    CodeReplacementAnalyzer.findLine r ls i = S (i + j) /\
    nth_error ls j = Some line /\ Regex.test r line = true /\
    forall k l, (k < j)%nat -> nth_error ls k = Some l -> Regex.test r l = false.
Proof.
  revert i. induction ls as [|l0 rest IH]; intros i; [now left|].
  cbn [CodeReplacementAnalyzer.findLine].
  destruct (Regex.test r l0) eqn:E.
  - right. exists O, l0. rewrite Nat.add_0_r. repeat split; try assumption.
    intros k l Hk. lia.
  - destruct (IH (S i)) as [H0|(j & line & Hn & Hnth & Ht & Hbefore)]; [now left|].
    right. exists (S j), line. rewrite Hn. split; [f_equal; lia|].
    split; [exact Hnth|]. split; [exact Ht|].
    intros k l Hk Hl. destruct k as [|k]; simpl in Hl.
    + injection Hl as <-. exact E.
    + apply (Hbefore k l); [lia|exact Hl].
Qed.

(** X6.  Every file that a suggestion of the replacement analyzer lists
    as affected is a file of the project with one of the scanned
    extensions whose read succeeded: an unreadable file, or a file with
    another extension, is never reported.  The line reported with it is
    0 or the 1-based number of the first line of that file which a
    pattern of the analyzer's table matches. *)
Theorem replacement_affected_files_were_read
    (db : ApiDatabase) (read : Fs.Reader) (fs : list Fs.FileRecord)
    (out : CodeReplacementAnalyzer.Output) :
  CodeReplacementAnalyzer.analyzeCodeForReplacements db read fs = Js.Ok out ->
  forall s affected,
    In s (CodeReplacementAnalyzer.suggestions out) ->
    In affected (CodeReplacementAnalyzer.s_affectedFiles s) ->
    exists f content,
      In f fs /\ Fs.path f = fst affected /\
      CodeReplacementAnalyzer.isCodeFile (Fs.ext f) = true /\
      read (Fs.path f) = Js.Ok content /\
      (snd affected = O \/
       exists pt line,
         In pt (flat_map (fun e => CodeReplacementAnalyzer.patterns (snd e))
                         (CodeReplacementAnalyzer.buildCodePatterns db)) /\
         nth_error (Fs.lines content) (snd affected - 1) = Some line /\
         Regex.test (CodeReplacementAnalyzer.code pt) line = true /\
         forall k l, (k < snd affected - 1)%nat ->
                     nth_error (Fs.lines content) k = Some l ->
                     Regex.test (CodeReplacementAnalyzer.code pt) l = false).
Proof.
  intros Hok s affected Hs Ha.
  pose proof (analyze_ok db read fs out Hok) as Hp.
  unfold CodeReplacementAnalyzer.prioritizeRecommendations in Hp.
  pose proof (toSuggestions_rows _ _ _ Hp) as Hrows.
  set (P := fun d : CodeReplacementAnalyzer.MatchData =>
              exists f content,
                In f fs /\ Fs.path f = CodeReplacementAnalyzer.file d /\
                CodeReplacementAnalyzer.isCodeFile (Fs.ext f) = true /\
                read (Fs.path f) = Js.Ok content /\
                (CodeReplacementAnalyzer.lineNumber d = O \/
                 exists pt line,
                   In pt (flat_map (fun e => CodeReplacementAnalyzer.patterns (snd e))
                                   (CodeReplacementAnalyzer.buildCodePatterns db)) /\
                   nth_error (Fs.lines content)
                             (CodeReplacementAnalyzer.lineNumber d - 1) = Some line /\
                   Regex.test (CodeReplacementAnalyzer.code pt) line = true /\
                   forall k l, (k < CodeReplacementAnalyzer.lineNumber d - 1)%nat ->
                               nth_error (Fs.lines content) k = Some l ->
                               Regex.test (CodeReplacementAnalyzer.code pt) l = false)).
  assert (Hmap : Forall (fun e => Forall P (snd e))
                        (CodeReplacementAnalyzer.cb_patterns
                           (CodeReplacementAnalyzer.scanCodebase db read fs))).
  { unfold CodeReplacementAnalyzer.scanCodebase. cbn [CodeReplacementAnalyzer.cb_patterns].
    apply scanFiles_data; [|constructor].
    intros f content e pt Hin Hext Hread He Hpt. exists f, content.
    cbn [CodeReplacementAnalyzer.file CodeReplacementAnalyzer.lineNumber].
    repeat split; try assumption.
    unfold CodeReplacementAnalyzer.extractCodeSnippet.
    destruct (findLine_first (CodeReplacementAnalyzer.code pt) (Fs.lines content) O)
      as [H0|(j & line & Hn & Hnth & Ht & Hbefore)]; [now left|].
    right. exists pt, line. rewrite Hn. cbn [Nat.add Nat.sub]. rewrite Nat.sub_0_r.
    split; [|split; [exact Hnth|split; [exact Ht|exact Hbefore]]].
    apply in_flat_map. exists e. split; assumption. }
  assert (Hall : Forall (fun s0 => Forall (fun a => P {| CodeReplacementAnalyzer.file := fst a;
                                                        CodeReplacementAnalyzer.m_current := EmptyString;
                                                        CodeReplacementAnalyzer.m_weakness := EmptyString;
                                                        CodeReplacementAnalyzer.lineNumber := snd a |})
                                          (CodeReplacementAnalyzer.s_affectedFiles s0))
                        (CodeReplacementAnalyzer.suggestions out)).
  { eapply Forall2_Forall_r; [| |exact Hrows].
    2:{ apply Forall_sortDesc. apply Forall_forall. intros o Ho.
        exact (opportunity_shape _ _ _ Ho). }
    intros o s0 (ms & Hin & _ & Haff & _) (_ & _ & _ & _ & Ha0 & _).
    rewrite Ha0, Haff. apply Forall_map_intro. intros d Hd. cbn [fst snd].
    rewrite Forall_forall in Hmap. specialize (Hmap _ Hin). cbn [snd] in Hmap.
    rewrite Forall_forall in Hmap. exact (Hmap d Hd). }
  rewrite Forall_forall in Hall. specialize (Hall s Hs).
  rewrite Forall_forall in Hall. exact (Hall affected Ha).
Qed.

Lemma replacement_affected_files_were_read_witness :
  exists out,
    CodeReplacementAnalyzer.analyzeCodeForReplacements Sample.db Sample.read Sample.files
    = Js.Ok out /\
    forall s affected,
      In s (CodeReplacementAnalyzer.suggestions out) ->
      In affected (CodeReplacementAnalyzer.s_affectedFiles s) ->
      exists f content,
        In f Sample.files /\ Fs.path f = fst affected /\
        CodeReplacementAnalyzer.isCodeFile (Fs.ext f) = true /\
        Sample.read (Fs.path f) = Js.Ok content /\
        (snd affected = O \/
         exists pt line,
           In pt (flat_map (fun e => CodeReplacementAnalyzer.patterns (snd e))
                           (CodeReplacementAnalyzer.buildCodePatterns Sample.db)) /\
           nth_error (Fs.lines content) (snd affected - 1) = Some line /\
           Regex.test (CodeReplacementAnalyzer.code pt) line = true /\
           forall k l, (k < snd affected - 1)%nat ->
                       nth_error (Fs.lines content) k = Some l ->
                       Regex.test (CodeReplacementAnalyzer.code pt) l = false).
Proof.
  eexists. split; [vm_compute; reflexivity|].
  apply (replacement_affected_files_were_read Sample.db Sample.read Sample.files).
  vm_compute. reflexivity.
Defined.

(** X7.  The replacement analyzer returns exactly when every category
    for which some pattern matched has a non-empty catalog section; in
    every other case it throws the [TypeError] of reading the name of a
    missing first provider, whatever else was found. *)
Theorem replacement_returns_iff_matched_sections_filled
    (db : ApiDatabase) (read : Fs.Reader) (fs : list Fs.FileRecord) :
  let matched := CodeReplacementAnalyzer.keys
                   (CodeReplacementAnalyzer.cb_patterns
                      (CodeReplacementAnalyzer.scanCodebase db read fs)) in
  ((exists out, CodeReplacementAnalyzer.analyzeCodeForReplacements db read fs = Js.Ok out) <->
   Forall (fun c => CodeReplacementAnalyzer.configOf
                      (CodeReplacementAnalyzer.buildCodePatterns db) c <> []) matched) /\
  forall e, CodeReplacementAnalyzer.analyzeCodeForReplacements db read fs = Js.Throw e ->
            e = "Cannot read properties of undefined (reading 'name')".
Proof.
  cbv zeta.
  destruct (ReplacementFacts.scanCodebase_wf db read fs) as (Hnd & Hincl & Hne).
  pose proof (ReplacementFacts.opportunities_categories
                (CodeReplacementAnalyzer.buildCodePatterns db) _ Hne) as Hcats.
  split; [split|].
  - intros [out Hok].
    pose proof (analyze_ok db read fs out Hok) as Hp.
    unfold CodeReplacementAnalyzer.prioritizeRecommendations in Hp.
    pose proof (toSuggestions_rows _ _ _ Hp) as Hrows.
    apply Forall_forall. intros c Hc Hempty.
    rewrite <- Hcats in Hc. apply in_map_iff in Hc. destruct Hc as (o & <- & Ho).
    assert (Hso : In o (Js.sortDesc CodeReplacementAnalyzer.priorityKey
                          (CodeReplacementAnalyzer.findReplacementOpportunities db
                             (CodeReplacementAnalyzer.scanCodebase db read fs)))).
    { eapply Permutation_in; [apply Permutation_sym, sortDesc_perm|exact Ho]. }
    destruct (opportunity_shape _ _ _ Ho) as (ms & _ & _ & _ & _ & _ & Hrec).
    rewrite Hempty, selectBest_empty in Hrec.
    injection Hrec as Hrec. symmetry in Hrec.
    clear - Hrows Hso Hrec.
    induction Hrows as [|o' s' l l' Hos _ IH]; [destruct Hso|].
    destruct Hso as [->|Hin]; [|now apply IH].
    destruct Hos as (_ & _ & _ & _ & _ & _ & Hne). contradiction.
  - intros Hall.
    unfold CodeReplacementAnalyzer.analyzeCodeForReplacements,
           CodeReplacementAnalyzer.prioritizeRecommendations.
    destruct (toSuggestions_ok 0
                (Js.sortDesc CodeReplacementAnalyzer.priorityKey
                   (CodeReplacementAnalyzer.findReplacementOpportunities db
                      (CodeReplacementAnalyzer.scanCodebase db read fs)))) as [ss Hss].
    + apply Forall_sortDesc. apply Forall_forall. intros o Ho.
      destruct (opportunity_shape _ _ _ Ho) as (ms & Hin & _ & _ & _ & _ & Hrec).
      apply (selectBest_ok_nonempty _ _ _) with (2 := Hrec).
      rewrite Forall_forall in Hall. apply Hall.
      unfold CodeReplacementAnalyzer.keys.
      change (CodeReplacementAnalyzer.category o)
        with (fst (CodeReplacementAnalyzer.category o, ms)).
      now apply in_map.
    + rewrite Hss. simpl. eexists; reflexivity.
  - intros e He.
    unfold CodeReplacementAnalyzer.analyzeCodeForReplacements,
           CodeReplacementAnalyzer.prioritizeRecommendations in He.
    destruct (CodeReplacementAnalyzer.toSuggestions 0 _) as [ss|e'] eqn:E;
      simpl in He; [discriminate|].
    inversion He; subst. now destruct (toSuggestions_throws _ _ _ E).
Qed.

Lemma replacement_returns_iff_witness :
  (exists out, CodeReplacementAnalyzer.analyzeCodeForReplacements
                 Sample.db Sample.read Sample.files = Js.Ok out) /\
  CodeReplacementAnalyzer.analyzeCodeForReplacements
    Sample.dbNoAnalytics Sample.read Sample.files
  = Js.Throw "Cannot read properties of undefined (reading 'name')".
Proof.
  split.
  - apply (replacement_returns_iff_matched_sections_filled Sample.db Sample.read Sample.files).
    vm_compute. repeat constructor; discriminate.
  - destruct (CodeReplacementAnalyzer.analyzeCodeForReplacements
                Sample.dbNoAnalytics Sample.read Sample.files) as [o|e] eqn:E.
    + vm_compute in E. discriminate.
    + f_equal.
      exact (proj2 (replacement_returns_iff_matched_sections_filled
                      Sample.dbNoAnalytics Sample.read Sample.files) e E).
Defined.

Section ProviderSelection.
Import CodeReplacementAnalyzer.

Lemma sorted_split {A : Type} (key : A -> Q) (n : nat) (l : list A) :
  StronglySorted (Js.keyGe key) l ->
  forall a b, In a (firstn n l) -> In b (skipn n l) -> (key b <= key a)%Q.
Proof.
  intros H. revert n. induction H as [|y r Hr IH Hy]; intros n a b Ha Hb.
  - destruct n; destruct Ha.
  - destruct n as [|n]; [destruct Ha|].
    simpl in Ha, Hb. destruct Ha as [<-|Ha].
    + rewrite Forall_forall in Hy. apply Hy.
      rewrite <- (firstn_skipn n r). apply in_or_app. now right.
    + eapply IH; eauto.
Qed.

Lemma readDigits_nonneg (t : string) (acc : Z) : 0 <= acc -> 0 <= readDigits t acc.
Proof.
  revert acc. induction t as [|d t IHt]; intros acc Hacc; simpl; [exact Hacc|].
  destruct (isDigit d); [apply IHt; lia|exact Hacc].
Qed.

Lemma firstNumber_nonneg (s : string) (n : Z) : firstNumber s = Some n -> 0 <= n.
Proof.
  revert n. induction s as [|c s IH]; intros n; cbn [firstNumber]; [discriminate|].
  destruct (isDigit c) eqn:Ec; [|apply IH].
  intros H. injection H as <-. rewrite ?Ec. apply readDigits_nonneg. lia.
Qed.

Lemma nearestEven_nonneg (n d : Z) : 0 <= n -> 0 < d -> 0 <= Js.nearestEven n d.
Proof.
  intros Hn Hd. unfold Js.nearestEven.
  assert (H : 0 <= n / d) by (apply Z.div_pos; lia).
  repeat match goal with |- context [if ?b then _ else _] => destruct b end; lia.
Qed.

Lemma nearestEven_le (n d K : Z) : 0 < d -> n <= K * d -> Js.nearestEven n d <= K.
Proof.
  intros Hd Hn. unfold Js.nearestEven.
  pose proof (Z.div_mod n d ltac:(lia)) as Hdm.
  pose proof (Z.mod_pos_bound n d Hd) as Hr.
  set (m := n / d) in *. set (r := n mod d) in *.
  destruct (2 * r <? d) eqn:E1; [nia|].
  apply Z.ltb_ge in E1.
  assert (Hr0 : 0 < r) by lia.
  assert (m + 1 <= K) by nia.
  destruct (d <? 2 * r); [lia|]. destruct (Z.even m); lia.
Qed.

Lemma scaled_sign (a b s : Z) :
  0 < a -> 0 < b -> 0 <= fst (Js.scaled a b s) /\ 0 < snd (Js.scaled a b s).
Proof.
  intros Ha Hb. unfold Js.scaled. destruct (0 <=? s) eqn:E0; simpl.
  - apply Z.leb_le in E0.
    assert (0 < 2 ^ s) by (apply Z.pow_pos_nonneg; lia). split; nia.
  - apply Z.leb_gt in E0.
    assert (0 < 2 ^ (- s)) by (apply Z.pow_pos_nonneg; lia). split; nia.
Qed.

Lemma doublePos_nonneg (a b : Z) : 0 < a -> 0 < b -> (0 <= Js.doublePos a b)%Q.
Proof.
  intros Ea Hb. unfold Js.doublePos.
  destruct (Js.scaled a b (Z.log2 a - Z.log2 b)) as [n0 d0].
  set (s := (if n0 <? d0 then _ else _) - 52). clearbody s.
  pose proof (scaled_sign a b s Ea Hb) as [Hn Hd].
  destruct (Js.scaled a b s) as [n d]. simpl in Hn, Hd.
  pose proof (nearestEven_nonneg n d Hn Hd) as Hm.
  destruct (0 <=? s) eqn:E0.
  - apply Z.leb_le in E0. unfold Qle. simpl.
    assert (0 <= 2 ^ s) by (apply Z.pow_nonneg; lia). nia.
  - rewrite Qred_correct. unfold Qle. simpl. lia.
Qed.

(** Rounding does not cross a small whole number. *)
Lemma doublePos_le_int (a b N : Z) :
  0 < a -> 0 < b -> 0 <= N < 2 ^ 40 -> a <= N * b ->
  (Js.doublePos a b <= inject_Z N)%Q.
Proof.
  intros Ea Hb HN Hab. unfold Js.doublePos.
  assert (HN1 : 0 < N) by nia.
  assert (He0 : Z.log2 a - Z.log2 b <= 40).
  { assert (Z.log2 a <= Z.log2 (N * b)) by (apply Z.log2_le_mono; exact Hab).
    pose proof (Z.log2_mul_above N b ltac:(lia) ltac:(lia)).
    assert (Z.log2 N < 40) by (apply Z.log2_lt_pow2; lia).
    lia. }
  destruct (Js.scaled a b (Z.log2 a - Z.log2 b)) as [n0 d0].
  set (s := (if n0 <? d0 then _ else _) - 52).
  assert (Hs : s < 0) by (unfold s; destruct (n0 <? d0); lia).
  clearbody s.
  unfold Js.scaled.
  destruct (0 <=? s) eqn:E0; [apply Z.leb_le in E0; lia|].
  assert (Hp : 0 < 2 ^ (- s)) by (apply Z.pow_pos_nonneg; lia).
  pose proof (nearestEven_le (a * 2 ^ (- s)) b (N * 2 ^ (- s)) Hb ltac:(nia)) as Hm.
  rewrite Qred_correct. unfold Qle. simpl.
  rewrite Z2Pos.id by exact Hp. lia.
Qed.

Lemma double_nonneg (q : Q) : (0 <= q)%Q -> (0 <= Js.double q)%Q.
Proof.
  intros Hq. unfold Js.double.
  destruct (Qnum q) as [|a|a] eqn:Ea.
  - apply Qle_refl.
  - apply doublePos_nonneg; lia.
  - unfold Qle in Hq. simpl in Hq. rewrite Ea in Hq. lia.
Qed.

Lemma double_le_int (q : Q) (N : Z) :
  0 <= N < 2 ^ 40 -> (q <= inject_Z N)%Q -> (Js.double q <= inject_Z N)%Q.
Proof.
  intros HN Hq. unfold Js.double.
  destruct (Qnum q) as [|a|a] eqn:Ea.
  - unfold Qle; simpl; lia.
  - apply doublePos_le_int; try lia.
    unfold Qle in Hq. simpl in Hq. rewrite Ea in Hq. lia.
  - pose proof (doublePos_nonneg (Z.pos a) (Z.pos (Qden q)) ltac:(lia) ltac:(lia)) as H0.
    assert (H1 : (0 <= inject_Z N)%Q) by (unfold Qle; simpl; lia).
    lra.
Qed.

Lemma scoreBase_range (p : Provider) : 0 <= scoreBase p <= 13.
Proof.
  unfold scoreBase.
  destruct (Js.includes (business_impact p) "50%");
  destruct (Js.includes (business_impact p) "30%");
  destruct (Js.includes (business_impact p) "25%");
  destruct (String.eqb (complexity p) "low") eqn:El;
  destruct (String.eqb (complexity p) "very_low") eqn:Ev;
  destruct (String.eqb (complexity p) "medium") eqn:Em;
  try (apply String.eqb_eq in El; apply String.eqb_eq in Em; congruence);
  try (apply String.eqb_eq in Ev; apply String.eqb_eq in Em; congruence);
  cbn [orb]; lia.
Qed.

Lemma scoreRecommendation_range (p : Provider) :
  (0 <= scoreRecommendation p <= 18)%Q.
Proof.
  unfold scoreRecommendation.
  pose proof (scoreBase_range p) as [Hb0 Hb13].
  assert (H0 : (0 <= inject_Z (scoreBase p))%Q) by (unfold Qle; simpl; lia).
  assert (H13 : (inject_Z (scoreBase p) <= 13)%Q) by (unfold Qle; simpl; lia).
  destruct (firstNumber (roi p)) as [n|] eqn:E; [|split; [exact H0|lra]].
  pose proof (firstNumber_nonneg _ _ E) as Hn.
  unfold Js.add, Js.div.
  assert (Hq : (0 <= Qmin (Js.double (inject_Z n / 100)) 5)%Q).
  { apply Q.min_glb; [|discriminate]. apply double_nonneg.
    unfold Qdiv. apply Qmult_le_0_compat; [|discriminate].
    unfold Qle; simpl; lia. }
  pose proof (Q.le_min_r (Js.double (inject_Z n / 100)) 5) as H5.
  split; [apply double_nonneg; lra|].
  apply (double_le_int _ 18); [lia|].
  change (inject_Z 18) with 18%Q. lra.
Qed.

(** The three recommendations kept are the head of the stable order of
    the section by score. *)
Lemma bestRecommendations_refs (recs : list Provider) (m : MatchData) :
  map rec_ref (bestRecommendations recs m) =
  map providerRef (firstn 3 (Js.sortDesc scoreRecommendation recs)).
Proof.
  unfold bestRecommendations, Js.slice0.
  rewrite (sortDesc_map (fun r => (r, scoreRecommendation r)) (@snd Provider Q)).
  cbn [snd]. rewrite <- map_firstn_comm, !map_map. reflexivity.
Qed.

End ProviderSelection.

(** X8.  Given at least one match, [selectBestRecommendations] returns
    the best-scoring entries of the catalog section: min(3, size of the
    section) of them, the head of the section put in non-increasing
    order of [scoreRecommendation] with equal scores left in catalog
    order, so that no entry left out scores higher than one that was
    chosen; each is explained by the weakness of the first match; the
    score itself lies between 0 and 18. *)
Theorem selected_providers_are_the_best_scoring
    (recs : list Provider) (matches : list CodeReplacementAnalyzer.MatchData) :
  matches <> [] ->
  exists best chosen rest,
    CodeReplacementAnalyzer.selectBestRecommendations recs matches = Js.Ok best /\
    map CodeReplacementAnalyzer.rec_ref best = map providerRef chosen /\
    Js.stablySorted CodeReplacementAnalyzer.scoreRecommendation recs (chosen ++ rest) /\
    (List.length chosen = Nat.min 3 (List.length recs)) /\
    StronglySorted (fun a b => (CodeReplacementAnalyzer.scoreRecommendation b <=
                                CodeReplacementAnalyzer.scoreRecommendation a)%Q) chosen /\
    (forall a b, In a chosen -> In b rest ->
       (CodeReplacementAnalyzer.scoreRecommendation b <=
        CodeReplacementAnalyzer.scoreRecommendation a)%Q) /\
    (forall p, In p recs ->
       (0 <= CodeReplacementAnalyzer.scoreRecommendation p <= 18)%Q) /\
    (forall m ms, matches = m :: ms ->
       Forall (fun r => CodeReplacementAnalyzer.whyBetter r =
                        ("Löser: " ++ CodeReplacementAnalyzer.m_weakness m)%string) best).
Proof.
  intros Hm. destruct matches as [|m0 ms]; [contradiction|]. clear Hm.
  set (sorted := Js.sortDesc CodeReplacementAnalyzer.scoreRecommendation recs).
  assert (Hsorted : StronglySorted (Js.keyGe CodeReplacementAnalyzer.scoreRecommendation) sorted)
    by apply sortDesc_sorted.
  exists (CodeReplacementAnalyzer.bestRecommendations recs m0),
         (firstn 3 sorted), (skipn 3 sorted).
  split; [reflexivity|].
  split; [apply bestRecommendations_refs|].
  split; [rewrite firstn_skipn; apply sortDesc_stablySorted|].
  split; [rewrite length_firstn; unfold sorted; now rewrite sortDesc_length|].
  split; [exact (sorted_firstn CodeReplacementAnalyzer.scoreRecommendation 3 sorted Hsorted)|].
  split; [exact (sorted_split CodeReplacementAnalyzer.scoreRecommendation 3 sorted Hsorted)|].
  split; [intros p _; apply scoreRecommendation_range|].
  intros m ms' E. injection E as <- <-.
  unfold CodeReplacementAnalyzer.bestRecommendations.
  apply Forall_map_intro. intros a _. reflexivity.
Qed.

(** X9.  For every category of the analyzer's pattern table, impact
    and effort of an opportunity do not decrease when more matches are
    found, and they saturate: from 14 matches on the impact is 10 and
    from 24 matches on the effort is 10. *)
Theorem category_impact_and_effort_grow_and_saturate
    (db : ApiDatabase) (c : string) (n m : nat) :
  In c (map fst (CodeReplacementAnalyzer.buildCodePatterns db)) ->
  (n <= m)%nat ->
  CodeReplacementAnalyzer.calculateCategoryImpact c n <=
  CodeReplacementAnalyzer.calculateCategoryImpact c m /\
  CodeReplacementAnalyzer.estimateReplacementEffort c n <=
  CodeReplacementAnalyzer.estimateReplacementEffort c m /\
  ((14 <= n)%nat -> CodeReplacementAnalyzer.calculateCategoryImpact c n = 10) /\
  ((24 <= n)%nat -> CodeReplacementAnalyzer.estimateReplacementEffort c n = 10).
Proof.
  intros Hc Hnm. rewrite ReplacementFacts.cfg_keys in Hc.
  unfold CodeReplacementAnalyzer.calculateCategoryImpact,
         CodeReplacementAnalyzer.estimateReplacementEffort, Js.floor_div.
  assert (H2 : Z.of_nat n / 2 <= Z.of_nat m / 2) by (apply Z.div_le_mono; lia).
  assert (H3 : Z.of_nat n / 3 <= Z.of_nat m / 3) by (apply Z.div_le_mono; lia).
  assert (H14 : (14 <= n)%nat -> 7 <= Z.of_nat n / 2)
    by (intros; apply Z.div_le_lower_bound; lia).
  assert (H24 : (24 <= n)%nat -> 8 <= Z.of_nat n / 3)
    by (intros; apply Z.div_le_lower_bound; lia).
  repeat (destruct Hc as [<-|Hc];
          [set (bi := CodeReplacementAnalyzer.baseImpact _) in *;
           set (be := CodeReplacementAnalyzer.baseEffort _) in *;
           vm_compute in bi, be; subst bi be;
           repeat split; intros; lia|]).
  destruct Hc.
Qed.

Lemma category_impact_and_effort_witness :
  In "media" (map fst (CodeReplacementAnalyzer.buildCodePatterns Sample.db)) /\
  In "payments" (map fst (CodeReplacementAnalyzer.buildCodePatterns Sample.db)) /\
  CodeReplacementAnalyzer.calculateCategoryImpact "media" 3 = 4 /\
  CodeReplacementAnalyzer.calculateCategoryImpact "media" 3 <=
  CodeReplacementAnalyzer.calculateCategoryImpact "media" 14 /\
  CodeReplacementAnalyzer.estimateReplacementEffort "media" 3 <=
  CodeReplacementAnalyzer.estimateReplacementEffort "media" 14 /\
  CodeReplacementAnalyzer.calculateCategoryImpact "media" 14 = 10 /\
  CodeReplacementAnalyzer.estimateReplacementEffort "payments" 24 = 10.
Proof.
  assert (Hm : In "media" (map fst (CodeReplacementAnalyzer.buildCodePatterns Sample.db)))
    by (simpl; tauto).
  assert (Hp : In "payments" (map fst (CodeReplacementAnalyzer.buildCodePatterns Sample.db)))
    by (simpl; tauto).
  destruct (category_impact_and_effort_grow_and_saturate Sample.db "media" 3 14 Hm)
    as (H1 & H2 & _); [lia|].
  destruct (category_impact_and_effort_grow_and_saturate Sample.db "media" 14 14 Hm)
    as (_ & _ & H3 & _); [lia|].
  destruct (category_impact_and_effort_grow_and_saturate Sample.db "payments" 24 24 Hp)
    as (_ & _ & _ & H4); [lia|].
  split; [exact Hm|]. split; [exact Hp|]. split; [reflexivity|].
  split; [exact H1|]. split; [exact H2|]. split; [apply H3; lia | apply H4; lia].
Defined.

(* ===================================================================== *)
(** ** The deep analyzer *)
(* ===================================================================== *)

(** X10.  For every project the deep analyzer returns exactly one
    suggestion: the finding 'security_upgrade' of category 'security'
    with confidence 0.95 and at most three providers, whose impact is 6
    plus the number of issues found, capped at 10, and whose effort is
    that number, but at least 3.  No performance, monitoring or quality
    finding is ever returned. *)
Theorem deep_analyzer_returns_one_security_finding
    (db : ApiDatabase) (read : Fs.Reader) (files : list Fs.FileRecord) :
  let issues := Z.of_nat (List.length (DeepCodeAnalyzer.analyzeSecurityInCode
                                         (DeepCodeAnalyzer.readEntireCodebase read files))) in
  exists r,
    DeepCodeAnalyzer.suggestions db read files = [r] /\
    DeepCodeAnalyzer.id r = "security_upgrade" /\
    DeepCodeAnalyzer.category r = "security" /\
    DeepCodeAnalyzer.impact r = Z.min 10 (6 + issues) /\
    DeepCodeAnalyzer.effort r = Z.max 3 issues /\
    (DeepCodeAnalyzer.confidence r == 95 # 100)%Q /\
    (List.length (DeepCodeAnalyzer.providers r) <= 3)%nat.
Proof.
  cbv zeta.
  set (cb := DeepCodeAnalyzer.readEntireCodebase read files).
  exists (DeepCodeAnalyzer.createSecurityRecommendation db cb).
  split.
  - unfold DeepCodeAnalyzer.suggestions, DeepCodeAnalyzer.generateIntelligentRecommendations,
           DeepCodeAnalyzer.identifyProblems.
    fold cb.
    destruct (negb (Regex.test DeepCodeAnalyzer.reCache (DeepCodeAnalyzer.allCode cb)));
      destruct (negb (Regex.test DeepCodeAnalyzer.reObserve (DeepCodeAnalyzer.allCode cb)));
      reflexivity.
  - destruct (Deep_ranges db cb) as (_ & _ & He & Hp).
    unfold DeepCodeAnalyzer.createSecurityRecommendation in *.
    cbn [DeepCodeAnalyzer.id DeepCodeAnalyzer.category DeepCodeAnalyzer.impact
         DeepCodeAnalyzer.effort DeepCodeAnalyzer.confidence DeepCodeAnalyzer.providers] in *.
    unfold DeepCodeAnalyzer.identifySpecificSecurityIssues. rewrite length_map.
    repeat split; try reflexivity. exact Hp.
Qed.

Lemma linesIssues_lines (filePath content : string) (ls : list string) (k : nat)
    (i : DeepCodeAnalyzer.Issue) :
  In i (DeepCodeAnalyzer.linesIssues filePath content ls k) ->
  exists j line,
    nth_error ls j = Some line /\
    In i (DeepCodeAnalyzer.lineIssues filePath content line (k + j)).
Proof.
  revert k. induction ls as [|l rest IH]; intros k H; simpl in H; [destruct H|].
  apply in_app_or in H. destruct H as [H|H].
  - exists O, l. split; [reflexivity|]. now rewrite Nat.add_0_r.
  - destruct (IH (S k) H) as (j & line & Hn & Hi).
    exists (S j), line. split; [exact Hn|]. now rewrite Nat.add_succ_r.
Qed.

(** X11.  Every security issue the deep analyzer reports points at a
    line that exists: its file is one of the files read, its line number
    is the 1-based position of a line of that file, and that line
    contains 'req.body' in a file that nowhere contains 'validate',
    'joi' or 'yup' (unvalidated input), or contains 'query', '+' and one
    of 'req.' and '${' (SQL injection). *)
Theorem deep_issues_point_at_lines
    (cb : DeepCodeAnalyzer.Codebase) (i : DeepCodeAnalyzer.Issue) :
  In i (DeepCodeAnalyzer.analyzeSecurityInCode cb) ->
  exists content line,
    In (DeepCodeAnalyzer.issue_file i, content) (DeepCodeAnalyzer.fileContents cb) /\
    (1 <= DeepCodeAnalyzer.issue_line i <= List.length (Fs.lines content))%nat /\
    nth_error (Fs.lines content) (DeepCodeAnalyzer.issue_line i - 1) = Some line /\
    match DeepCodeAnalyzer.issue_type i with
    | DeepCodeAnalyzer.unvalidated_input =>
        Js.includes line "req.body" = true /\
        Js.includes content "validate" = false /\
        Js.includes content "joi" = false /\
        Js.includes content "yup" = false
    | DeepCodeAnalyzer.sql_injection =>
        Js.includes line "query" = true /\ Js.includes line "+" = true /\
        (Js.includes line "req." = true \/ Js.includes line "${" = true)
    end.
Proof.
  intros H. unfold DeepCodeAnalyzer.analyzeSecurityInCode in H.
  apply in_flat_map in H. destruct H as ([filePath content] & Hin & Hi).
  cbn [fst snd] in Hi.
  destruct (linesIssues_lines _ _ _ _ _ Hi) as (j & line & Hn & Hl).
  cbn [Nat.add] in Hl.
  assert (Hj : (j < List.length (Fs.lines content))%nat)
    by (apply nth_error_Some; rewrite Hn; discriminate).
  exists content, line.
  unfold DeepCodeAnalyzer.lineIssues in Hl. apply in_app_or in Hl.
  destruct Hl as [Hl|Hl].
  - destruct (Js.includes line "req.body") eqn:E1; [|destruct Hl].
    destruct (Js.includes content "validate") eqn:E2; [destruct Hl|].
    destruct (Js.includes content "joi") eqn:E3; [destruct Hl|].
    destruct (Js.includes content "yup") eqn:E4; [destruct Hl|].
    destruct Hl as [<-|[]]. cbn.
    rewrite Nat.sub_0_r. repeat split; try assumption; lia.
  - destruct (Js.includes line "query") eqn:E1; [|destruct Hl].
    destruct (Js.includes line "+") eqn:E2; [|destruct Hl].
    destruct (Js.includes line "req.") eqn:E3;
      [|destruct (Js.includes line "${") eqn:E4; [|destruct Hl]].
    + destruct Hl as [<-|[]]. cbn.
      rewrite Nat.sub_0_r. repeat split; try assumption; try lia; try (now left).
    + destruct Hl as [<-|[]]. cbn.
      rewrite Nat.sub_0_r. repeat split; try assumption; try lia; try (now right).
Qed.

Lemma deep_issues_point_at_lines_witness :
  exists content line,
    In ("/handlers.js", content)
       (DeepCodeAnalyzer.fileContents
          (DeepCodeAnalyzer.readEntireCodebase Sample.readHandlers Sample.handlerFiles)) /\
    (1 <= 3 <= List.length (Fs.lines content))%nat /\
    nth_error (Fs.lines content) (3 - 1) = Some line /\
    Js.includes line "req.body" = true /\
    Js.includes content "validate" = false /\
    Js.includes content "joi" = false /\
    Js.includes content "yup" = false.
Proof.
  apply (deep_issues_point_at_lines
           (DeepCodeAnalyzer.readEntireCodebase Sample.readHandlers Sample.handlerFiles)
           {| DeepCodeAnalyzer.issue_type := DeepCodeAnalyzer.unvalidated_input;
              DeepCodeAnalyzer.issue_file := "/handlers.js";
              DeepCodeAnalyzer.issue_line := 3 |}).
  vm_compute. right. right. left. reflexivity.
Defined.

(* ===================================================================== *)
(** ** The intelligent analyzer *)
(* ===================================================================== *)

Ltac nodup_strings :=
  repeat (constructor;
          [cbn [In]; let H := fresh in
           intros H; repeat (destruct H as [H|H]; [discriminate H|]); exact H |]);
  constructor.

Ltac in_strings := cbn [In]; repeat (first [left; reflexivity | right]).

Section IntelligentFacts.
Import IntelligentCodeAnalyzer.

Lemma intelligenceScore_range (a : CodeAnalysis) (ctx : ProjectContext) (t : string) :
  (50 <= calculateIntelligenceScore a ctx t <= 100)%Q.
Proof.
  unfold calculateIntelligenceScore.
  split; [|apply Q.le_min_l].
  apply Q.min_glb; [discriminate|].
  assert (H0 : (0 <= Qmin 30 (inject_Z (Z.of_nat (totalLines (scan a))) / 1000))%Q).
  { apply Q.min_glb; [discriminate|].
    unfold Qdiv. apply Qmult_le_0_compat; [|discriminate].
    unfold Qle; simpl; lia. }
  set (x := Qmin 30 (inject_Z (Z.of_nat (totalLines (scan a))) / 1000)) in *.
  clearbody x.
  destruct (String.eqb (maturity ctx) "mature");
    destruct (String.eqb (maturity ctx) "developing");
    destruct (Js.arr_includes (relevanceMap t) (type ctx)); lra.
Qed.

Lemma multiplier_range (sc : string) : 1 <= multiplier sc <= 3.
Proof.
  unfold multiplier.
  destruct (String.eqb sc "enterprise"); [lia|].
  destruct (String.eqb sc "medium"); lia.
Qed.

Lemma relevant_providers_bound (db : ApiDatabase) (c : string) :
  (List.length (getRelevantProviders db c) <= 2)%nat.
Proof. unfold getRelevantProviders. apply slice_map_length. Qed.

Lemma rec_bounds i t c im ef co sc ps :
  5 <= im <= 9 -> 2 <= ef <= 5 -> (7 # 10 <= co <= 9 # 10)%Q ->
  (List.length ps <= 2)%nat -> (50 <= sc <= 100)%Q ->
  let f := finding (rec i t c im ef co sc ps) in
  5 <= impact f <= 9 /\ 2 <= effort f <= 5 /\
  (7 # 10 <= confidence f <= 9 # 10)%Q /\
  (List.length (providers f) <= 2)%nat /\
  (50 <= intelligenceScore (rec i t c im ef co sc ps) <= 100)%Q.
Proof. intros. cbn. repeat split; tauto. Qed.

Lemma specific_bounds db a ctx ds :
  Forall (fun r =>
            let f := finding r in
            5 <= impact f <= 9 /\ 2 <= effort f <= 5 /\
            (7 # 10 <= confidence f <= 9 # 10)%Q /\
            (List.length (providers f) <= 2)%nat /\
            (50 <= intelligenceScore r <= 100)%Q)
         (analyzeDataStorageImprovements db a ctx ds
          ++ analyzePerformanceImprovements db a ctx
          ++ analyzeSecurityImprovements db a ctx
          ++ analyzeUserExperienceImprovements db a ctx
          ++ analyzeMonitoringImprovements db a ctx).
Proof.
  pose proof (multiplier_range (scale ctx)) as Hm.
  unfold analyzeDataStorageImprovements, analyzePerformanceImprovements,
         analyzeSecurityImprovements, analyzeUserExperienceImprovements,
         analyzeMonitoringImprovements.
  repeat (apply Forall_app; split); apply Forall_when; apply rec_bounds;
    try lia; try (split; discriminate);
    try apply relevant_providers_bound; apply intelligenceScore_range.
Qed.

Lemma fallback_bounds db a :
  Forall (fun r =>
            let f := finding r in
            5 <= impact f <= 9 /\ 2 <= effort f <= 5 /\
            (7 # 10 <= confidence f <= 9 # 10)%Q /\
            (List.length (providers f) <= 2)%nat /\
            (50 <= intelligenceScore r <= 100)%Q)
         (generateFallbackRecommendations db a).
Proof.
  unfold generateFallbackRecommendations.
  repeat (apply Forall_app; split); apply Forall_when; apply rec_bounds;
    try lia; try (split; discriminate); apply relevant_providers_bound.
Qed.

Lemma specific_names db a ctx ds :
  let all := analyzeDataStorageImprovements db a ctx ds
             ++ analyzePerformanceImprovements db a ctx
             ++ analyzeSecurityImprovements db a ctx
             ++ analyzeUserExperienceImprovements db a ctx
             ++ analyzeMonitoringImprovements db a ctx in
  (List.length all <= 5)%nat /\
  NoDup (map (fun r => category (finding r)) all) /\
  NoDup (map (fun r => id (finding r)) all) /\
  Forall (fun r => In (id (finding r))
                      ["add_caching"; "add_monitoring"; "add_validation";
                       "improve_error_handling"; "add_analytics"]) all.
Proof.
  cbv zeta.
  unfold analyzeDataStorageImprovements, analyzePerformanceImprovements,
         analyzeSecurityImprovements, analyzeUserExperienceImprovements,
         analyzeMonitoringImprovements, rec.
  generalize (calculateIntelligenceScore a ctx "caching")
             (calculateIntelligenceScore a ctx "monitoring")
             (calculateIntelligenceScore a ctx "security")
             (calculateIntelligenceScore a ctx "ux")
             (calculateIntelligenceScore a ctx "analytics")
             (getRelevantProviders db "caching") (getRelevantProviders db "monitoring")
             (getRelevantProviders db "security") (getRelevantProviders db "ux")
             (getRelevantProviders db "analytics")
             (Z.min 9 (5 + multiplier (scale ctx))).
  intros q1 q2 q3 q4 q5 p1 p2 p3 p4 p5 z.
  clear.
  repeat match goal with
         | |- context [if ?b then _ :: _ else []] => destruct b
         end;
    cbn [app map List.length finding id category];
    (split; [lia|]);
    (split; [nodup_strings|]);
    (split; [nodup_strings|]);
    repeat (constructor; [in_strings|]); constructor.
Qed.

Lemma fallback_names db a :
  let l := generateFallbackRecommendations db a in
  (List.length l <= 5)%nat /\
  NoDup (map (fun r => category (finding r)) l) /\
  NoDup (map (fun r => id (finding r)) l) /\
  Forall (fun r => In (id (finding r)) ["improve_documentation"; "add_testing"]) l.
Proof.
  cbv zeta. unfold generateFallbackRecommendations, rec.
  generalize (getRelevantProviders db "documentation") (getRelevantProviders db "quality").
  intros p1 p2. clear.
  repeat match goal with
         | |- context [if ?b then _ :: _ else []] => destruct b
         end;
    cbn [app map List.length finding id category];
    (split; [lia|]);
    (split; [nodup_strings|]);
    (split; [nodup_strings|]);
    repeat (constructor; [in_strings|]); constructor.
Qed.

End IntelligentFacts.

(** X12.  The suggestions of the intelligent analyzer, for every
    catalog, code analysis and context: at most five, in non-increasing
    order of intelligence score, with pairwise distinct categories and
    ids; each has an impact from 5 to 9, an effort from 2 to 5, a
    confidence from 0.7 to 0.9, at most two providers and a score from
    50 to 100; and the general findings (documentation, testing) never
    appear together with a specific one. *)
Theorem intelligent_suggestions_bounds
    (db : ApiDatabase) (a : IntelligentCodeAnalyzer.CodeAnalysis)
    (ctx : IntelligentCodeAnalyzer.ProjectContext)
    (dataStorage : IntelligentCodeAnalyzer.Solution) :
  let l := IntelligentCodeAnalyzer.generateIntelligentRecommendations db a ctx dataStorage in
  (List.length l <= 5)%nat /\
  StronglySorted (Js.keyGe IntelligentCodeAnalyzer.intelligenceScore) l /\
  NoDup (map (fun r => category (IntelligentCodeAnalyzer.finding r)) l) /\
  NoDup (map (fun r => id (IntelligentCodeAnalyzer.finding r)) l) /\
  Forall (fun r =>
            let f := IntelligentCodeAnalyzer.finding r in
            5 <= impact f <= 9 /\ 2 <= effort f <= 5 /\
            (7 # 10 <= confidence f <= 9 # 10)%Q /\
            (List.length (providers f) <= 2)%nat /\
            (50 <= IntelligentCodeAnalyzer.intelligenceScore r <= 100)%Q) l /\
  (Forall (fun r => In (id (IntelligentCodeAnalyzer.finding r))
                       ["improve_documentation"; "add_testing"]) l \/
   Forall (fun r => In (id (IntelligentCodeAnalyzer.finding r))
                       ["add_caching"; "add_monitoring"; "add_validation";
                        "improve_error_handling"; "add_analytics"]) l).
Proof.
  cbv zeta.
  unfold IntelligentCodeAnalyzer.generateIntelligentRecommendations.
  pose proof (specific_bounds db a ctx dataStorage) as Hb1.
  pose proof (fallback_bounds db a) as Hb2.
  pose proof (specific_names db a ctx dataStorage) as Hn1.
  pose proof (fallback_names db a) as Hn2.
  cbv zeta in Hn1, Hn2.
  set (all := IntelligentCodeAnalyzer.analyzeDataStorageImprovements db a ctx dataStorage
              ++ IntelligentCodeAnalyzer.analyzePerformanceImprovements db a ctx
              ++ IntelligentCodeAnalyzer.analyzeSecurityImprovements db a ctx
              ++ IntelligentCodeAnalyzer.analyzeUserExperienceImprovements db a ctx
              ++ IntelligentCodeAnalyzer.analyzeMonitoringImprovements db a ctx) in *.
  set (pre := match all with
              | [] => IntelligentCodeAnalyzer.generateFallbackRecommendations db a
              | _ :: _ => all
              end).
  assert (Hpre :
    (List.length pre <= 5)%nat /\
    NoDup (map (fun r => category (IntelligentCodeAnalyzer.finding r)) pre) /\
    NoDup (map (fun r => id (IntelligentCodeAnalyzer.finding r)) pre) /\
    Forall (fun r =>
              let f := IntelligentCodeAnalyzer.finding r in
              5 <= impact f <= 9 /\ 2 <= effort f <= 5 /\
              (7 # 10 <= confidence f <= 9 # 10)%Q /\
              (List.length (providers f) <= 2)%nat /\
              (50 <= IntelligentCodeAnalyzer.intelligenceScore r <= 100)%Q) pre /\
    (Forall (fun r => In (id (IntelligentCodeAnalyzer.finding r))
                         ["improve_documentation"; "add_testing"]) pre \/
     Forall (fun r => In (id (IntelligentCodeAnalyzer.finding r))
                         ["add_caching"; "add_monitoring"; "add_validation";
                          "improve_error_handling"; "add_analytics"]) pre)).
  { subst pre. clearbody all. destruct all as [|r0 all'].
    - destruct Hn2 as (H1 & H2 & H3 & H4). repeat split; try assumption. now left.
    - destruct Hn1 as (H1 & H2 & H3 & H4). repeat split; try assumption. now right. }
  destruct Hpre as (Hlen & Hcat & Hid & Hall & Hkind).
  split; [rewrite sortDesc_length; exact Hlen|].
  split; [apply sortDesc_sorted|].
  split.
  { eapply Permutation_NoDup; [|exact Hcat].
    apply Permutation_map, Permutation_sym, sortDesc_perm. }
  split.
  { eapply Permutation_NoDup; [|exact Hid].
    apply Permutation_map, Permutation_sym, sortDesc_perm. }
  split; [apply Forall_sortDesc; exact Hall|].
  destruct Hkind as [H|H]; [left|right]; apply Forall_sortDesc; exact H.
Qed.

(* ===================================================================== *)
(** ** Projects without readable code *)
(* ===================================================================== *)

Lemma Intelligent_nothing_to_read read fs s :
  Forall (fun f => andb (IntelligentCodeAnalyzer.isCodeFile (Fs.ext f))
                        (Fs.readable read f) = false) fs ->
  IntelligentCodeAnalyzer.readFiles read fs s = s.
Proof.
  induction 1 as [|f r Hf _ IH]; [reflexivity|].
  simpl. unfold Fs.readable in Hf.
  destruct (IntelligentCodeAnalyzer.isCodeFile (Fs.ext f)); [|exact IH].
  destruct (read (Fs.path f)); [discriminate|exact IH].
Qed.

Lemma Deep_nothing_to_read read fs cb :
  Forall (fun f => andb (DeepCodeAnalyzer.isAnalyzableFile (Fs.ext f))
                        (Fs.readable read f) = false) fs ->
  DeepCodeAnalyzer.readFiles read fs cb = cb.
Proof.
  induction 1 as [|f r Hf _ IH]; [reflexivity|].
  simpl. unfold Fs.readable in Hf.
  destruct (DeepCodeAnalyzer.isAnalyzableFile (Fs.ext f)); [|exact IH].
  destruct (read (Fs.path f)); [discriminate|exact IH].
Qed.

Lemma Replacement_nothing_to_read cfg read fs m :
  Forall (fun f => andb (CodeReplacementAnalyzer.isCodeFile (Fs.ext f))
                        (Fs.readable read f) = false) fs ->
  CodeReplacementAnalyzer.scanFiles cfg read fs m = m.
Proof.
  induction 1 as [|f r Hf _ IH]; [reflexivity|].
  simpl. unfold Fs.readable in Hf.
  destruct (CodeReplacementAnalyzer.isCodeFile (Fs.ext f)); [|exact IH].
  destruct (read (Fs.path f)); [discriminate|exact IH].
Qed.

(** X13.  A project in which no file with a scanned extension can be
    read (only documentation and images, say, or only files the process
    may not open) is analysed like the empty project: the intelligent
    analyzer reports the context type 'unknown' and no suggestion, the
    replacement analyzer returns no suggestion, and the deep analyzer
    returns its security finding with impact 6 and effort 3. *)
Theorem project_without_readable_code_is_analysed_as_empty
    (db : ApiDatabase) (read : Fs.Reader) (fs : list Fs.FileRecord) :
  (Forall (fun f => andb (IntelligentCodeAnalyzer.isCodeFile (Fs.ext f))
                         (Fs.readable read f) = false) fs ->
   IntelligentCodeAnalyzer.analyzeCodeIntelligently db read fs =
   IntelligentCodeAnalyzer.analyzeCodeIntelligently db read [] /\
   exists o,
     IntelligentCodeAnalyzer.analyzeCodeIntelligently db read fs = Js.Ok o /\
     IntelligentCodeAnalyzer.type (IntelligentCodeAnalyzer.projectContext o) = "unknown" /\
     IntelligentCodeAnalyzer.suggestions o = []) /\
  (Forall (fun f => andb (CodeReplacementAnalyzer.isCodeFile (Fs.ext f))
                         (Fs.readable read f) = false) fs ->
   exists o,
     CodeReplacementAnalyzer.analyzeCodeForReplacements db read fs = Js.Ok o /\
     CodeReplacementAnalyzer.suggestions o = [] /\
     CodeReplacementAnalyzer.replacementOpportunities o = O) /\
  (Forall (fun f => andb (DeepCodeAnalyzer.isAnalyzableFile (Fs.ext f))
                         (Fs.readable read f) = false) fs ->
   exists r,
     DeepCodeAnalyzer.suggestions db read fs = [r] /\
     DeepCodeAnalyzer.impact r = 6 /\ DeepCodeAnalyzer.effort r = 3).
Proof.
  repeat split.
  - unfold IntelligentCodeAnalyzer.analyzeCodeIntelligently,
           IntelligentCodeAnalyzer.performDeepCodeAnalysis.
    now rewrite Intelligent_nothing_to_read.
  - unfold IntelligentCodeAnalyzer.analyzeCodeIntelligently,
           IntelligentCodeAnalyzer.performDeepCodeAnalysis.
    rewrite Intelligent_nothing_to_read by assumption.
    eexists. split; [reflexivity|]. split; reflexivity.
  - intros H.
    unfold CodeReplacementAnalyzer.analyzeCodeForReplacements,
           CodeReplacementAnalyzer.scanCodebase,
           CodeReplacementAnalyzer.findReplacementOpportunities.
    cbn [CodeReplacementAnalyzer.cb_patterns].
    rewrite Replacement_nothing_to_read by assumption.
    eexists. split; [reflexivity|]. split; reflexivity.
  - intros H.
    unfold DeepCodeAnalyzer.suggestions, DeepCodeAnalyzer.readEntireCodebase.
    rewrite Deep_nothing_to_read by assumption.
    eexists. split; [reflexivity|]. split; reflexivity.
Qed.

Lemma project_without_readable_code_witness :
  let fs := [ {| Fs.path := "/README.md"; Fs.ext := ".md" |};
              {| Fs.path := "/locked.js"; Fs.ext := ".js" |} ] in
  (exists o,
     IntelligentCodeAnalyzer.analyzeCodeIntelligently Sample.db Sample.read fs = Js.Ok o /\
     IntelligentCodeAnalyzer.type (IntelligentCodeAnalyzer.projectContext o) = "unknown" /\
     IntelligentCodeAnalyzer.suggestions o = []) /\
  (exists o,
     CodeReplacementAnalyzer.analyzeCodeForReplacements Sample.db Sample.read fs = Js.Ok o /\
     CodeReplacementAnalyzer.suggestions o = [] /\
     CodeReplacementAnalyzer.replacementOpportunities o = O) /\
  (exists r,
     DeepCodeAnalyzer.suggestions Sample.db Sample.read fs = [r] /\
     DeepCodeAnalyzer.impact r = 6 /\ DeepCodeAnalyzer.effort r = 3).
Proof.
  cbv zeta.
  destruct (project_without_readable_code_is_analysed_as_empty Sample.db Sample.read
              [ {| Fs.path := "/README.md"; Fs.ext := ".md" |};
                {| Fs.path := "/locked.js"; Fs.ext := ".js" |} ]) as (H1 & H2 & H3).
  split; [apply H1; repeat constructor|].
  split; [apply H2; repeat constructor | apply H3; repeat constructor].
Defined.

(* ===================================================================== *)
(** ** The enhanced analyzer of the chain *)
(* ===================================================================== *)

Section SimpleFacts.
Import EnhancedAnalyzerSimple.

(** The scan never writes the five flags below: they keep their initial
    value [false]. *)
Lemma scanFiles_unwritten_flags read files acc :
  let p := fst (scanFiles read files acc) in
  hasChatbot p = hasChatbot (fst acc) /\ hasSearch p = hasSearch (fst acc) /\
  hasRecommendations p = hasRecommendations (fst acc) /\
  hasCheckout p = hasCheckout (fst acc) /\ hasAuth p = hasAuth (fst acc).
Proof.
  cbv zeta. revert acc. induction files as [|f r IH]; intros acc; simpl; [tauto|].
  destruct (isScanned (Fs.ext f)); [|apply IH].
  destruct (read (Fs.path f)); [|apply IH].
  destruct (IH (notePatterns a (fst acc), (snd acc ++ a ++ " ")%string))
    as (H1 & H2 & H3 & H4 & H5).
  cbn [fst] in *. rewrite H1, H2, H3, H4, H5. repeat split.
Qed.

Lemma detect_unwritten_flags read files :
  let p := detectAdvancedPatterns read files in
  hasChatbot p = false /\ hasSearch p = false /\ hasRecommendations p = false /\
  hasCheckout p = false /\ hasAuth p = false.
Proof.
  cbv zeta. unfold detectAdvancedPatterns.
  pose proof (scanFiles_unwritten_flags read files (initialPatterns, EmptyString)) as H.
  cbv zeta in H. destruct (scanFiles read files (initialPatterns, EmptyString)) as [p c].
  cbn [fst] in H. exact H.
Qed.

Lemma context_kinds read files pkg :
  let c := inferBusinessContext read files pkg in
  (type c = "ecommerce" /\ audience c = "customer") \/
  (type c = "public_website" /\ audience c = "public") \/
  (type c = "internal_tool" /\ audience c = "internal") \/
  (type c = "api_service" /\ audience c = "developers").
Proof.
  cbv zeta. unfold inferBusinessContext.
  destruct pkg as [| |p]; [right; right; left; split; reflexivity ..|].
  cbv zeta.
  repeat match goal with
         | |- context [if ?b then (_, _, _) else _] => destruct b
         end; cbn; tauto.
Qed.

End SimpleFacts.

(** X14.  What the enhanced analyzer of the chain returns is fixed by
    the context type alone.  For an e-commerce project it is always the
    same four findings in the same order (payment optimisation, chatbot,
    personalisation, search); for a public website or an API service it
    is nothing; for an internal tool it is a selection of the database,
    authentication and reporting findings.  Without a usable
    package.json the context is the initial one, an internal tool. *)
Theorem enhanced_findings_follow_context_type
    (db : ApiDatabase) (read : Fs.Reader) (files : list Fs.FileRecord) (pkg : PkgFile) :
  exists o,
    EnhancedAnalyzerSimple.analyzeProjectAdvanced db read files pkg = Js.Ok o /\
    let ctx := EnhancedAnalyzerSimple.businessContext o in
    let ids := map (fun r => id (EnhancedAnalyzerSimple.finding r))
                   (EnhancedAnalyzerSimple.suggestions o) in
    ((EnhancedAnalyzerSimple.type ctx = "ecommerce" /\
      ids = ["payment-optimization"; "ai-chatbot"; "personalization"; "advanced-search"]) \/
     ((EnhancedAnalyzerSimple.type ctx = "public_website" \/
       EnhancedAnalyzerSimple.type ctx = "api_service") /\ ids = []) \/
     (EnhancedAnalyzerSimple.type ctx = "internal_tool" /\
      incl ids ["database-optimization"; "auth-improvement"; "reporting-system"])) /\
    match pkg with
    | Pkg _ => True
    | _ => ctx = EnhancedAnalyzerSimple.defaultContext
    end.
Proof.
  eexists. split; [reflexivity|].
  cbn [EnhancedAnalyzerSimple.businessContext EnhancedAnalyzerSimple.suggestions].
  cbv zeta. split; [|destruct pkg; reflexivity].
  pose proof (detect_unwritten_flags read files) as Hf. cbv zeta in Hf.
  destruct Hf as (Hchat & Hsearch & Hrec & Hcheck & Hauth).
  pose proof (context_kinds read files pkg) as Hk. cbv zeta in Hk.
  set (p := EnhancedAnalyzerSimple.detectAdvancedPatterns read files) in *.
  set (c := EnhancedAnalyzerSimple.inferBusinessContext read files pkg) in *.
  clearbody p c.
  unfold EnhancedAnalyzerSimple.generateEnhancedSuggestions.
  rewrite Hchat, Hsearch, Hrec, Hcheck, Hauth.
  destruct Hk as [[Ht Ha]|[[Ht Ha]|[[Ht Ha]|[Ht Ha]]]]; rewrite Ht, Ha.
  - left. split; [reflexivity|]. vm_compute. reflexivity.
  - right. left. split; [now left|].
    cbn [String.eqb Ascii.eqb Bool.eqb andb negb app].
    destruct (EnhancedAnalyzerSimple.hasDatabase p),
             (EnhancedAnalyzerSimple.hasCaching p),
             (EnhancedAnalyzerSimple.hasUserManagement p),
             (EnhancedAnalyzerSimple.hasDataManagement p),
             (EnhancedAnalyzerSimple.hasReporting p); reflexivity.
  - right. right. split; [reflexivity|].
    destruct (EnhancedAnalyzerSimple.hasDatabase p),
             (EnhancedAnalyzerSimple.hasCaching p),
             (EnhancedAnalyzerSimple.hasUserManagement p),
             (EnhancedAnalyzerSimple.hasDataManagement p),
             (EnhancedAnalyzerSimple.hasReporting p);
      vm_compute; intros x Hx; tauto.
  - right. left. split; [now right|].
    destruct (EnhancedAnalyzerSimple.hasDatabase p),
             (EnhancedAnalyzerSimple.hasCaching p),
             (EnhancedAnalyzerSimple.hasUserManagement p),
             (EnhancedAnalyzerSimple.hasDataManagement p),
             (EnhancedAnalyzerSimple.hasReporting p); reflexivity.
Qed.

(** X15.  Every finding the enhanced analyzer of the chain returns has
    the priority label 'high', an impact from 8 to 10, an effort from 3
    to 7 and a confidence from 0.85 to 0.95; it carries at most three
    providers, except the search finding, which carries the whole search
    section of the catalog. *)
Theorem enhanced_findings_are_all_high_priority
    (db : ApiDatabase) (read : Fs.Reader) (files : list Fs.FileRecord) (pkg : PkgFile) :
  exists o,
    EnhancedAnalyzerSimple.analyzeProjectAdvanced db read files pkg = Js.Ok o /\
    Forall (fun r =>
              let f := EnhancedAnalyzerSimple.finding r in
              EnhancedAnalyzerSimple.priority r = "high" /\
              8 <= impact f <= 10 /\ 3 <= effort f <= 7 /\
              (85 # 100 <= confidence f <= 95 # 100)%Q /\
              (if String.eqb (id f) "advanced-search"
               then providers f = map providerRef (search db)
               else (List.length (providers f) <= 3)%nat))
           (EnhancedAnalyzerSimple.suggestions o).
Proof.
  eexists. split; [reflexivity|].
  cbn [EnhancedAnalyzerSimple.suggestions].
  unfold EnhancedAnalyzerSimple.rankSuggestions.
  apply Forall_sortDesc. apply Forall_map_intro. intros f Hf.
  cbn [EnhancedAnalyzerSimple.finding EnhancedAnalyzerSimple.priority].
  revert f Hf. apply Forall_forall.
  unfold EnhancedAnalyzerSimple.generateEnhancedSuggestions.
  repeat (apply Forall_app; split);
    apply Forall_when; cbn [impact effort confidence id providers];
    (split; [reflexivity|]); (split; [lia|]); (split; [lia|]);
    (split; [split; unfold Qle; simpl; lia|]).
  - apply slice_map_length.
  - cbn [List.length String.eqb Ascii.eqb Bool.eqb]. lia.
  - pose proof (slice_map_length providerRef 2 (authentication db)).
    cbn [String.eqb Ascii.eqb Bool.eqb]. lia.
  - cbn [List.length String.eqb Ascii.eqb Bool.eqb].
    pose proof (slice_map_length providerRef 2
                  (filter (fun p => String.eqb (provider_category p) "enterprise_ai")
                     (ai_ml db))). lia.
  - cbn [List.length String.eqb Ascii.eqb Bool.eqb]. lia.
  - reflexivity.
  - apply slice_map_length.
Qed.

(* ===================================================================== *)
(** ** The baseline analyzer and the stored scan *)
(* ===================================================================== *)

Section BaselineFacts.
Import CodeAnalyzer.

Lemma analyzeProject_suggestions read files pkg o :
  analyzeProject read files pkg = Js.Ok o ->
  suggestions o = rankSuggestions (generateSuggestions (out_patterns o) (out_dependencies o)) /\
  codeSnippets o = generateCodeSnippets (Js.slice0 3 (suggestions o)).
Proof.
  unfold analyzeProject.
  destruct (analyzeDependencies pkg) as [d|e]; [|discriminate].
  destruct (detectPatterns read files) as [p|e]; [|discriminate].
  destruct (checkGDPRRisks read files) as [r|e]; [|discriminate].
  cbn [Js.bind]. intros H. injection H as <-. split; reflexivity.
Qed.

(** The eight shapes of the generated list. *)
Lemma generateSuggestions_cases p d :
  generateSuggestions p d =
  (if hasChat p then [] else [chatbot])
  ++ (if hasSearch p then [] else [betterSearch])
  ++ [recommendations; monitoringSuggestion; contentGeneration]
  ++ (match security d with [] => [] | _ :: _ => [dependencyRisks] end).
Proof.
  unfold generateSuggestions.
  destruct (hasChat p), (hasSearch p), (security d); reflexivity.
Qed.

End BaselineFacts.

(** X16.  The baseline analyzer returns between three and six
    suggestions, among them always the recommendation, monitoring and
    content suggestions.  Of its two code snippets, the chatbot route is
    generated exactly when no chat code was detected, and the
    recommendation engine exactly when chat and search code were both
    detected and no risky dependency was found; they are never generated
    together. *)
Theorem baseline_suggestions_and_snippets
    (p : CodeAnalyzer.Patterns) (d : CodeAnalyzer.Dependencies) :
  let ranked := CodeAnalyzer.rankSuggestions (CodeAnalyzer.generateSuggestions p d) in
  (3 <= List.length ranked <= 6)%nat /\
  incl [CodeAnalyzer.recommendations; CodeAnalyzer.monitoringSuggestion;
        CodeAnalyzer.contentGeneration]
       (map CodeAnalyzer.suggestion ranked) /\
  CodeAnalyzer.generateCodeSnippets (Js.slice0 3 ranked) =
    if CodeAnalyzer.hasChat p
    then if andb (CodeAnalyzer.hasSearch p)
                 (Nat.eqb (List.length (CodeAnalyzer.security d)) 0)
         then ["Enkel Rekommendationsmotor"] else []
    else ["Express Chatbot Route"].
Proof.
  cbv zeta. rewrite generateSuggestions_cases.
  destruct (CodeAnalyzer.hasChat p), (CodeAnalyzer.hasSearch p),
           (CodeAnalyzer.security d) as [|x xs];
    (split; [vm_compute; split; lia|]);
    (split; [vm_compute; intros s Hs; tauto|]);
    vm_compute; reflexivity.
Qed.

Section ApiFacts.
Import Api.

Lemma storeFindings_length db l ids :
  storeFindings db l = Js.Ok ids -> List.length ids = List.length l.
Proof.
  revert ids. induction l as [|r l IH]; intros ids H; simpl in H.
  - injection H as <-. reflexivity.
  - destruct (createFinding db (findingOf r)); [|discriminate].
    destruct (storeFindings db l) as [ids'|e]; [|discriminate].
    cbn [Js.bind] in H. injection H as <-. simpl. f_equal. now apply IH.
Qed.

End ApiFacts.

(** X17.  When [processScan] stores the result of the baseline analyzer
    and marks the scan done: it stores between three and six findings,
    each with impact 'high' or 'medium' (never 'low'), effort 'low' or
    'medium' (never 'high'), confidence 0.8 and one of five lower-case
    categories; and the summary always says estimated impact 'high' and
    names as top suggestion the dependency, chatbot or monitoring
    suggestion, never 'No suggestions'. *)
Theorem stored_scan_levels
    (db : Api.Db) (scanned : Js.result Fs.Error Server.ScanResult)
    (read : Fs.Reader) (files : list Fs.FileRecord) (pkg : PkgFile)
    (rows : list Api.FindingRow) (summary : Api.Summary) :
  Api.processScan db scanned (fun _ => CodeAnalyzer.analyzeProject read files pkg)
  = Js.Ok (rows, summary) ->
  Forall (fun r =>
            In (Api.row_impact r) ["high"; "medium"] /\
            In (Api.row_effort r) ["low"; "medium"] /\
            In (Api.row_category r) ["ux"; "business"; "devops"; "content"; "security"] /\
            (Api.row_confidence r == 8 # 10)%Q) rows /\
  Api.findingsCount summary = List.length rows /\
  (3 <= List.length rows <= 6)%nat /\
  Api.estimatedImpact summary = "high" /\
  In (Api.topSuggestion summary)
     [CodeAnalyzer.title CodeAnalyzer.dependencyRisks;
      CodeAnalyzer.title CodeAnalyzer.chatbot;
      CodeAnalyzer.title CodeAnalyzer.monitoringSuggestion].
Proof.
  unfold Api.processScan.
  destruct (Api.updateScanStatus db "running"); [|discriminate].
  destruct scanned as [scanResult|e]; [|discriminate].
  cbn [Js.bind].
  destruct (CodeAnalyzer.analyzeProject read files pkg) as [analysis|e] eqn:Ean;
    [|discriminate].
  cbn [Js.bind].
  destruct (Api.storeFindings db (CodeAnalyzer.suggestions analysis)) as [ids|e] eqn:Eids;
    [|discriminate].
  cbn [Js.bind].
  destruct (Api.updateScanStatus db "done"); [|discriminate].
  cbn [Js.bind]. intros H. injection H as <- <-.
  apply storeFindings_length in Eids.
  destruct (analyzeProject_suggestions _ _ _ _ Ean) as [Hs _].
  unfold Api.summaryOf.
  cbn [Api.findingsCount Api.estimatedImpact Api.topSuggestion].
  rewrite Eids, length_map. rewrite Hs. clear.
  rewrite generateSuggestions_cases.
  destruct (CodeAnalyzer.hasChat (CodeAnalyzer.out_patterns analysis)),
           (CodeAnalyzer.hasSearch (CodeAnalyzer.out_patterns analysis)),
           (CodeAnalyzer.security (CodeAnalyzer.out_dependencies analysis)) as [|x xs];
    (split; [vm_compute; repeat (constructor; [repeat split; try reflexivity; tauto|]);
             constructor|]);
    (split; [reflexivity|]);
    (split; [vm_compute; split; lia|]);
    (split; [vm_compute; reflexivity|]);
    vm_compute; tauto.
Qed.

Lemma stored_scan_levels_witness :
  exists rows summary,
    Api.processScan Demo.store (Js.Ok Sample.scanResult)
      (fun _ => CodeAnalyzer.analyzeProject Sample.read Demo.files Sample.pkg)
    = Js.Ok (rows, summary) /\
    Forall (fun r =>
              In (Api.row_impact r) ["high"; "medium"] /\
              In (Api.row_effort r) ["low"; "medium"] /\
              In (Api.row_category r) ["ux"; "business"; "devops"; "content"; "security"] /\
              (Api.row_confidence r == 8 # 10)%Q) rows /\
    Api.findingsCount summary = List.length rows /\
    (3 <= List.length rows <= 6)%nat /\
    Api.estimatedImpact summary = "high" /\
    In (Api.topSuggestion summary)
       [CodeAnalyzer.title CodeAnalyzer.dependencyRisks;
        CodeAnalyzer.title CodeAnalyzer.chatbot;
        CodeAnalyzer.title CodeAnalyzer.monitoringSuggestion].
Proof.
  eexists. eexists. split; [vm_compute; reflexivity|].
  apply (stored_scan_levels Demo.store (Js.Ok Sample.scanResult) Sample.read Demo.files
           Sample.pkg).
  vm_compute. reflexivity.
Defined.

(* ===================================================================== *)
(** ** The coarse scan *)
(* ===================================================================== *)

Section ScanProjectFacts.
Import ScanProject.

Lemma countOf_bump (e x : string) (m : ExtCount) :
  countOf e (bump x m) = if String.eqb x e then S (countOf e m) else countOf e m.
Proof.
  unfold countOf. induction m as [|[k n] r IH]; simpl.
  - destruct (String.eqb x e); reflexivity.
  - destruct (String.eqb_spec k x) as [->|Hkx]; simpl.
    + destruct (String.eqb x e); reflexivity.
    + destruct (String.eqb_spec k e) as [->|Hke].
      * destruct (String.eqb_spec x e) as [->|_]; [congruence|reflexivity].
      * exact IH.
Qed.

Lemma countOf_extCounts (e : string) (files : list string) (m : ExtCount) :
  Nat.ltb 0 (countOf e (fold_left (fun m f => bump (extOf f) m) files m)) =
  orb (Nat.ltb 0 (countOf e m)) (existsb (fun f => String.eqb (extOf f) e) files).
Proof.
  revert m. induction files as [|f r IH]; intros m; simpl.
  - now rewrite orb_false_r.
  - rewrite IH, countOf_bump.
    destruct (String.eqb (extOf f) e); simpl.
    + now rewrite orb_true_r.
    + reflexivity.
Qed.

Lemma scanEndpoints_readable files read :
  Forall (fun f => JsText.endsWith f ".js" = true ->
                   exists c, read (entryPath f) = Js.Ok c) files ->
  exists r, scanEndpoints files read = Js.Ok r.
Proof.
  induction 1 as [|f r Hf _ [eps IH]]; simpl; [eexists; reflexivity|].
  destruct (JsText.endsWith f ".js"); [|eexists; exact IH].
  destruct (Hf eq_refl) as [c ->]. cbn [Js.bind]. rewrite IH. cbn [Js.bind].
  eexists; reflexivity.
Qed.

Lemma scanAuthFlows_readable files read :
  Forall (fun f => JsText.endsWith f ".js" = true ->
                   exists c, read (entryPath f) = Js.Ok c) files ->
  exists r, scanAuthFlows files read = Js.Ok r.
Proof.
  induction 1 as [|f r Hf _ [eps IH]]; simpl; [eexists; reflexivity|].
  destruct (JsText.endsWith f ".js"); [|eexists; exact IH].
  destruct (Hf eq_refl) as [c ->]. cbn [Js.bind]. rewrite IH. cbn [Js.bind].
  eexists; reflexivity.
Qed.

Lemma scanEndpoints_first_error pre f post read e :
  Forall (fun g => JsText.endsWith g ".js" = true ->
                   exists c, read (entryPath g) = Js.Ok c) pre ->
  JsText.endsWith f ".js" = true -> read (entryPath f) = Js.Throw e ->
  scanEndpoints (pre ++ f :: post) read = Js.Throw e.
Proof.
  intros Hpre Hext Hread. induction Hpre as [|g r Hg _ IH]; simpl.
  - now rewrite Hext, Hread.
  - destruct (JsText.endsWith g ".js"); [|exact IH].
    destruct (Hg eq_refl) as [c ->]. cbn [Js.bind]. now rewrite IH.
Qed.

End ScanProjectFacts.

(** X18.  The language reported by the coarse scan is decided by which
    extensions occur among the entries of the project root, not by how
    often: 'JavaScript' as soon as one entry has the extension .js
    (in any letter case), otherwise 'Python' if one has .py, otherwise
    'TypeScript' if one has .ts, otherwise 'Unknown'. *)
Theorem detectLanguage_prefers_js_then_py_then_ts (files : list string) :
  let has := fun e => existsb (fun f => String.eqb (ScanProject.extOf f) e) files in
  ScanProject.detectLanguage files =
    if has ".js" then "JavaScript"
    else if has ".py" then "Python"
    else if has ".ts" then "TypeScript"
    else "Unknown".
Proof.
  cbv zeta. unfold ScanProject.detectLanguage, ScanProject.extCounts.
  rewrite !countOf_extCounts. reflexivity.
Qed.

(** X19.  The coarse scan needs every entry of the project root whose
    name ends in '.js' to be readable as a file: given the listing, it
    returns exactly when all of them are, and otherwise it throws the
    error of the first one that is not (a directory named 'chart.js',
    say); [POST /upload] then answers 500 with that error and the
    analysis id, whatever the five strategies would have returned. *)
Theorem coarse_scan_needs_every_top_level_script
    {A : Type} (s : Server.Strategies A) (analysisId timestamp projectPath : string)
    (files : list string) (read : Fs.Reader) (w : Server.World) :
  ((exists r, ScanProject.scanProject (Js.Ok files) read = Js.Ok r) <->
   Forall (fun f => JsText.endsWith f ".js" = true ->
                    exists c, read (ScanProject.entryPath f) = Js.Ok c) files) /\
  forall pre f post e,
    files = pre ++ f :: post ->
    Forall (fun g => JsText.endsWith g ".js" = true ->
                     exists c, read (ScanProject.entryPath g) = Js.Ok c) pre ->
    JsText.endsWith f ".js" = true ->
    read (ScanProject.entryPath f) = Js.Throw e ->
    ScanProject.scanProject (Js.Ok files) read = Js.Throw e /\
    fst (Server.upload s analysisId timestamp (Js.Ok projectPath)
           (fun _ => ScanProject.scanProject (Js.Ok files) read) w)
    = Server.Failure e (Some analysisId).
Proof.
  split; [split|].
  - intros [r Hr]. unfold ScanProject.scanProject in Hr. cbn [Js.bind] in Hr.
    destruct (ScanProject.scanEndpoints files read) as [eps|e] eqn:E; [|discriminate].
    clear Hr. revert eps E. induction files as [|f rest IH]; intros eps E; [constructor|].
    simpl in E. destruct (JsText.endsWith f ".js") eqn:Ef.
    + destruct (read (ScanProject.entryPath f)) as [c|e] eqn:Er; [|discriminate].
      cbn [Js.bind] in E.
      destruct (ScanProject.scanEndpoints rest read) as [eps'|e] eqn:E'; [|discriminate].
      constructor; [intros _; now exists c | eapply IH; reflexivity].
    + constructor; [intros Hf; congruence | eapply IH; exact E].
  - intros H. unfold ScanProject.scanProject. cbn [Js.bind].
    destruct (scanEndpoints_readable files read H) as [eps ->].
    destruct (scanAuthFlows_readable files read H) as [au ->].
    cbn [Js.bind]. eexists; reflexivity.
  - intros pre f post e -> Hpre Hext Hread.
    assert (Hscan : ScanProject.scanProject (Js.Ok (pre ++ f :: post)) read = Js.Throw e).
    { unfold ScanProject.scanProject. cbn [Js.bind].
      now rewrite (scanEndpoints_first_error pre f post read e Hpre Hext Hread). }
    split; [exact Hscan|].
    unfold Server.upload. rewrite Hscan. reflexivity.
Qed.

Lemma coarse_scan_witness :
  ScanProject.scanProject (Js.Ok Demo.entries) Demo.readEntry
  = Js.Throw "EISDIR: illegal operation on a directory, read" /\
  fst (Server.upload Sample.secondSucceeds "1700000000000" "2024-01-01T00:00:00.000Z"
         (Js.Ok "/proj")
         (fun _ => ScanProject.scanProject (Js.Ok Demo.entries) Demo.readEntry)
         Server.emptyWorld)
  = Server.Failure "EISDIR: illegal operation on a directory, read" (Some "1700000000000").
Proof.
  apply (proj2 (coarse_scan_needs_every_top_level_script Sample.secondSucceeds
                  "1700000000000" "2024-01-01T00:00:00.000Z" "/proj"
                  Demo.entries Demo.readEntry Server.emptyWorld)
               ["server.js"] "chart.js" ["shop.js"; "package.json"]
               "EISDIR: illegal operation on a directory, read").
  - reflexivity.
  - repeat constructor. intros _. eexists. reflexivity.
  - reflexivity.
  - reflexivity.
Defined.

(* ===================================================================== *)
(** ** Route registrations *)
(* ===================================================================== *)

Section RouteFacts.
Import ScanProject.

Lemma strlen_app (a b : string) :
  String.length (a ++ b)%string = (String.length a + String.length b)%nat.
Proof. induction a as [|c a IH]; simpl; [reflexivity|now rewrite IH]. Qed.

Lemma plain_not_quote (c : ascii) : plain c = true -> isQuote c = false.
Proof.
  unfold plain. intros H. apply negb_true_iff in H.
  apply orb_false_iff in H. tauto.
Qed.

Lemma plain_not_line_end (c : ascii) (s : string) :
  plain c = true -> Regex.at_line_end (String c s) = false.
Proof.
  unfold plain. intros H. apply negb_true_iff in H.
  apply orb_false_iff in H. destruct H as [_ H].
  apply orb_false_iff in H. destruct H as [H10 H].
  apply orb_false_iff in H. destruct H as [H13 H226].
  unfold Regex.at_line_end. rewrite H10, H13. cbn [orb prefix].
  destruct (ascii_dec "226" c) as [<-|_]; [discriminate H226|].
  reflexivity.
Qed.

Lemma lazyPath_plain (p acc rest : string) (q : ascii) :
  allPlain p = true -> isQuote q = true ->
  lazyPath (p ++ String q rest) acc = Some ((acc ++ p)%string, rest).
Proof.
  revert acc. induction p as [|c p IH]; intros acc Hp Hq.
  - cbn. rewrite Hq. now rewrite append_nil_r.
  - cbn [allPlain] in Hp. apply andb_true_iff in Hp. destruct Hp as [Hc Hp].
    cbn [append lazyPath]. rewrite (plain_not_quote c Hc).
    rewrite (plain_not_line_end c _ Hc).
    rewrite IH by assumption. now rewrite append_assoc.
Qed.

Lemma routeHere_rendered (m p rest : string) (q : ascii) :
  In m methods -> allPlain p = true -> isQuote q = true ->
  routeHere methods ("app." ++ m ++ "(" ++ String q (p ++ String q rest)) =
  Some (m, p, rest).
Proof.
  intros Hm Hp Hq.
  pose proof (lazyPath_plain p EmptyString rest q Hp Hq) as Hl. cbn [append] in Hl.
  unfold methods in Hm. cbn [In] in Hm.
  set (X := (p ++ String q rest)%string) in *. clearbody X.
  destruct Hm as [<-|[<-|[<-|[<-|[]]]]];
    cbv -[lazyPath isQuote]; rewrite Hq, Hl; reflexivity.
Qed.

Lemma drop_length (n : nat) (s : string) :
  (String.length (Regex.drop n s) <= String.length s)%nat.
Proof.
  revert s. induction n as [|n IH]; intros s; [simpl; lia|].
  destruct s as [|c s]; simpl; [lia|]. specialize (IH s). lia.
Qed.

Lemma lazyPath_shorter (s acc p rest : string) :
  lazyPath s acc = Some (p, rest) -> (String.length rest < String.length s)%nat.
Proof.
  revert acc. induction s as [|c s IH]; intros acc H; [discriminate|].
  cbn [lazyPath] in H. destruct (isQuote c).
  - injection H as _ <-. simpl. lia.
  - destruct (Regex.at_line_end (String c s)); [discriminate|].
    apply IH in H. simpl. lia.
Qed.

Lemma routeWith_shorter (m s m' p rest : string) :
  routeWith m s = Some (m', p, rest) -> (String.length rest < String.length s)%nat.
Proof.
  unfold routeWith, after.
  destruct (prefix ("app." ++ m ++ "(") s); [|discriminate].
  pose proof (drop_length (String.length ("app." ++ m ++ "(")) s) as Hd.
  destruct (Regex.drop (String.length ("app." ++ m ++ "(")) s) as [|q s']; [discriminate|].
  destruct (isQuote q); [|discriminate].
  destruct (lazyPath s' EmptyString) as [[p' rest']|] eqn:El; [|discriminate].
  intros H. injection H as _ _ <-.
  apply lazyPath_shorter in El. simpl in Hd. lia.
Qed.

Lemma routeHere_shorter (ms : list string) (s m p rest : string) :
  routeHere ms s = Some (m, p, rest) -> (String.length rest < String.length s)%nat.
Proof.
  induction ms as [|m0 ms IH]; [discriminate|].
  cbn [routeHere]. destruct (routeWith m0 s) as [[[m' p'] rest']|] eqn:E; [|exact IH].
  intros H. injection H as _ _ <-. eapply routeWith_shorter; eauto.
Qed.

(** The fuel of [routes] is only a bound on the recursion: any fuel above
    the length of the text gives the same list. *)
Lemma routes_fuel (fuel fuel' : nat) (s : string) :
  (String.length s < fuel)%nat -> (String.length s < fuel')%nat ->
  routes fuel s = routes fuel' s.
Proof.
  revert fuel' s. induction fuel as [|fuel IH]; intros fuel' s H H'; [lia|].
  destruct fuel' as [|fuel']; [lia|].
  cbn [routes].
  destruct (routeHere methods s) as [[[m p] rest]|] eqn:E.
  - apply routeHere_shorter in E. f_equal. apply IH; lia.
  - destruct s as [|c s]; [reflexivity|]. simpl in H, H'. apply IH; lia.
Qed.

Lemma routes_skip (fuel : nat) (c : ascii) (s : string) :
  Ascii.eqb c "a" = false -> routes (S fuel) (String c s) = routes fuel s.
Proof.
  intros Hc. cbn [routes].
  assert (Hnone : routeHere methods (String c s) = None).
  { unfold methods, routeHere, routeWith, after.
    cbn [append prefix].
    destruct (ascii_dec "a" c) as [<-|_]; [discriminate Hc|]. reflexivity. }
  now rewrite Hnone.
Qed.

Lemma routes_program (q : ascii) (rs : list (string * string)) :
  isQuote q = true ->
  Forall (fun r => In (fst r) methods /\ allPlain (snd r) = true) rs ->
  forall fuel, (String.length (program q rs) < fuel)%nat ->
               routes fuel (program q rs) = rs.
Proof.
  intros Hq H. induction H as [|[m p] rs [Hm Hp] _ IH]; intros fuel Hfuel.
  - destruct fuel; [lia|]. reflexivity.
  - cbn [fst snd] in Hm, Hp.
    change (program q ((m, p) :: rs))
      with (render q (m, p) ++ ";" ++ String "010" (program q rs))%string in *.
    unfold render in *. cbn [fst snd] in *.
    set (tail := program q rs) in *.
    assert (Htext : (("app." ++ m ++ "(" ++ String q p ++ String q ")") ++
                     ";" ++ String "010" tail)%string =
                    ("app." ++ m ++ "(" ++
                     String q (p ++ String q (String ")" (String ";" (String "010" tail)))))%string).
    { cbn [append]. f_equal. f_equal. f_equal. f_equal.
      rewrite !append_assoc. cbn [append]. f_equal. f_equal.
      rewrite append_assoc. reflexivity. }
    rewrite Htext in *.
    destruct fuel as [|fuel]; [lia|].
    cbn [routes]. rewrite (routeHere_rendered m p _ q Hm Hp Hq).
    f_equal.
    assert (Hlen : (String.length tail + 3 < fuel)%nat).
    { revert Hfuel. cbn [append String.length]. rewrite !strlen_app.
      cbn [String.length]. rewrite !strlen_app. cbn [String.length]. lia. }
    rewrite (routes_fuel fuel (S (S (S (S (String.length tail)))))
               (String ")" (String ";" (String "010" tail))))
      by (cbn [String.length]; lia).
    rewrite !routes_skip by reflexivity.
    apply IH. lia.
Qed.

End RouteFacts.

(** X20.  The route scan recovers what a source text registers: for a
    text made of statements [app.<method>(<quote><path><quote>);] with
    methods among get, post, put and delete, either quote character, and
    paths free of quotes and line terminators, [routesOf] returns
    exactly the registered routes, in order. *)
Theorem routes_of_registrations_are_recovered
    (quote : ascii) (rs : list (string * string)) :
  ScanProject.isQuote quote = true ->
  Forall (fun r => In (fst r) ScanProject.methods /\
                   ScanProject.allPlain (snd r) = true) rs ->
  ScanProject.routesOf (ScanProject.program quote rs) = rs.
Proof.
  intros Hq H. unfold ScanProject.routesOf.
  apply routes_program; [exact Hq | exact H | lia].
Qed.

Lemma routes_of_registrations_witness :
  ScanProject.routesOf
    (ScanProject.program "039" [("get", "/users/:id"); ("post", "/login")])
  = [("get", "/users/:id"); ("post", "/login")].
Proof.
  apply (routes_of_registrations_are_recovered "039"
           [("get", "/users/:id"); ("post", "/login")]).
  - reflexivity.
  - repeat (constructor; [split; [in_strings | reflexivity]|]). constructor.
Defined.

(* ===================================================================== *)
(** ** GitHub URLs *)
(* ===================================================================== *)

Section GitHubFacts.
Import GitHubIntegration.

Lemma no_slash_cons (c : ascii) (s : string) :
  Js.includes (String c s) "/" = false ->
  Ascii.eqb c "/" = false /\ Js.includes s "/" = false.
Proof.
  cbn [Js.includes prefix].
  destruct (ascii_dec "/" c) as [<-|Hne].
  - destruct s; discriminate.
  - intros H. split; [|exact H].
    apply Ascii.eqb_neq. congruence.
Qed.

Lemma segment_stops_at_slash (a rest : string) :
  Js.includes a "/" = false ->
  segment (a ++ String "/" rest) = (a, String "/" rest).
Proof.
  induction a as [|c a IH]; intros H; [reflexivity|].
  apply no_slash_cons in H. destruct H as [Hc Ha].
  cbn [append segment]. rewrite Hc, (IH Ha). reflexivity.
Qed.

Lemma segment_to_end (a : string) :
  Js.includes a "/" = false -> segment a = (a, EmptyString).
Proof.
  induction a as [|c a IH]; intros H; [reflexivity|].
  apply no_slash_cons in H. destruct H as [Hc Ha].
  cbn [segment]. rewrite Hc, (IH Ha). reflexivity.
Qed.

Lemma removeFirst_cons (c : ascii) (s pat : string) :
  prefix pat (String c s) = false ->
  JsText.removeFirst (String c s) pat = String c (JsText.removeFirst s pat).
Proof. intros H. cbn [JsText.removeFirst]. now rewrite H. Qed.

Lemma removeFirst_after_dotless (a b : string) :
  Js.includes a "." = false ->
  JsText.removeFirst (a ++ ".git" ++ b) ".git" = (a ++ b)%string.
Proof.
  induction a as [|c a IH]; intros H; [destruct b; reflexivity|].
  assert (Hc : prefix ".git" (String c (a ++ ".git" ++ b)) = false /\
               Js.includes a "." = false).
  { cbn [Js.includes prefix] in H. cbn [prefix].
    destruct (ascii_dec "." c) as [<-|Hne]; [destruct a; discriminate|].
    split; [reflexivity|exact H]. }
  destruct Hc as [Hp Ha].
  change ((String c a ++ ".git" ++ b)%string) with (String c (a ++ ".git" ++ b)).
  rewrite (removeFirst_cons c _ ".git" Hp), (IH Ha). reflexivity.
Qed.

Lemma matchUrl_here (s : string) (r : string * string) :
  matchHere s = Some r -> matchUrl s = Some r.
Proof. intros H. destruct s; cbn [matchUrl]; now rewrite H. Qed.

Lemma matchUrl_skip (c : ascii) (s : string) :
  matchHere (String c s) = None -> matchUrl (String c s) = matchUrl s.
Proof. intros H. cbn [matchUrl]. now rewrite H. Qed.

Lemma matchUrl_https (X : string) (r : string * string) :
  matchHere ("github.com/" ++ X) = Some r ->
  matchUrl ("https://github.com/" ++ X) = Some r.
Proof.
  intros H. cbn [append].
  do 8 (rewrite matchUrl_skip by reflexivity).
  now apply matchUrl_here.
Qed.

Lemma matchHere_segments (owner repo X t : string) :
  owner <> EmptyString -> repo <> EmptyString ->
  segment X = (owner, String "/" (repo ++ t)) ->
  segment (repo ++ t) = (repo, t) ->
  matchHere ("github.com/" ++ X) = Some (owner, repo).
Proof.
  intros Ho Hr HX Hrepo. unfold matchHere.
  assert (Hafter : ScanProject.after "github.com/" ("github.com/" ++ X) = Some X)
    by (destruct X; reflexivity).
  rewrite Hafter, HX.
  destruct owner as [|c owner]; [contradiction|].
  rewrite Hrepo.
  destruct repo as [|d repo]; [contradiction|]. reflexivity.
Qed.

End GitHubFacts.

(** X21.  A repository URL is read back as written: for a non-empty
    owner and repository name without '/', the URL
    https://github.com/<owner>/<repo>, alone or followed by a path such
    as /tree/dev, yields exactly that owner and name; the branch named
    in such a path is ignored.  The repository name then loses its first
    '.git' wherever it stands: after a name without dots a trailing
    '.git' is dropped, and so is a '.git' in the middle of the name. *)
Theorem github_url_is_read_back (owner repo tail : string) :
  owner <> EmptyString -> repo <> EmptyString ->
  Js.includes owner "/" = false -> Js.includes repo "/" = false ->
  GitHubIntegration.matchUrl ("https://github.com/" ++ owner ++ "/" ++ repo) =
    Some (owner, repo) /\
  GitHubIntegration.matchUrl ("https://github.com/" ++ owner ++ "/" ++ repo ++ "/" ++ tail) =
    Some (owner, repo) /\
  (Js.includes repo "." = false ->
   forall rest,
     GitHubIntegration.downloadUrl owner (repo ++ ".git" ++ rest) =
     ("https://github.com/" ++ owner ++ "/" ++ (repo ++ rest)
      ++ "/archive/refs/heads/main.zip")%string).
Proof.
  intros Ho Hr Hos Hrs. repeat split.
  - apply matchUrl_https.
    apply (matchHere_segments owner repo _ EmptyString Ho Hr).
    + rewrite append_nil_r. now apply segment_stops_at_slash.
    + rewrite append_nil_r. now apply segment_to_end.
  - apply matchUrl_https.
    apply (matchHere_segments owner repo _ (String "/" tail) Ho Hr).
    + now apply segment_stops_at_slash.
    + now apply segment_stops_at_slash.
  - intros Hdot rest. unfold GitHubIntegration.downloadUrl, GitHubIntegration.cleanRepo.
    now rewrite removeFirst_after_dotless.
Qed.

Lemma github_url_is_read_back_witness :
  GitHubIntegration.matchUrl "https://github.com/OneBookR/AI-Arkitekt" =
    Some ("OneBookR", "AI-Arkitekt") /\
  GitHubIntegration.matchUrl "https://github.com/OneBookR/AI-Arkitekt/tree/dev" =
    Some ("OneBookR", "AI-Arkitekt") /\
  GitHubIntegration.downloadUrl "OneBookR" "AI-Arkitekt.github.io" =
    "https://github.com/OneBookR/AI-Arkitekthub.io/archive/refs/heads/main.zip".
Proof.
  destruct (github_url_is_read_back "OneBookR" "AI-Arkitekt" "tree/dev")
    as (H1 & H2 & H3); try reflexivity; try discriminate.
  split; [exact H1|]. split; [exact H2|].
  exact (H3 eq_refl "hub.io").
Defined.

(** X22.  A URL in which the pattern finds no owner and repository never
    reaches the network: [analyzeFromGitHub] throws 'Ogiltig GitHub URL'
    behind its fixed prefix, and [POST /analyze-github], given such a
    URL that is not the empty string, answers 500 with that message,
    whatever the remote side and the strategies would do.  Conversely a
    fetch that succeeds always carries repository information, and its
    URL was matched. *)
Theorem github_fetch_rejects_unmatched_urls
    {A : Type} (s : Server.Strategies A) (timestamp repoUrl : string)
    (net : GitHubIntegration.Remote)
    (scanProject : string -> Js.result Fs.Error Server.ScanResult) (w : Server.World) :
  (GitHubIntegration.matchUrl repoUrl = None ->
   GitHubIntegration.analyzeFromGitHub net repoUrl =
     Js.Throw "GitHub-integration misslyckades: Ogiltig GitHub URL" /\
   (repoUrl <> EmptyString ->
    Server.analyzeGithub s timestamp (Some repoUrl) (GitHubIntegration.fetched net)
      scanProject w =
    (Server.Failure "GitHub-integration misslyckades: Ogiltig GitHub URL" None, w))) /\
  (forall projectPath info,
     GitHubIntegration.analyzeFromGitHub net repoUrl = Js.Ok (projectPath, info) ->
     info <> None /\ GitHubIntegration.matchUrl repoUrl <> None).
Proof.
  split.
  - intros Hm.
    assert (Hthrow : GitHubIntegration.analyzeFromGitHub net repoUrl =
                     Js.Throw "GitHub-integration misslyckades: Ogiltig GitHub URL").
    { unfold GitHubIntegration.analyzeFromGitHub, GitHubIntegration.getRepositoryInfo,
             GitHubIntegration.downloadRepository.
      rewrite Hm. reflexivity. }
    split; [exact Hthrow|]. intros _.
    unfold Server.analyzeGithub, GitHubIntegration.fetched. rewrite Hthrow. reflexivity.
  - intros projectPath info H.
    unfold GitHubIntegration.analyzeFromGitHub, GitHubIntegration.getRepositoryInfo,
           GitHubIntegration.downloadRepository in H.
    destruct (GitHubIntegration.matchUrl repoUrl) as [[owner repo]|]; [|discriminate].
    split; [|discriminate].
    destruct (GitHubIntegration.repositoryInfo net owner (GitHubIntegration.cleanRepo repo))
      as [i|e]; [|discriminate].
    cbn [Js.bind] in H.
    destruct (GitHubIntegration.download net _) as [z|e]; [|discriminate].
    cbn [Js.bind] in H.
    destruct (GitHubIntegration.extractRepository net z) as [pp|e]; [|discriminate].
    cbn [Js.bind] in H.
    destruct (GitHubIntegration.unlinkSync net z) as [u|e]; [|discriminate].
    cbn [Js.bind] in H. injection H as _ <-. discriminate.
Qed.

Lemma github_fetch_witness :
  Server.analyzeGithub Sample.secondSucceeds "2024-01-01T00:00:00.000Z"
    (Some "https://gitlab.com/OneBookR/AI-Arkitekt") (GitHubIntegration.fetched Demo.remote)
    (fun _ => Js.Ok Sample.scanResult) Server.emptyWorld =
  (Server.Failure "GitHub-integration misslyckades: Ogiltig GitHub URL" None,
   Server.emptyWorld) /\
  (GitHubIntegration.analyzeFromGitHub Demo.remote "https://github.com/OneBookR/AI-Arkitekt"
   = Js.Ok ("/uploads/extracted/repo-main", Some "{name:AI-Arkitekt}") /\
   Some "{name:AI-Arkitekt}" <> None /\
   GitHubIntegration.matchUrl "https://github.com/OneBookR/AI-Arkitekt" <> None).
Proof.
  split.
  - apply (proj1 (github_fetch_rejects_unmatched_urls Sample.secondSucceeds
                    "2024-01-01T00:00:00.000Z" "https://gitlab.com/OneBookR/AI-Arkitekt"
                    Demo.remote (fun _ => Js.Ok Sample.scanResult) Server.emptyWorld));
      [reflexivity | discriminate].
  - split; [reflexivity|].
    apply (proj2 (github_fetch_rejects_unmatched_urls Sample.secondSucceeds
                    "2024-01-01T00:00:00.000Z" "https://github.com/OneBookR/AI-Arkitekt"
                    Demo.remote (fun _ => Js.Ok Sample.scanResult) Server.emptyWorld)
                 "/uploads/extracted/repo-main" (Some "{name:AI-Arkitekt}")).
    reflexivity.
Defined.


(* ===================================================================== *)
(** ** The walk, once more *)
(* ===================================================================== *)

Lemma scan_each (fuel : nat) (env : Walk.Env) (dir rel : string)
    (acc : list Fs.FileRecord) :
  Walk.scan (S fuel) env dir rel acc =
  match Walk.readdirSync env (dir ++ rel)%string with
  | Js.Throw _ => acc
  | Js.Ok items => WalkLoop.each (Walk.scan fuel env dir) env dir rel items acc
  end.
Proof.
  cbn [Walk.scan].
  destruct (Walk.readdirSync env (dir ++ rel)%string) as [items|e]; [|reflexivity].
  revert acc. induction items as [|item rest IH]; intros acc; [reflexivity|].
  cbn [WalkLoop.each].
  destruct (Walk.statSync env (dir ++ rel ++ "/" ++ item)%string) as [[| |]|e];
    try reflexivity; try apply IH.
  destruct (Walk.descends item); apply IH.
Qed.

Lemma each_stops_at_failure scanDir env dir rel pre bad post acc e :
  Walk.statSync env (dir ++ rel ++ "/" ++ bad)%string = Js.Throw e ->
  WalkLoop.each scanDir env dir rel (pre ++ bad :: post) acc =
  WalkLoop.each scanDir env dir rel pre acc.
Proof.
  intros Hbad. revert acc. induction pre as [|item pre IH]; intros acc.
  - cbn [app WalkLoop.each]. now rewrite Hbad.
  - cbn [app WalkLoop.each].
    destruct (Walk.statSync env (dir ++ rel ++ "/" ++ item)%string) as [[| |]|e'];
      try reflexivity; try apply IH.
    destruct (Walk.descends item); apply IH.
Qed.

(** X23.  An entry whose [statSync] throws (a dangling symbolic link,
    say) ends the walk of its directory: what the guarded walk records
    for the directory is what it records for the entries listed before
    that entry, and nothing listed after it is looked at, be it a file
    or a subdirectory. *)
Theorem walk_drops_entries_after_a_failed_stat
    (fuel : nat) (env : Walk.Env) (dir rel : string) (pre post : list string)
    (bad : string) (e : Fs.Error) (acc : list Fs.FileRecord) :
  Walk.readdirSync env (dir ++ rel)%string = Js.Ok (pre ++ bad :: post) ->
  Walk.statSync env (dir ++ rel ++ "/" ++ bad)%string = Js.Throw e ->
  Walk.scan (S fuel) env dir rel acc =
  WalkLoop.each (Walk.scan fuel env dir) env dir rel pre acc.
Proof.
  intros Hdir Hbad. rewrite scan_each, Hdir.
  now apply each_stops_at_failure with (e := e).
Qed.

Lemma walk_drops_entries_witness :
  Walk.getAllFiles 2 Demo.danglingEnv "/proj" = [ {| Fs.path := "/a.js"; Fs.ext := ".js" |} ].
Proof.
  unfold Walk.getAllFiles.
  rewrite (walk_drops_entries_after_a_failed_stat 1 Demo.danglingEnv "/proj" EmptyString
             ["a.js"] ["b.js"] "gone" "ENOENT: no such file or directory" []).
  - reflexivity.
  - reflexivity.
  - reflexivity.
Defined.

Lemma baseline_scan_agrees (fuel : nat) (env : Walk.Env) (dir : string) :
  forall rel acc l,
    BaselineWalk.scan fuel env dir rel acc = Js.Ok l ->
    Walk.scan fuel env dir rel acc = l.
Proof.
  induction fuel as [|fuel IH]; intros rel acc l H; [discriminate|].
  cbn [BaselineWalk.scan Walk.scan] in *.
  destruct (Walk.readdirSync env (dir ++ rel)%string) as [items|e]; [|discriminate].
  revert acc H. induction items as [|item rest IHi]; intros acc H.
  - now injection H.
  - destruct (Walk.statSync env (dir ++ rel ++ "/" ++ item)%string) as [[| |]|e];
      try discriminate.
    + apply IHi, H.
    + destruct (Walk.descends item); [|apply IHi, H].
      destruct (BaselineWalk.scan fuel env dir (rel ++ "/" ++ item)%string acc)
        as [acc'|e] eqn:E; [|discriminate].
      rewrite (IH _ _ _ E). apply IHi, H.
    + apply IHi, H.
Qed.

(** X24.  The walk of the baseline analyzer has no [try]/[catch].
    Whenever it returns, it returns exactly the records of the guarded
    walk of the other analyzers on the same directory, and every record
    names a file that [statSync] reports as a file, below directories
    whose names neither start with a dot nor are 'node_modules'. *)
Theorem baseline_walk_returns_the_guarded_walk
    (fuel : nat) (env : Walk.Env) (dir : string) (l : list Fs.FileRecord) :
  BaselineWalk.getFileStructure fuel env dir = Js.Ok l ->
  l = Walk.getAllFiles fuel env dir /\
  Forall (Walk.recorded env dir) l.
Proof.
  intros H. unfold BaselineWalk.getFileStructure in H.
  apply baseline_scan_agrees in H. subst l. split; [reflexivity|].
  exact (scan_recorded env dir fuel [] [] (Forall_nil _) (Forall_nil _)).
Qed.

Lemma baseline_walk_witness :
  BaselineWalk.getFileStructure 3 Sample.linkedEnv "/proj" =
    Js.Ok [ {| Fs.path := "/src/a.js"; Fs.ext := ".js" |};
            {| Fs.path := "/vendor/secret.js"; Fs.ext := ".js" |} ] /\
  [ {| Fs.path := "/src/a.js"; Fs.ext := ".js" |};
    {| Fs.path := "/vendor/secret.js"; Fs.ext := ".js" |} ]
  = Walk.getAllFiles 3 Sample.linkedEnv "/proj" /\
  Forall (Walk.recorded Sample.linkedEnv "/proj")
    [ {| Fs.path := "/src/a.js"; Fs.ext := ".js" |};
      {| Fs.path := "/vendor/secret.js"; Fs.ext := ".js" |} ].
Proof.
  split; [reflexivity|].
  apply (baseline_walk_returns_the_guarded_walk 3 Sample.linkedEnv "/proj").
  reflexivity.
Defined.

(* ===================================================================== *)
(** ** The entry point of the full enhanced analyzer *)
(* ===================================================================== *)

Lemma Enhanced_patterns_all_readable read files p :
  Forall (fun g => Fs.readable read g = true) files ->
  exists p', EnhancedAnalyzer.detectAdvancedPatterns_from read files p = Js.Ok p'.
Proof.
  intros H. revert p. induction H as [|g r Hg _ IH]; intros p; [eexists; reflexivity|].
  simpl. unfold Fs.readable in Hg.
  destruct (EnhancedAnalyzer.isScanned (Fs.ext g)); [|apply IH].
  destruct (read (Fs.path g)); [simpl; apply IH|discriminate].
Qed.

Lemma Enhanced_gdpr_all_readable read files :
  Forall (fun g => Fs.readable read g = true) files ->
  exists r, EnhancedAnalyzerRun.performGDPRScan read files = Js.Ok r.
Proof.
  induction 1 as [|g r Hg _ [rs IH]]; [eexists; reflexivity|].
  simpl. unfold Fs.readable in Hg.
  destruct (CodeAnalyzer.isScript (Fs.ext g)); [|eexists; exact IH].
  destruct (read (Fs.path g)); [|discriminate].
  cbn [Js.bind]. rewrite IH. cbn [Js.bind]. eexists; reflexivity.
Qed.

(** X25.  [analyzeProjectAdvanced] of the full enhanced analyzer never
    returns: it throws for every project.  When every file can be read
    and package.json is absent or well-formed, the error is the
    [TypeError] of calling [this.scanSecurityIssues], a method the class
    does not define; an unreadable script or a malformed package.json
    makes it throw earlier. *)
Theorem full_enhanced_analyzer_always_throws
    (read : Fs.Reader) (files : list Fs.FileRecord) (pkg : PkgFile)
    (packages : list string) :
  exists e,
    EnhancedAnalyzerRun.analyzeProjectAdvanced read files pkg packages = Js.Throw e /\
    (Forall (fun f => Fs.readable read f = true) files -> pkg <> BadPkg ->
     e = "this.scanSecurityIssues is not a function").
Proof.
  unfold EnhancedAnalyzerRun.analyzeProjectAdvanced.
  destruct (EnhancedAnalyzer.detectAdvancedPatterns read files) as [p|e] eqn:Ep.
  2:{ exists e. split; [reflexivity|]. intros Hall _.
      destruct (Enhanced_patterns_all_readable read files
                  EnhancedAnalyzer.initialPatterns Hall) as [p' Hp'].
      unfold EnhancedAnalyzer.detectAdvancedPatterns in Ep. congruence. }
  cbn [Js.bind].
  destruct (EnhancedAnalyzer.inferBusinessContext pkg) as [c|e] eqn:Ec.
  2:{ exists e. split; [reflexivity|]. intros _ Hpkg.
      destruct pkg as [| |pj]; [discriminate Ec | congruence |].
      unfold EnhancedAnalyzer.inferBusinessContext in Ec. cbv zeta in Ec.
      repeat match type of Ec with
             | context [if ?b then (_, _) else _] => destruct b
             end; discriminate Ec. }
  cbn [Js.bind].
  destruct (EnhancedAnalyzerRun.performGDPRScan read files) as [r|e] eqn:Er.
  2:{ exists e. split; [reflexivity|]. intros Hall _.
      destruct (Enhanced_gdpr_all_readable read files Hall) as [r' Hr']. congruence. }
  cbn [Js.bind]. eexists. split; reflexivity.
Qed.

Lemma full_enhanced_analyzer_witness :
  EnhancedAnalyzerRun.analyzeProjectAdvanced Sample.read
    [ {| Fs.path := "/server.js"; Fs.ext := ".js" |};
      {| Fs.path := "/shop.js"; Fs.ext := ".js" |} ]
    Sample.pkg ["express"; "stripe"]
  = Js.Throw "this.scanSecurityIssues is not a function".
Proof.
  destruct (full_enhanced_analyzer_always_throws Sample.read
              [ {| Fs.path := "/server.js"; Fs.ext := ".js" |};
                {| Fs.path := "/shop.js"; Fs.ext := ".js" |} ]
              Sample.pkg ["express"; "stripe"]) as [e [He Hmsg]].
  rewrite He. f_equal. apply Hmsg.
  - repeat constructor.
  - discriminate.
Defined.

(** The search section of the sample catalog for a match in
    [/server.js]: Algolia (score 9), Meilisearch (6.5) and Typesense
    (5.5) are kept, Elastic (4) is left out. *)
Lemma selected_providers_witness :
  let m := {| CodeReplacementAnalyzer.file := "/server.js";
              CodeReplacementAnalyzer.m_current := "Enkel array-sökning";
              CodeReplacementAnalyzer.m_weakness := "Ingen relevans";
              CodeReplacementAnalyzer.lineNumber := 2%nat |} in
  [m] <> [] /\
  map (fun p => (name p, Qred (CodeReplacementAnalyzer.scoreRecommendation p)))
      (search Sample.db)
  = [("Algolia", 9); ("Elastic", 4); ("Typesense", 11 # 2); ("Meilisearch", 13 # 2)]%Q /\
  (exists best,
     CodeReplacementAnalyzer.selectBestRecommendations (search Sample.db) [m] = Js.Ok best /\
     map (fun r => (ref_name (CodeReplacementAnalyzer.rec_ref r),
                    CodeReplacementAnalyzer.whyBetter r)) best
     = [("Algolia", "Löser: Ingen relevans"); ("Meilisearch", "Löser: Ingen relevans");
        ("Typesense", "Löser: Ingen relevans")]) /\
  exists best chosen rest,
    CodeReplacementAnalyzer.selectBestRecommendations (search Sample.db) [m] = Js.Ok best /\
    map CodeReplacementAnalyzer.rec_ref best = map providerRef chosen /\
    Js.stablySorted CodeReplacementAnalyzer.scoreRecommendation (search Sample.db)
      (chosen ++ rest) /\
    (List.length chosen = Nat.min 3 (List.length (search Sample.db))) /\
    StronglySorted (fun a b => (CodeReplacementAnalyzer.scoreRecommendation b <=
                                CodeReplacementAnalyzer.scoreRecommendation a)%Q) chosen /\
    (forall a b, In a chosen -> In b rest ->
       (CodeReplacementAnalyzer.scoreRecommendation b <=
        CodeReplacementAnalyzer.scoreRecommendation a)%Q) /\
    (forall p, In p (search Sample.db) ->
       (0 <= CodeReplacementAnalyzer.scoreRecommendation p <= 18)%Q) /\
    (forall m' ms, [m] = m' :: ms ->
       Forall (fun r => CodeReplacementAnalyzer.whyBetter r =
                        ("Löser: " ++ CodeReplacementAnalyzer.m_weakness m')%string) best).
Proof.
  intros m.
  assert (H : [m] <> []) by discriminate.
  split; [exact H|]. split; [vm_compute; reflexivity|]. split.
  - eexists. split; [reflexivity|]. vm_compute. reflexivity.
  - exact (selected_providers_are_the_best_scoring (search Sample.db) [m] H).
Defined.

(** The score is the double of the source.  A provider with an ROI of 114
    and one of medium complexity with an ROI of 14 both come to 1.14 on
    paper; the source adds 1 and 0.14 to 1.1400000000000001 for the
    second, which therefore comes first although the catalog lists it
    last, and without a match the call throws. *)
Example score_is_the_double_of_the_source :
  let a := Sample.provider "A" "" "high" "114%" [] "search" in
  let b := Sample.provider "B" "" "medium" "14%" [] "search" in
  let m := {| CodeReplacementAnalyzer.file := "/server.js";
              CodeReplacementAnalyzer.m_current := "Enkel array-sökning";
              CodeReplacementAnalyzer.m_weakness := "Ingen relevans";
              CodeReplacementAnalyzer.lineNumber := 2%nat |} in
  (CodeReplacementAnalyzer.scoreRecommendation a
   < CodeReplacementAnalyzer.scoreRecommendation b)%Q /\
  (CodeReplacementAnalyzer.scoreRecommendation a == 5134103575202365 # 4503599627370496)%Q /\
  (CodeReplacementAnalyzer.scoreRecommendation b == 5134103575202366 # 4503599627370496)%Q /\
  (exists best,
     CodeReplacementAnalyzer.selectBestRecommendations [a; b] [m] = Js.Ok best /\
     map (fun r => ref_name (CodeReplacementAnalyzer.rec_ref r)) best = ["B"; "A"]) /\
  CodeReplacementAnalyzer.selectBestRecommendations [a; b] []
  = Js.Throw "Cannot read properties of undefined (reading 'weakness')".
Proof.
  intros a b m. split; [vm_compute; reflexivity|].
  split; [vm_compute; reflexivity|]. split; [vm_compute; reflexivity|].
  split; [|reflexivity].
  eexists. split; [reflexivity|]. vm_compute. reflexivity.
Qed.

Lemma scanFiles_never_sets_analytics read files acc :
  EnhancedAnalyzerSimple.hasAnalytics (fst (EnhancedAnalyzerSimple.scanFiles read files acc)) =
  EnhancedAnalyzerSimple.hasAnalytics (fst acc).
Proof.
  revert acc. induction files as [|f r IH]; intros acc; simpl; [reflexivity|].
  destruct (EnhancedAnalyzerSimple.isScanned (Fs.ext f)); [|apply IH].
  destruct (read (Fs.path f)); [|apply IH].
  rewrite IH. reflexivity.
Qed.

(** X26.  The marketplace of the enhanced analyzer of the chain lists
    the same five sections for every project, in the same order: AI and
    machine learning, analytics, search, communication and monitoring;
    the payments section is inserted after the first one exactly when
    the context is e-commerce or product code was detected.  No project
    can make the AI, analytics or search section disappear, because the
    scan never sets the flags that would. *)
Theorem enhanced_marketplace_sections
    (db : ApiDatabase) (read : Fs.Reader) (files : list Fs.FileRecord) (pkg : PkgFile) :
  exists o,
    EnhancedAnalyzerSimple.analyzeProjectAdvanced db read files pkg = Js.Ok o /\
    map fst (EnhancedAnalyzerSimple.marketplace o) =
      ["AI & Machine Learning"]
      ++ (if orb (String.eqb (EnhancedAnalyzerSimple.type
                                (EnhancedAnalyzerSimple.businessContext o)) "ecommerce")
                 (EnhancedAnalyzerSimple.hasProductCatalog
                    (EnhancedAnalyzerSimple.out_patterns o))
          then ["Betalningar & E-handel"] else [])
      ++ ["Analytics & Insikter"; "Sökning & Discovery";
          "Kommunikation & Marknadsföring"; "Monitorering & Prestanda"] /\
    Forall (fun e => fst e = "Sökning & Discovery" \/ fst e = "Monitorering & Prestanda" \/
                     (List.length (snd e) <= 4)%nat)
           (EnhancedAnalyzerSimple.marketplace o).
Proof.
  eexists. split; [reflexivity|].
  cbn [EnhancedAnalyzerSimple.marketplace EnhancedAnalyzerSimple.businessContext
       EnhancedAnalyzerSimple.out_patterns].
  pose proof (detect_unwritten_flags read files) as Hf. cbv zeta in Hf.
  destruct Hf as (Hchat & Hsearch & Hrec & _ & _).
  assert (Han : EnhancedAnalyzerSimple.hasAnalytics
                  (EnhancedAnalyzerSimple.detectAdvancedPatterns read files) = false).
  { unfold EnhancedAnalyzerSimple.detectAdvancedPatterns.
    pose proof (scanFiles_never_sets_analytics read files
                  (EnhancedAnalyzerSimple.initialPatterns, EmptyString)) as H.
    destruct (EnhancedAnalyzerSimple.scanFiles read files
                (EnhancedAnalyzerSimple.initialPatterns, EmptyString)) as [p c].
    cbn [fst] in H. exact H. }
  set (p := EnhancedAnalyzerSimple.detectAdvancedPatterns read files) in *.
  set (c := EnhancedAnalyzerSimple.inferBusinessContext read files pkg) in *.
  clearbody p c.
  unfold EnhancedAnalyzerSimple.getSimpleMarketplace.
  rewrite Hchat, Hsearch, Hrec, Han. cbn [negb orb].
  destruct (orb (String.eqb (EnhancedAnalyzerSimple.type c) "ecommerce")
                (EnhancedAnalyzerSimple.hasProductCatalog p)).
  - split; [reflexivity|].
    repeat (constructor;
            [cbn [fst snd];
             first [ now left | now (right; left)
                   | right; right;
                     match goal with
                     | |- (List.length (map ?f (Js.slice0 ?n ?l)) <= _)%nat =>
                         pose proof (slice_map_length f n l); lia
                     end ]|]).
    constructor.
  - split; [reflexivity|].
    repeat (constructor;
            [cbn [fst snd];
             first [ now left | now (right; left)
                   | right; right;
                     match goal with
                     | |- (List.length (map ?f (Js.slice0 ?n ?l)) <= _)%nat =>
                         pose proof (slice_map_length f n l); lia
                     end ]|]).
    constructor.
Qed.
